(** * Jurnal Medis: entry store, windowed analytics and health alerts

    A shallow embedding of the state handling of [App] (the two entry
    collections, their upsert handlers and the load effect), of the
    aggregates and alerts computed by [Dashboard] and of the chart data
    prepared by [Analytics]; further, of the handlers of the journal form
    and of the mood tracker, of the grid and the lookups of
    [CalendarView], and of the chat with the [/chat] route of the server.

    Conventions of the embedding:
    - a JavaScript [number] is an exact rational ([Q]): the values added
      are slider values (integers, or halves for hours), whose sums are
      exact in IEEE doubles as well, and a mean is such a sum divided once
      by a length, which a double rounds without moving it across the
      integer thresholds it is compared with;
    - a time value (the result of [getTime()]) is an integer number of
      milliseconds since the epoch ([Z]); an invalid date is [None];
    - an array is a [list]; [arr[i] = v] is stdpp's [<[i:=v]>];
    - an exception thrown during a render is the [None] of [option]. *)

From Stdlib Require Import ZArith QArith Qround Lia List Ascii String.
From stdpp Require Import base list strings gmap sorting.

Local Open Scope Z_scope.

(** ** Entry types (App.tsx, dashboard.tsx, analytics.tsx) *)

Record Medication := mkMedication {
  name : string;
  taken : bool;
  time : string
}.

Module JournalEntry.
Record t := mk {
  id : string;
  date : string;
  medications : list Medication;
  sleepHours : Q;
  sleepQuality : Q;
  studyHours : Q;
  studySubjects : string;
  clinicalRotation : string;
  journalText : string;
  gratitude : string;
  goals : string;
  wellness : string;
  challenges : string;
  learnings : string
}.
End JournalEntry.

Module MoodEntry.
Record t := mk {
  id : string;
  timestamp : string;
  mood : Q;
  anxiety : Q;
  energy : Q;
  stress : Q;
  psychoticSymptoms : list string;
  triggers : string;
  notes : string;
  location : option string;
  weather : option string
}.
End MoodEntry.

(** Both entry kinds carry an [id]; the two save handlers of [App] are the
    same code over it. *)
Class HasId (A : Type) := entry_id : A -> string.
#[export] Instance JournalEntry_HasId : HasId JournalEntry.t := JournalEntry.id.
#[export] Instance MoodEntry_HasId : HasId MoodEntry.t := MoodEntry.id.

(** ** Array helpers *)

(** [Array.prototype.findIndex]: the first index whose element satisfies
    the predicate, [-1] when there is none. *)
Fixpoint findIndex_from {A : Type} (p : A -> bool) (l : list A) (i : Z) : Z :=
  match l with
  | [] => -1
  | x :: l' => if p x then i else findIndex_from p l' (i + 1)
  end.

Definition findIndex {A : Type} (p : A -> bool) (l : list A) : Z :=
  findIndex_from p l 0.

(** [s === t] on strings. *)
Definition str_eqb (s t : string) : bool := bool_decide (s = t).

(** ** EntryStore: the updater passed to [setJournalEntries] /
    [setMoodEntries] by the save handlers *)

(** [e => e.id === entry.id] *)
Definition same_id {A : Type} `{HasId A} (entry : A) : A -> bool :=
  fun e => str_eqb (entry_id e) (entry_id entry).

Definition upsert {A : Type} `{HasId A} (entry : A) (prevEntries : list A) : list A :=
  let existingIndex := findIndex (same_id entry) prevEntries in
  if 0 <=? existingIndex
  then <[Z.to_nat existingIndex := entry]> prevEntries
  else prevEntries ++ [entry].

(** ** The state of [App] *)

Record AppState := mkApp {
  activeTab : string;
  journalEntries : list JournalEntry.t;
  moodEntries : list MoodEntry.t;
  selectedDate : option string
}.

Definition handleSaveJournalEntry (entry : JournalEntry.t) (s : AppState) : AppState :=
  {| activeTab := "dashboard";
     journalEntries := upsert entry (journalEntries s);
     moodEntries := moodEntries s;
     selectedDate := selectedDate s |}.

Definition handleSaveMoodEntry (entry : MoodEntry.t) (s : AppState) : AppState :=
  {| activeTab := activeTab s;
     journalEntries := journalEntries s;
     moodEntries := upsert entry (moodEntries s);
     selectedDate := selectedDate s |}.

(** ** Dates

    The part of the JavaScript [Date] object the components use: parsing a
    date string ([new Date(s)]), reading the time value and formatting the
    calendar date ([toISOString().split('T')[0]]).  Time values are in UTC.
    The model reads the two string formats the forms write: the date-only
    form [YYYY-MM-DD] of the journal (midnight UTC) and the [toISOString]
    form [YYYY-MM-DDTHH:mm:ss.sssZ] of the mood tracker.  Every other
    string, and a string with a field out of its range, counts as an
    invalid date; the properties below are stated for entries whose dates
    the model reads. *)

Module JSDate.

Definition msPerDay : Z := 86400000.

Definition InLeapYear (y : Z) : bool :=
  ((y mod 4 =? 0) && negb (y mod 100 =? 0)) || (y mod 400 =? 0).

(** Day number of the first day of year [y] (ECMA-262, DayFromYear). *)
Definition DayFromYear (y : Z) : Z :=
  365 * (y - 1970) + (y - 1969) / 4 - (y - 1901) / 100 + (y - 1601) / 400.

Definition DaysInMonth (y m : Z) : Z :=
  if m =? 2 then (if InLeapYear y then 29 else 28)
  else if (m =? 4) || (m =? 6) || (m =? 9) || (m =? 11) then 30
  else 31.

(** Days of year [y] before the first day of month [m] (1-based). *)
Fixpoint DaysBeforeMonth_aux (y : Z) (k : nat) : Z :=
  match k with
  | O => 0
  | S k' => DaysBeforeMonth_aux y k' + DaysInMonth y (Z.of_nat k)
  end.

Definition DaysBeforeMonth (y m : Z) : Z :=
  DaysBeforeMonth_aux y (Z.to_nat (m - 1)).

Definition MakeDay (y m d : Z) : Z :=
  DayFromYear y + DaysBeforeMonth y m + (d - 1).

Definition MakeTime (h mi s ms : Z) : Z :=
  h * 3600000 + mi * 60000 + s * 1000 + ms.

Definition digit_val (c : ascii) : option Z :=
  let n := Z.of_N (N_of_ascii c) in
  if (48 <=? n) && (n <=? 57) then Some (n - 48) else None.

(** Reads exactly [k] decimal digits. *)
Fixpoint take_num (k : nat) (acc : Z) (cs : list ascii) : option (Z * list ascii) :=
  match k with
  | O => Some (acc, cs)
  | S k' =>
      match cs with
      | [] => None
      | c :: cs' =>
          match digit_val c with
          | Some d => take_num k' (10 * acc + d) cs'
          | None => None
          end
      end
  end.

Definition expect (c : ascii) (cs : list ascii) : option (list ascii) :=
  match cs with
  | c' :: cs' => if bool_decide (c = c') then Some cs' else None
  | [] => None
  end.

Definition valid_date (y m d : Z) : bool :=
  (1 <=? m) && (m <=? 12) && (1 <=? d) && (d <=? DaysInMonth y m).

Definition valid_time (h mi s : Z) : bool :=
  (h <=? 23) && (mi <=? 59) && (s <=? 59).

Definition parse_chars (cs : list ascii) : option Z :=
  '(y, cs) ← take_num 4 0 cs;
  cs ← expect "-" cs;
  '(m, cs) ← take_num 2 0 cs;
  cs ← expect "-" cs;
  '(d, cs) ← take_num 2 0 cs;
  if negb (valid_date y m d) then None else
  match cs with
  | [] => Some (MakeDay y m d * msPerDay)
  | _ =>
      cs ← expect "T" cs;
      '(h, cs) ← take_num 2 0 cs;
      cs ← expect ":" cs;
      '(mi, cs) ← take_num 2 0 cs;
      cs ← expect ":" cs;
      '(s, cs) ← take_num 2 0 cs;
      cs ← expect "." cs;
      '(ms, cs) ← take_num 3 0 cs;
      cs ← expect "Z" cs;
      match cs with
      | [] => if valid_time h mi s
              then Some (MakeDay y m d * msPerDay + MakeTime h mi s ms)
              else None
      | _ => None
      end
  end.

(** [new Date(s).getTime()], with [None] for [NaN]. *)
Definition parse (s : string) : option Z :=
  parse_chars (list_ascii_of_string s).

(** The civil date of a day number: the year, month (1-based) and day of
    the month that YearFromTime, MonthFromTime and DateFromTime give. *)
Definition civil_of_day (day : Z) : Z * Z * Z :=
  let z := day + 719468 in
  let era := z / 146097 in
  let doe := z - era * 146097 in
  let yoe := (doe - doe / 1460 + doe / 36524 - doe / 146096) / 365 in
  let doy := doe - (365 * yoe + yoe / 4 - yoe / 100) in
  let mp := (5 * doy + 2) / 153 in
  let d := doy - (153 * mp + 2) / 5 + 1 in
  let m := if mp <? 10 then mp + 3 else mp - 9 in
  let y := yoe + era * 400 + (if m <=? 2 then 1 else 0) in
  (y, m, d).

Definition digit_char (n : Z) : ascii := ascii_of_N (Z.to_N (48 + n mod 10)).

(** [n] written with [k] decimal digits, zero padded. *)
Fixpoint pad (k : nat) (n : Z) : string :=
  match k with
  | O => EmptyString
  | S k' => (pad k' (n / 10) +:+ String (digit_char n) EmptyString)%string
  end.

Definition year_string (y : Z) : string :=
  if (0 <=? y) && (y <=? 9999) then pad 4 y
  else if y <? 0 then ("-" +:+ pad 6 (- y))%string
  else ("+" +:+ pad 6 y)%string.

(** [toISOString().split('T')[0]] of a valid date with time value [t]. *)
Definition toISODate (t : Z) : string :=
  let '(y, m, d) := civil_of_day (t / msPerDay) in
  (year_string y +:+ "-" +:+ pad 2 m +:+ "-" +:+ pad 2 d)%string.

(** [new Date(s).toISOString().split('T')[0]]: [toISOString] throws a
    RangeError on an invalid date. *)
Definition isoDateOf (s : string) : option string :=
  t ← parse s; Some (toISODate t).

End JSDate.

(** The calendar date a mood entry is filed under:
    [new Date(entry.timestamp).toISOString().split('T')[0]]. *)
Definition dateKey (entry : MoodEntry.t) : option string :=
  JSDate.isoDateOf (MoodEntry.timestamp entry).

(** ** Numbers *)

Local Open Scope Q_scope.

Definition Qltb (x y : Q) : bool := negb (Qle_bool y x).

Definition of_length {A : Type} (l : list A) : Q := inject_Z (Z.of_nat (length l)).

(** [l.reduce((sum, e) => sum + f(e), 0)] *)
Definition sumBy {A : Type} (f : A -> Q) (l : list A) : Q :=
  foldl (fun sum e => sum + f e) 0 l.

(** [l.length > 0 ? l.reduce((sum, e) => sum + f(e), 0) / l.length : 0] *)
Definition average {A : Type} (f : A -> Q) (l : list A) : Q :=
  if (0 <? length l)%nat then sumBy f l / of_length l else 0.

(** [x.toFixed(1)], as the number of tenths shown: the nearest tenth, the
    one of larger magnitude on a tie. *)
Definition toFixed1 (x : Q) : Z :=
  if Qltb x 0 then (- Qfloor (- x * 10 + (1 # 2)))%Z else Qfloor (x * 10 + (1 # 2)).

(** [Math.round(x)] *)
Definition Math_round (x : Q) : Z := Qfloor (x + (1 # 2)).

(** ** Dashboard (dashboard.tsx) *)

Inductive Alert :=
  | LowMood
  | HighAnxiety
  | SleepDeficit
  | LowAdherence
  | PsychoticSymptoms (days : nat)
  | AllClear
  | NoData.

#[export] Instance Alert_eq_dec : EqDecision Alert.
Proof. solve_decision. Defined.

Record DashboardView := mkDashboard {
  today : string;
  todayJournal : option JournalEntry.t;
  todayMoodEntries : list MoodEntry.t;
  recentJournalEntries : list JournalEntry.t;
  recentMoodEntries : list MoodEntry.t;
  avgMood : Q;
  avgAnxiety : Q;
  avgEnergy : Q;
  avgStress : Q;
  avgSleep : Q;
  avgStudy : Q;
  totalMeds : nat;
  takenMeds : nat;
  medicationAdherence : Q;
  psychoticSymptomDays : nat;
  alerts : list Alert
}.

(** [l.filter(p)] where the callback may throw. *)
Fixpoint filter_throwing {A : Type} (p : A -> option bool) (l : list A) : option (list A) :=
  match l with
  | [] => Some []
  | x :: l' =>
      b ← p x;
      r ← filter_throwing p l';
      Some (if b : bool then x :: r else r)
  end.

(** [new Date(s) >= weekAgo]: a comparison with an invalid date is false. *)
Definition onOrAfter (weekAgo : Z) (s : string) : bool :=
  match JSDate.parse s with
  | Some t => (weekAgo <=? t)%Z
  | None => false
  end.

(** [weekAgo.setDate(weekAgo.getDate() - 7)], the local time zone being a
    fixed offset from UTC. *)
Definition weekAgo_of (now : Z) : Z := (now - 7 * JSDate.msPerDay)%Z.

(** The two window filters: [entry => new Date(entry.date) >= weekAgo] and
    [entry => new Date(entry.timestamp) >= weekAgo]. *)
Definition inWindowJ (now : Z) (entry : JournalEntry.t) : bool :=
  onOrAfter (weekAgo_of now) (JournalEntry.date entry).

Definition inWindowM (now : Z) (entry : MoodEntry.t) : bool :=
  onOrAfter (weekAgo_of now) (MoodEntry.timestamp entry).

(** [{cond && (<div>...</div>)}] *)
Definition when (cond : bool) (a : Alert) : list Alert :=
  if cond then [a] else [].

Definition countTaken (meds : list Medication) : nat :=
  length (List.filter taken meds).

(** [recentJournalEntries.reduce((sum, entry) => sum + f(entry.medications), 0)] *)
Definition sumMeds (f : list Medication -> nat) (l : list JournalEntry.t) : nat :=
  foldl (fun sum entry => (sum + f (JournalEntry.medications entry))%nat) 0%nat l.

(** [total > 0 ? (taken / total) * 100 : 0] *)
Definition adherenceOf (takenMeds totalMeds : nat) : Q :=
  if (0 <? totalMeds)%nat
  then (inject_Z (Z.of_nat takenMeds) / inject_Z (Z.of_nat totalMeds)) * 100
  else 0.

Definition hasSymptoms (entry : MoodEntry.t) : bool :=
  (0 <? length (MoodEntry.psychoticSymptoms entry))%nat.

(** The card "Peringatan Kesehatan": the alerts in the order they are
    rendered. *)
Definition healthAlerts (avgMood avgAnxiety avgSleep medicationAdherence : Q)
    (totalMeds psychoticSymptomDays recentMoodCount : nat) : list Alert :=
  when (Qltb avgMood 4) LowMood ++
  when (Qltb 7 avgAnxiety) HighAnxiety ++
  when (Qltb avgSleep 6) SleepDeficit ++
  when (Qltb medicationAdherence 80 && (0 <? totalMeds)%nat) LowAdherence ++
  when (3 <? psychoticSymptomDays)%nat (PsychoticSymptoms psychoticSymptomDays) ++
  when (Qle_bool 7 avgMood && Qle_bool avgAnxiety 3 && Qle_bool 7 avgSleep
        && Qle_bool 90 medicationAdherence) AllClear ++
  when (Qeq_bool avgMood 0 && Qeq_bool avgAnxiety 0 && (recentMoodCount =? 0)%nat)
       NoData.

(** One render of [Dashboard]; [now] is the time value of [new Date()]. *)
Definition Dashboard (now : Z) (journalEntries : list JournalEntry.t)
    (moodEntries : list MoodEntry.t) : option DashboardView :=
  let today := JSDate.toISODate now in
  let todayJournal :=
    List.find (fun entry => str_eqb (JournalEntry.date entry) today) journalEntries in
  todayMoodEntries ←
    filter_throwing
      (fun entry => entryDate ← dateKey entry; Some (str_eqb entryDate today))
      moodEntries;
  let recentJournalEntries := List.filter (inWindowJ now) journalEntries in
  let recentMoodEntries := List.filter (inWindowM now) moodEntries in
  let avgMood := average MoodEntry.mood recentMoodEntries in
  let avgAnxiety := average MoodEntry.anxiety recentMoodEntries in
  let avgEnergy := average MoodEntry.energy recentMoodEntries in
  let avgStress := average MoodEntry.stress recentMoodEntries in
  let avgSleep := average JournalEntry.sleepHours recentJournalEntries in
  let avgStudy := average JournalEntry.studyHours recentJournalEntries in
  let totalMeds := sumMeds (@length Medication) recentJournalEntries in
  let takenMeds := sumMeds countTaken recentJournalEntries in
  let medicationAdherence := adherenceOf takenMeds totalMeds in
  let psychoticSymptomDays := length (List.filter hasSymptoms recentMoodEntries) in
  Some {|
    today := today;
    todayJournal := todayJournal;
    todayMoodEntries := todayMoodEntries;
    recentJournalEntries := recentJournalEntries;
    recentMoodEntries := recentMoodEntries;
    avgMood := avgMood;
    avgAnxiety := avgAnxiety;
    avgEnergy := avgEnergy;
    avgStress := avgStress;
    avgSleep := avgSleep;
    avgStudy := avgStudy;
    totalMeds := totalMeds;
    takenMeds := takenMeds;
    medicationAdherence := medicationAdherence;
    psychoticSymptomDays := psychoticSymptomDays;
    alerts :=
      healthAlerts avgMood avgAnxiety avgSleep medicationAdherence totalMeds
        psychoticSymptomDays (length recentMoodEntries)
  |}.

Local Close Scope Q_scope.

(** ** Analytics (analytics.tsx) *)

(** A JavaScript object used as a map from date strings to arrays: the
    properties in insertion order, which is the order [Object.entries]
    lists them in. *)
Definition DateGroups := list (string * list MoodEntry.t).

(** [e => dateKey(e) === date] *)
Definition hasDate (date : string) (entry : MoodEntry.t) : bool :=
  bool_decide (dateKey entry = Some date).

(** [acc[date]] *)
Fixpoint obj_get (date : string) (acc : DateGroups) : option (list MoodEntry.t) :=
  match acc with
  | [] => None
  | (k, g) :: acc' => if str_eqb k date then Some g else obj_get date acc'
  end.

(** [acc[date] || []] *)
Definition groupOf (d : string) (acc : DateGroups) : list MoodEntry.t :=
  default [] (obj_get d acc).

(** The groups are keyed without repetition and none is empty. *)
Definition groups_ok (acc : DateGroups) : Prop :=
  NoDup (map fst acc) /\ forall d, obj_get d acc <> Some [].

(** [if (!acc[date]) { acc[date] = []; }  acc[date].push(entry);] *)
Fixpoint pushTo (date : string) (entry : MoodEntry.t) (acc : DateGroups) : DateGroups :=
  match acc with
  | [] => [(date, [entry])]
  | (k, g) :: acc' =>
      if str_eqb k date then (k, g ++ [entry]) :: acc'
      else (k, g) :: pushTo date entry acc'
  end.

(** [moodEntries.reduce((acc, entry) => ..., {})]; the callback throws when
    a timestamp is an invalid date. *)
Definition moodByDate_from (acc : DateGroups) (moodEntries : list MoodEntry.t)
    : option DateGroups :=
  foldl (fun acc entry =>
           acc ← acc;
           date ← dateKey entry;
           Some (pushTo date entry acc))
        (Some acc) moodEntries.

Definition moodByDate (moodEntries : list MoodEntry.t) : option DateGroups :=
  moodByDate_from [] moodEntries.

(** [Array.prototype.sort(cmp)]: the sort is stable, so for a comparator
    that is a consistent ordering the result is the one of this insertion
    sort, which puts an element before the first later one it does not
    exceed. *)
Fixpoint insert_sorted {A : Type} (cmp : A -> A -> Z) (x : A) (l : list A) : list A :=
  match l with
  | [] => [x]
  | y :: l' => if (cmp x y <=? 0)%Z then x :: y :: l' else y :: insert_sorted cmp x l'
  end.

Definition Array_sort {A : Type} (cmp : A -> A -> Z) (l : list A) : list A :=
  foldr (insert_sorted cmp) [] l.

(** [new Date(a).getTime() - new Date(b).getTime()]; a [NaN] result is
    treated by [sort] as [0]. *)
Definition compareDates (a b : string) : Z :=
  match JSDate.parse a, JSDate.parse b with
  | Some ta, Some tb => (ta - tb)%Z
  | _, _ => 0%Z
  end.

(** [l.slice(-n)] *)
Definition slice_last {A : Type} (n : nat) (l : list A) : list A :=
  drop (length l - n) l.

(** Chart rows.  The [date] of a row is kept as the date string it is
    computed from; the component shows it through [toLocaleDateString]. *)
Record MoodTrendRow := mkMoodTrendRow {
  mt_date : string;
  mt_mood : Q;
  mt_anxiety : Q;
  mt_energy : Q;
  mt_stress : Q;
  mt_count : nat
}.

Record JournalTrendRow := mkJournalTrendRow {
  jt_date : string;
  jt_sleep : Q;
  jt_study : Q;
  jt_sleepQuality : Q
}.

Record SleepRow := mkSleepRow {
  sl_date : string;
  sl_hours : Q;
  sl_quality : Q
}.

Record MedicationRow := mkMedicationRow {
  md_date : string;
  md_adherence : Z
}.

(** [Math.round(x * 10) / 10] *)
Definition round1 (x : Q) : Q := (inject_Z (Math_round (x * 10)) / 10)%Q.

(** The mean of a group; the groups of [moodByDate] are never empty. *)
Definition groupMean (f : MoodEntry.t -> Q) (entries : list MoodEntry.t) : Q :=
  (sumBy f entries / of_length entries)%Q.

Definition moodTrendRow (kv : string * list MoodEntry.t) : MoodTrendRow :=
  let '(date, entries) := kv in
  {| mt_date := date;
     mt_mood := round1 (groupMean MoodEntry.mood entries);
     mt_anxiety := round1 (groupMean MoodEntry.anxiety entries);
     mt_energy := round1 (groupMean MoodEntry.energy entries);
     mt_stress := round1 (groupMean MoodEntry.stress entries);
     mt_count := length entries |}.

Definition moodTrendData (groups : DateGroups) : list MoodTrendRow :=
  map moodTrendRow
    (slice_last 30 (Array_sort (fun a b => compareDates (fst a) (fst b)) groups)).

Definition medicationRow (entry : JournalEntry.t) : MedicationRow :=
  let totalMeds := length (JournalEntry.medications entry) in
  let takenMeds := countTaken (JournalEntry.medications entry) in
  let adherence := adherenceOf takenMeds totalMeds in
  {| md_date := JournalEntry.date entry; md_adherence := Math_round adherence |}.

Record AnalyticsView := mkAnalytics {
  an_moodByDate : DateGroups;
  an_moodTrendData : list MoodTrendRow;
  an_journalTrendData : list JournalTrendRow;
  an_sleepData : list SleepRow;
  an_medicationData : list MedicationRow;
  an_goodMoodDays : nat
}.

(** One render of [Analytics].  [journalEntries.sort(...)] sorts the array
    of the caller in place and every later statement reads the sorted
    array, so the result carries the array as the render leaves it.  The
    view holds the date-keyed chart data; the totals per rotation and per
    symptom and the overall means of the component are not part of it. *)
Definition Analytics (journalEntries : list JournalEntry.t)
    (moodEntries : list MoodEntry.t)
    : option (AnalyticsView * list JournalEntry.t) :=
  groups ← moodByDate moodEntries;
  let journalEntries :=
    Array_sort
      (fun a b => compareDates (JournalEntry.date a) (JournalEntry.date b))
      journalEntries in
  let journalTrendData :=
    map (fun entry =>
           {| jt_date := JournalEntry.date entry;
              jt_sleep := JournalEntry.sleepHours entry;
              jt_study := JournalEntry.studyHours entry;
              jt_sleepQuality := JournalEntry.sleepQuality entry |})
        (slice_last 30 journalEntries) in
  let sleepData :=
    map (fun entry =>
           {| sl_date := JournalEntry.date entry;
              sl_hours := JournalEntry.sleepHours entry;
              sl_quality := JournalEntry.sleepQuality entry |})
        (slice_last 14 journalEntries) in
  let medicationData := map medicationRow (slice_last 7 journalEntries) in
  let goodMoodDays :=
    length (List.filter
              (fun kv => Qle_bool 7 (groupMean MoodEntry.mood (snd kv))) groups) in
  Some ({| an_moodByDate := groups;
           an_moodTrendData := moodTrendData groups;
           an_journalTrendData := journalTrendData;
           an_sleepData := sleepData;
           an_medicationData := medicationData;
           an_goodMoodDays := goodMoodDays |},
        journalEntries).

(** The dates of the rows of the medication chart, in row order. *)
Definition medicationDates (journalEntries : list JournalEntry.t)
    (moodEntries : list MoodEntry.t) : option (list string) :=
  r ← Analytics journalEntries moodEntries;
  Some (map md_date (an_medicationData (fst r))).

(** The time value of a valid date string. *)
Definition timeOf (s : string) : Z := default 0%Z (JSDate.parse s).

(** [new Date(a) < new Date(b)] for two valid dates. *)
Definition dateBefore (a b : string) : Prop :=
  exists ta tb, JSDate.parse a = Some ta /\ JSDate.parse b = Some tb /\ (ta < tb)%Z.

(** ** Loading the collections (the mount effect of [App]) *)

(** [JSON.parse] and [JSON.stringify] at the type of each collection;
    [None] is the SyntaxError that [JSON.parse] throws on a text that is
    not valid JSON. *)
Class JSON := {
  parseJournalEntries : string -> option (list JournalEntry.t);
  parseMoodEntries : string -> option (list MoodEntry.t);
  stringifyJournalEntries : list JournalEntry.t -> string;
  stringifyMoodEntries : list MoodEntry.t -> string
}.

(** The state of [App] together with what was written by [console.error]. *)
Record Session := mkSession {
  app : AppState;
  console : list string
}.

(** [useState] initial values. *)
Definition initialState : AppState :=
  {| activeTab := "dashboard";
     journalEntries := [];
     moodEntries := [];
     selectedDate := None |}.

Definition setJournalEntries (v : list JournalEntry.t) (s : Session) : Session :=
  {| app := {| activeTab := activeTab (app s);
               journalEntries := v;
               moodEntries := moodEntries (app s);
               selectedDate := selectedDate (app s) |};
     console := console s |}.

Definition setMoodEntries (v : list MoodEntry.t) (s : Session) : Session :=
  {| app := {| activeTab := activeTab (app s);
               journalEntries := journalEntries (app s);
               moodEntries := v;
               selectedDate := selectedDate (app s) |};
     console := console s |}.

Definition console_error (msg : string) (s : Session) : Session :=
  {| app := app s; console := console s ++ [msg] |}.

(** [if (saved)]: [getItem] gives [null] for a missing key, and the empty
    string is falsy as well. *)
Definition present (saved : option string) : option string :=
  match saved with
  | Some raw => if str_eqb raw "" then None else Some raw
  | None => None
  end.

Definition loadEntries `{JSON} (localStorage : gmap string string)
    (s : Session) : Session :=
  let savedJournalEntries := localStorage !! "journalEntries"%string in
  let savedMoodEntries := localStorage !! "moodEntries"%string in
  let s :=
    match present savedJournalEntries with
    | Some raw =>
        match parseJournalEntries raw with
        | Some v => setJournalEntries v s
        | None => console_error "Error loading journal entries:" s
        end
    | None => s
    end in
  match present savedMoodEntries with
  | Some raw =>
      match parseMoodEntries raw with
      | Some v => setMoodEntries v s
      | None => console_error "Error loading mood entries:" s
      end
  | None => s
  end.

(** ** Saving the collections (the two storing effects of [App])

    [useEffect(() => localStorage.setItem(key, JSON.stringify(entries)),
    [entries])] runs after a render in which the array is a new one; a save
    handler replaces the array of its own collection only. *)

Definition saveJournalEntry `{JSON} (entry : JournalEntry.t)
    (st : AppState * gmap string string) : AppState * gmap string string :=
  let s := handleSaveJournalEntry entry (fst st) in
  (s, <["journalEntries"%string := stringifyJournalEntries (journalEntries s)]> (snd st)).

Definition saveMoodEntry `{JSON} (entry : MoodEntry.t)
    (st : AppState * gmap string string) : AppState * gmap string string :=
  let s := handleSaveMoodEntry entry (fst st) in
  (s, <["moodEntries"%string := stringifyMoodEntries (moodEntries s)]> (snd st)).

(** What the load leaves in a collection, from the text stored under its
    key alone. *)
Definition loadedFrom {A : Type} (parse : string -> option (list A))
    (saved : option string) : list A :=
  match present saved with
  | Some raw => default [] (parse raw)
  | None => []
  end.

(** What the load logs for a key. *)
Definition logFor {A : Type} (parse : string -> option (list A)) (msg : string)
    (saved : option string) : list string :=
  match present saved with
  | Some raw => match parse raw with Some _ => [] | None => [msg] end
  | None => []
  end.

(** ** The windowed quantities as the specification words them *)

(** The count of distinct calendar days in the window that have an entry
    with a non-empty set of psychotic symptoms. *)
Definition distinctSymptomDays (weekAgo : Z) (moodEntries : list MoodEntry.t) : nat :=
  length
    (remove_dups
       (omap dateKey
          (List.filter
             (fun entry =>
                onOrAfter weekAgo (MoodEntry.timestamp entry) && hasSymptoms entry)
             moodEntries))).

(** The most recent [days] distinct calendar dates that have an entry,
    ascending. *)
Definition trailingWindowDates (days : nat) (dates : list string) : list string :=
  slice_last days (Array_sort compareDates (remove_dups dates)).

(** ** Sample entries used in the worked examples *)

Definition journalOn (id date : string) (sleepHours : Q) (meds : list Medication)
    : JournalEntry.t :=
  JournalEntry.mk id date meds sleepHours 5 0 "" "" "" "" "" "" "" "".

Definition moodAt (id timestamp : string) (mood anxiety : Q) (symptoms : list string)
    : MoodEntry.t :=
  MoodEntry.mk id timestamp mood anxiety 5 5 symptoms "" "" (Some ""%string) (Some ""%string).

(** Three journal entries with ids A, B, C, a second version of B and an
    entry with the new id D. *)
Definition entryA : JournalEntry.t := journalOn "A" "2024-01-01" 7 [].
Definition entryB : JournalEntry.t := journalOn "B" "2024-01-02" 7 [].
Definition entryC : JournalEntry.t := journalOn "C" "2024-01-03" 7 [].
Definition entryB' : JournalEntry.t := journalOn "B" "2024-01-02" 4 [].
Definition entryD : JournalEntry.t := journalOn "D" "2024-01-04" 7 [].

(** The week of the end-to-end scenario: one journal entry a day from
    2024-03-01 to 2024-03-07, five hours of sleep, no medication. *)
Definition marchWeek : list JournalEntry.t :=
  map (fun d => journalOn ("j" +:+ d) ("2024-03-" +:+ d) 5 [])
      ["01"; "02"; "03"; "04"; "05"; "06"; "07"]%string.

(** 2024-03-07T12:00:00.000Z *)
Definition noonMarch7 : Z := 1709812800000.

(** One hundred samples of 2024-03-05 with ids m000 .. m099: anxiety 7
    ninety-nine times and 8 once, which average 7.01. *)
Definition anxiety701 : list MoodEntry.t :=
  map (fun i =>
         moodAt ("m" +:+ JSDate.pad 3 (Z.of_nat i)) "2024-03-05T08:00:00.000Z" 5
                (if (i =? 99)%nat then 8 else 7) [])
      (seq 0 100).

(** Two samples that average exactly 7. *)
Definition anxiety7 : list MoodEntry.t :=
  [ moodAt "m1" "2024-03-05T08:00:00.000Z" 5 6 [];
    moodAt "m2" "2024-03-06T08:00:00.000Z" 5 8 [] ].

(** Four samples of one day, each reporting a symptom. *)
Definition sameDaySymptoms : list MoodEntry.t :=
  [ moodAt "s1" "2024-03-05T07:00:00.000Z" 5 5 ["Paranoia"%string];
    moodAt "s2" "2024-03-05T11:30:00.000Z" 5 5 ["Paranoia"%string];
    moodAt "s3" "2024-03-05T16:00:00.000Z" 4 6 ["Halusinasi visual"%string];
    moodAt "s4" "2024-03-05T21:15:00.000Z" 4 6 ["Paranoia"; "Halusinasi visual"]%string ].

(** Three samples: two of 2024-01-01 around one of 2024-01-02. *)
Definition newYearMorning : MoodEntry.t := moodAt "a" "2024-01-01T08:00:00.000Z" 6 3 [].
Definition secondOfJanuary : MoodEntry.t := moodAt "b" "2024-01-02T09:30:00.000Z" 5 4 [].
Definition newYearEvening : MoodEntry.t := moodAt "c" "2024-01-01T21:00:00.000Z" 7 2 [].

(** A decoder that accepts the text of the empty array only, and a storage
    whose journal text is cut short. *)
Definition emptyArrayOnly : JSON :=
  {| parseJournalEntries := fun s => if str_eqb s "[]" then Some [] else None;
     parseMoodEntries := fun s => if str_eqb s "[]" then Some [] else None;
     stringifyJournalEntries := fun _ => "[]"%string;
     stringifyMoodEntries := fun _ => "[]"%string |}.

Definition brokenJournalStorage : gmap string string :=
  <["journalEntries"%string := "[{"%string]>
    (<["moodEntries"%string := "[]"%string]> ∅).

(** Eleven journal entries over ten dates, 2024-03-01 to 2024-03-10 in a
    store order that is not the date order; 2024-03-10 was saved twice
    under two ids. *)
Definition elevenEntries : list JournalEntry.t :=
  map (fun '(i, d) => journalOn i ("2024-03-" +:+ d) 7 [])
      [("k01", "03"); ("k02", "01"); ("k03", "02"); ("k04", "10"); ("k05", "04");
       ("k06", "05"); ("k07", "06"); ("k08", "07"); ("k09", "08"); ("k10", "09");
       ("k11", "10")]%string.

(** ** Opening a date (App.tsx) *)

Definition handleDateSelect (date : string) (s : AppState) : AppState :=
  {| activeTab := "journal";
     journalEntries := journalEntries s;
     moodEntries := moodEntries s;
     selectedDate := Some date |}.

(** [if (!selectedDate) return undefined;
     return journalEntries.find(entry => entry.date === selectedDate)];
    the empty string is falsy as [null] is. *)
Definition getSelectedJournalEntry (s : AppState) : option JournalEntry.t :=
  match selectedDate s with
  | None => None
  | Some d =>
      if str_eqb d "" then None
      else List.find (fun entry => str_eqb (JournalEntry.date entry) d) (journalEntries s)
  end.

(** ** The journal form (journal-entry-form.tsx) *)

(** [Partial<JournalEntry>]: the state of the form, every field optional. *)
Module PartialEntry.
Record t := mk {
  id : option string;
  date : option string;
  medications : option (list Medication);
  sleepHours : option Q;
  sleepQuality : option Q;
  studyHours : option Q;
  studySubjects : option string;
  clinicalRotation : option string;
  journalText : option string;
  gratitude : option string;
  goals : option string;
  wellness : option string;
  challenges : option string;
  learnings : option string
}.
End PartialEntry.

(** The form opened on an existing entry starts from that entry. *)
Definition formOf (e : JournalEntry.t) : PartialEntry.t :=
  {| PartialEntry.id := Some (JournalEntry.id e);
     PartialEntry.date := Some (JournalEntry.date e);
     PartialEntry.medications := Some (JournalEntry.medications e);
     PartialEntry.sleepHours := Some (JournalEntry.sleepHours e);
     PartialEntry.sleepQuality := Some (JournalEntry.sleepQuality e);
     PartialEntry.studyHours := Some (JournalEntry.studyHours e);
     PartialEntry.studySubjects := Some (JournalEntry.studySubjects e);
     PartialEntry.clinicalRotation := Some (JournalEntry.clinicalRotation e);
     PartialEntry.journalText := Some (JournalEntry.journalText e);
     PartialEntry.gratitude := Some (JournalEntry.gratitude e);
     PartialEntry.goals := Some (JournalEntry.goals e);
     PartialEntry.wellness := Some (JournalEntry.wellness e);
     PartialEntry.challenges := Some (JournalEntry.challenges e);
     PartialEntry.learnings := Some (JournalEntry.learnings e) |}.

(** The form opened without an entry. *)
Definition newForm (today : string) : PartialEntry.t :=
  {| PartialEntry.id := None;
     PartialEntry.date := Some today;
     PartialEntry.medications :=
       Some [ mkMedication "Obat Pagi" false "08:00";
              mkMedication "Obat Malam" false "20:00" ];
     PartialEntry.sleepHours := Some 7%Q;
     PartialEntry.sleepQuality := Some 5%Q;
     PartialEntry.studyHours := Some 0%Q;
     PartialEntry.studySubjects := Some ""%string;
     PartialEntry.clinicalRotation := Some ""%string;
     PartialEntry.journalText := Some ""%string;
     PartialEntry.gratitude := Some ""%string;
     PartialEntry.goals := Some ""%string;
     PartialEntry.wellness := Some ""%string;
     PartialEntry.challenges := Some ""%string;
     PartialEntry.learnings := Some ""%string |}.

Definition initialForm (existingEntry : option JournalEntry.t) (today : string)
    : PartialEntry.t :=
  match existingEntry with
  | Some e => formOf e
  | None => newForm today
  end.

(** [x || d] on an optional string: [undefined] and the empty string are
    falsy. *)
Definition orString (x : option string) (d : string) : string :=
  match x with
  | Some s => if str_eqb s "" then d else s
  | None => d
  end.

(** [x || d] on an optional number: [undefined] and [0] are falsy. *)
Definition orNumber (x : option Q) (d : Q) : Q :=
  match x with
  | Some v => if Qeq_bool v 0 then d else v
  | None => d
  end.

(** [handleSave]: the entry handed to [onSave]; [uuid] is the value of
    [crypto.randomUUID()] and [today] of
    [new Date().toISOString().split('T')[0]]. *)
Definition handleSave (existingEntry : option JournalEntry.t) (entry : PartialEntry.t)
    (uuid today : string) : JournalEntry.t :=
  {| JournalEntry.id := orString (JournalEntry.id <$> existingEntry) uuid;
     JournalEntry.date := orString (PartialEntry.date entry) today;
     JournalEntry.medications := default [] (PartialEntry.medications entry);
     JournalEntry.sleepHours := orNumber (PartialEntry.sleepHours entry) 7;
     JournalEntry.sleepQuality := orNumber (PartialEntry.sleepQuality entry) 5;
     JournalEntry.studyHours := orNumber (PartialEntry.studyHours entry) 0;
     JournalEntry.studySubjects := orString (PartialEntry.studySubjects entry) "";
     JournalEntry.clinicalRotation := orString (PartialEntry.clinicalRotation entry) "";
     JournalEntry.journalText := orString (PartialEntry.journalText entry) "";
     JournalEntry.gratitude := orString (PartialEntry.gratitude entry) "";
     JournalEntry.goals := orString (PartialEntry.goals entry) "";
     JournalEntry.wellness := orString (PartialEntry.wellness entry) "";
     JournalEntry.challenges := orString (PartialEntry.challenges entry) "";
     JournalEntry.learnings := orString (PartialEntry.learnings entry) "" |}.

Definition withMedications (meds : list Medication) (entry : PartialEntry.t)
    : PartialEntry.t :=
  {| PartialEntry.id := PartialEntry.id entry;
     PartialEntry.date := PartialEntry.date entry;
     PartialEntry.medications := Some meds;
     PartialEntry.sleepHours := PartialEntry.sleepHours entry;
     PartialEntry.sleepQuality := PartialEntry.sleepQuality entry;
     PartialEntry.studyHours := PartialEntry.studyHours entry;
     PartialEntry.studySubjects := PartialEntry.studySubjects entry;
     PartialEntry.clinicalRotation := PartialEntry.clinicalRotation entry;
     PartialEntry.journalText := PartialEntry.journalText entry;
     PartialEntry.gratitude := PartialEntry.gratitude entry;
     PartialEntry.goals := PartialEntry.goals entry;
     PartialEntry.wellness := PartialEntry.wellness entry;
     PartialEntry.challenges := PartialEntry.challenges entry;
     PartialEntry.learnings := PartialEntry.learnings entry |}.

(** The three editable fields of a medication row. *)
Inductive MedicationField :=
  | FieldName (v : string)
  | FieldTaken (v : bool)
  | FieldTime (v : string).

(** [{ ...med, [field]: value }] *)
Definition setField (med : Medication) (f : MedicationField) : Medication :=
  match f with
  | FieldName v => mkMedication v (taken med) (time med)
  | FieldTaken v => mkMedication (name med) v (time med)
  | FieldTime v => mkMedication (name med) (taken med) v
  end.

(** [handleMedicationChange(index, field, value)] for the index of a row
    on screen.  Past the end the assignment would add a row that has the
    one field only, which is no [Medication]: [None]. *)
Definition handleMedicationChange (index : nat) (f : MedicationField)
    (entry : PartialEntry.t) : option PartialEntry.t :=
  let medications := default [] (PartialEntry.medications entry) in
  med ← medications !! index;
  Some (withMedications (<[index := setField med f]> medications) entry).



(** ** The mood tracker (mood-tracker.tsx) *)

(** [prev.psychoticSymptoms.includes(symptom)
      ? prev.psychoticSymptoms.filter(s => s !== symptom)
      : [...prev.psychoticSymptoms, symptom]] *)
Definition toggleSymptom (symptom : string) (symptoms : list string) : list string :=
  if existsb (fun s => str_eqb s symptom) symptoms
  then List.filter (fun s => negb (str_eqb s symptom)) symptoms
  else symptoms ++ [symptom].

Definition handleSymptomToggle (symptom : string) (formData : MoodEntry.t) : MoodEntry.t :=
  {| MoodEntry.id := MoodEntry.id formData;
     MoodEntry.timestamp := MoodEntry.timestamp formData;
     MoodEntry.mood := MoodEntry.mood formData;
     MoodEntry.anxiety := MoodEntry.anxiety formData;
     MoodEntry.energy := MoodEntry.energy formData;
     MoodEntry.stress := MoodEntry.stress formData;
     MoodEntry.psychoticSymptoms := toggleSymptom symptom (MoodEntry.psychoticSymptoms formData);
     MoodEntry.triggers := MoodEntry.triggers formData;
     MoodEntry.notes := MoodEntry.notes formData;
     MoodEntry.location := MoodEntry.location formData;
     MoodEntry.weather := MoodEntry.weather formData |}.

(** The form of the mood tracker as [useState] builds it; [uuid] and
    [nowISO] are the values of [crypto.randomUUID()] and
    [now.toISOString()]. *)
Definition newMoodForm (uuid nowISO : string) : MoodEntry.t :=
  MoodEntry.mk uuid nowISO 5 5 5 5 [] "" "" (Some ""%string) (Some ""%string).

(** The vocabulary of the symptom checkboxes. *)
Definition psychoticSymptomOptions : list string :=
  [ "Halusinasi pendengaran"; "Halusinasi visual"; "Delusi/waham";
    "Pikiran tidak terorganisir"; "Paranoia"; "Gangguan konsentrasi";
    "Kebingungan realitas" ]%string.

(** Two journal entries that a reader of the store cannot tell apart:
    equal fields, numbers compared as numbers. *)
Definition sameJournalEntry (a b : JournalEntry.t) : Prop :=
  JournalEntry.id a = JournalEntry.id b /\
  JournalEntry.date a = JournalEntry.date b /\
  JournalEntry.medications a = JournalEntry.medications b /\
  (JournalEntry.sleepHours a == JournalEntry.sleepHours b)%Q /\
  (JournalEntry.sleepQuality a == JournalEntry.sleepQuality b)%Q /\
  (JournalEntry.studyHours a == JournalEntry.studyHours b)%Q /\
  JournalEntry.studySubjects a = JournalEntry.studySubjects b /\
  JournalEntry.clinicalRotation a = JournalEntry.clinicalRotation b /\
  JournalEntry.journalText a = JournalEntry.journalText b /\
  JournalEntry.gratitude a = JournalEntry.gratitude b /\
  JournalEntry.goals a = JournalEntry.goals b /\
  JournalEntry.wellness a = JournalEntry.wellness b /\
  JournalEntry.challenges a = JournalEntry.challenges b /\
  JournalEntry.learnings a = JournalEntry.learnings b.

(** A journal entry with two medication rows, one ticked. *)
Definition entryWithMeds : JournalEntry.t :=
  journalOn "M" "2024-02-10" 6
    [mkMedication "Obat Pagi" true "08:00"; mkMedication "Obat Malam" false "20:00"].

(** A calm week: one journal entry with eight hours of sleep and its one
    medication taken, and four mood samples of one day with high mood and
    low anxiety, each reporting a symptom. *)
Definition calmJournal : list JournalEntry.t :=
  [ journalOn "c1" "2024-03-06" 8 [mkMedication "Obat Pagi" true "08:00"] ].

Definition calmMood : list MoodEntry.t :=
  [ moodAt "q1" "2024-03-06T07:00:00.000Z" 8 2 ["Gangguan konsentrasi"%string];
    moodAt "q2" "2024-03-06T11:00:00.000Z" 8 2 ["Gangguan konsentrasi"%string];
    moodAt "q3" "2024-03-06T15:00:00.000Z" 9 1 ["Gangguan konsentrasi"%string];
    moodAt "q4" "2024-03-06T19:00:00.000Z" 7 3 ["Gangguan konsentrasi"%string] ].

(** 2024-03-09T12:00:00.000Z *)
Definition noonMarch9 : Z := 1709985600000.

(** The comparator of [journalEntries.sort(...)]:
    [(a, b) => new Date(a.date).getTime() - new Date(b.date).getTime()]. *)
Definition byDate (a b : JournalEntry.t) : Z :=
  compareDates (JournalEntry.date a) (JournalEntry.date b).

(** ** The calendar (CalendarView) *)

(** The calendar builds its cells with [new Date(year, monthIndex, day)] and
    reads them with [getFullYear], [getMonth], [getDate] and [getDay], all
    in local time.  Local time is UTC plus a fixed offset [tz] in
    milliseconds (7 hours for WIB); a [Date] is its time value. *)
Module Calendar.
Import JSDate.

Section Zone.
Variable tz : Z.

(** The local day number of a time value. *)
Definition localDay (t : Z) : Z := (t + tz) / msPerDay.

Definition getFullYear (t : Z) : Z :=
  let '(y, _, _) := civil_of_day (localDay t) in y.

(** The month index, 0 for January. *)
Definition getMonth (t : Z) : Z :=
  let '(_, m, _) := civil_of_day (localDay t) in m - 1.

Definition getDate (t : Z) : Z :=
  let '(_, _, d) := civil_of_day (localDay t) in d.

(** The day of the week, 0 for Sunday; day 0 was a Thursday. *)
Definition getDay (t : Z) : Z := (localDay t + 4) mod 7.

(** [new Date(year, monthIndex, day)]: local midnight of the day that
    MakeDay gives, a month index outside 0..11 carrying into the year and
    a year from 0 to 99 standing for 1900 + year. *)
Definition newDate (year monthIndex day : Z) : Z :=
  let yr := if (0 <=? year) && (year <=? 99) then 1900 + year else year in
  let ym := yr + monthIndex / 12 in
  let mn := monthIndex mod 12 in
  MakeDay ym (mn + 1) day * msPerDay - tz.

Definition getFirstDayOfMonth (currentDate : Z) : Z :=
  newDate (getFullYear currentDate) (getMonth currentDate) 1.

Definition getLastDayOfMonth (currentDate : Z) : Z :=
  newDate (getFullYear currentDate) (getMonth currentDate + 1) 0.

(** The cells of the grid: [null] for the days of the first week before
    the first of the month, then the days of the month. *)
Definition getDaysInMonth (currentDate : Z) : list (option Z) :=
  let firstDay := getFirstDayOfMonth currentDate in
  let lastDay := getLastDayOfMonth currentDate in
  let startPadding := getDay firstDay in
  replicate (Z.to_nat startPadding) None ++
  map (fun day => Some (newDate (getFullYear currentDate) (getMonth currentDate) day))
      (seqZ 1 (getDate lastDay)).

Definition goToPreviousMonth (currentDate : Z) : Z :=
  newDate (getFullYear currentDate) (getMonth currentDate - 1) 1.

Definition goToNextMonth (currentDate : Z) : Z :=
  newDate (getFullYear currentDate) (getMonth currentDate + 1) 1.

End Zone.

(** [YYYY-MM-DD] for a year from 0000 to 9999. *)
Definition isoDate (y m d : Z) : string :=
  (year_string y +:+ "-" +:+ pad 2 m +:+ "-" +:+ pad 2 d)%string.

(** [if (!date) return null;
     const dateString = date.toISOString().split('T')[0];
     return journalEntries.find(entry => entry.date === dateString)] *)
Definition getJournalEntryForDate (date : option Z) (journalEntries : list JournalEntry.t)
    : option JournalEntry.t :=
  match date with
  | None => None
  | Some t =>
      let dateString := toISODate t in
      List.find (fun entry => str_eqb (JournalEntry.date entry) dateString) journalEntries
  end.

(** The filter throws on a mood entry whose timestamp is not a date. *)
Definition getMoodEntriesForDate (date : option Z) (moodEntries : list MoodEntry.t)
    : option (list MoodEntry.t) :=
  match date with
  | None => Some []
  | Some t =>
      let dateString := toISODate t in
      filter_throwing
        (fun entry => entryDate ← dateKey entry; Some (str_eqb entryDate dateString))
        moodEntries
  end.

(** [null] when the date has no mood entry, else the mean mood. *)
Definition getAverageMoodForDate (date : option Z) (moodEntries : list MoodEntry.t)
    : option (option Q) :=
  moodsForDate ← getMoodEntriesForDate date moodEntries;
  Some (if (length moodsForDate =? 0)%nat then None
        else Some (sumBy MoodEntry.mood moodsForDate / of_length moodsForDate)%Q).

(** The click on a cell: [onDateSelect(date.toISOString().split('T')[0])]. *)
Definition clickCell (date : Z) (s : AppState) : AppState :=
  handleDateSelect (toISODate date) s.

End Calendar.

(** The offset of WIB, seven hours east of UTC, and a moment of March 2024
    there: 2024-03-15T10:00 local time. *)
Definition wib : Z := 7 * 3600000.
Definition midMarch : Z := 1710471600000.

(** ** The chat (AIChatbot and the [/chat] route of the server) *)

Module Chat.

Inductive MessageType := user | ai.

Record Message := mkMessage {
  id : string;
  type : MessageType;
  content : string;
  timestamp : string
}.

(** The message the chat opens with; [now] is [new Date().toISOString()]. *)
Definition greeting (now : string) : Message :=
  mkMessage "1" ai
    "Halo! Saya di sini untuk mendengarkan curhatan kamu. Ceritakan apa yang ada di pikiranmu hari ini. Ingat, ini adalah ruang yang aman untuk mengekspresikan perasaanmu."
    now.

(** The content of the message appended when the request fails. *)
Definition apology : string :=
  "Maaf, saya sedang mengalami kesulitan teknis. Silakan coba lagi dalam beberapa saat. Sementara itu, ingatlah bahwa perasaan yang kamu alami itu valid dan kamu tidak sendirian.".

(** The state of the component. *)
Record State := mkState {
  messages : list Message;
  input : string;
  isLoading : bool
}.

Definition initial (now : string) : State :=
  {| messages := [greeting now]; input := ""; isLoading := false |}.

(** The body of the request to the [/chat] route. *)
Record Request := mkRequest {
  message : string;
  conversationHistory : list Message
}.

(** The mount effect, for a stored text that decodes to [parsed] ([None]
    when there is no text or [JSON.parse] throws):
    [if (parsed.length > 0) { setMessages(parsed); }]. *)
Definition load (parsed : option (list Message)) (s : State) : State :=
  match parsed with
  | Some (m :: l) => {| messages := m :: l; input := input s; isLoading := isLoading s |}
  | _ => s
  end.

Definition setInput (text : string) (s : State) : State :=
  {| messages := messages s; input := text; isLoading := isLoading s |}.

Section Trim.
(** [String.prototype.trim]. *)
Variable trim : string -> string.

(** [sendMessage] up to the request: nothing happens for an input that
    trims to the empty string or while a request is in flight; else the
    user message is appended and the request carries the last ten of the
    messages as they were before.  [id] is [Date.now().toString()]. *)
Definition sendMessage (id now : string) (s : State) : State * option Request :=
  if str_eqb (trim (input s)) "" || isLoading s then (s, None)
  else
    let userMessage := mkMessage id user (trim (input s)) now in
    ({| messages := messages s ++ [userMessage]; input := ""; isLoading := true |},
     Some {| message := trim (input s);
             conversationHistory := slice_last 10 (messages s) |}).

End Trim.

(** The rest of [sendMessage], when the request settles: [Some text] is
    the [response] field of an OK response, [None] a failed request or a
    response that is not OK. *)
Definition receive (reply : option string) (id now : string) (s : State) : State :=
  let aiMessage := mkMessage id ai (default apology reply) now in
  {| messages := messages s ++ [aiMessage]; input := input s; isLoading := false |}.

Definition clearChat (now : string) (s : State) : State :=
  {| messages := [greeting now]; input := input s; isLoading := isLoading s |}.

(** What can happen to the component. *)
Inductive Event :=
  | Load (parsed : option (list Message))
  | Type_ (text : string)
  | Send (id now : string)
  | Receive (reply : option string) (id now : string)
  | Clear (now : string).

Definition step (trim : string -> string) (s : State) (e : Event) : State :=
  match e with
  | Load parsed => load parsed s
  | Type_ text => setInput text s
  | Send id now => fst (sendMessage trim id now s)
  | Receive reply id now => receive reply id now s
  | Clear now => clearChat now s
  end.

(** *** The server *)

Definition nl : string := String (ascii_of_nat 10) EmptyString.

(** What the upstream model answered: the request failed, was not OK or
    had a body that cannot be read (all of which throw), or it was OK with
    the text found at [data.candidates?.[0]?.content?.parts?.[0]?.text],
    if any. *)
Inductive Upstream :=
  | UpstreamError
  | UpstreamText (text : option string).

Inductive Body :=
  | ErrorBody (error : string)
  | ResponseBody (response : string).

Record Response := mkResponse {
  status : Z;
  body : Body
}.

(** [User: ${msg.content}\n] or [AI: ${msg.content}\n] *)
Definition historyLine (msg : Message) : string :=
  match type msg with
  | user => ("User: " +:+ content msg +:+ nl)%string
  | ai => ("AI: " +:+ content msg +:+ nl)%string
  end.

(** The part of the prompt written from the messages of
    [conversationHistory], [None] when the field is missing or not an
    array. *)
Definition historyPrompt (conversationHistory : option (list Message)) : string :=
  match conversationHistory with
  | Some l =>
      (nl +:+ "Percakapan sebelumnya:" +:+ nl +:+
       String.concat "" (map historyLine (slice_last 6 l)))%string
  | None => ""%string
  end.

(** The opening of the prompt. *)
Definition systemPrompt : string :=
  (String.concat nl
     [ "Kamu adalah AI companion yang berempati dan mendukung untuk mahasiswa kedokteran dengan skizoafektif. Tugasmu adalah:";
       EmptyString;
       "1. Mendengarkan dengan empati dan tanpa menghakimi";
       "2. Memberikan dukungan emosional yang hangat";
       "3. Membantu mengelola stress dan anxiety";
       "4. Memberikan perspektif positif yang realistis";
       "5. Mengingatkan tentang coping strategies yang sehat";
       "6. Jika diperlukan, menyarankan untuk mencari bantuan profesional";
       EmptyString;
       "Sifat komunikasimu:";
       "- Hangat, empati, dan mendukung";
       "- Menggunakan bahasa yang lembut dan tidak overwhelming";
       "- Hindari saran medis spesifik, fokus pada dukungan emosional";
       "- Gunakan bahasa Indonesia yang natural dan ramah";
       "- Validasi perasaan dan pengalaman user";
       "- Berikan hope dan encouragement";
       EmptyString;
       EmptyString ])%string.

Definition contextPrompt (message : string)
    (conversationHistory : option (list Message)) : string :=
  (systemPrompt +:+ historyPrompt conversationHistory +:+
   nl +:+ "Pesan user saat ini: " +:+ message +:+ nl +:+ nl +:+
   "Respond dengan empati dan dukungan:")%string.

(** An element of the [conversationHistory] array as the route reads it:
    [null]; an element whose [type] is neither ['user'] nor ['ai'] (a
    number, a string, an object of another type), which writes no line; or
    a message of one of the two types, [content] being the text the
    template writes for its content. *)
Inductive HistoryItem :=
  | NullItem
  | OtherItem
  | MessageItem (m : Message).

(** [items.forEach(msg => { if (msg.type === 'user') ... })]: reading [type]
    of [null] throws, [None]; else the messages that write a line. *)
Fixpoint readItems (items : list HistoryItem) : option (list Message) :=
  match items with
  | [] => Some []
  | NullItem :: _ => None
  | OtherItem :: rest => readItems rest
  | MessageItem m :: rest => l ← readItems rest; Some (m :: l)
  end.

(** [if (conversationHistory && Array.isArray(conversationHistory))] over
    [conversationHistory.slice(-6)]: [Some None] when the field is missing
    or not an array, [None] when the loop throws. *)
Definition readHistory (conversationHistory : option (list HistoryItem))
    : option (option (list Message)) :=
  match conversationHistory with
  | None => Some None
  | Some items => l ← readItems (slice_last 6 items); Some (Some l)
  end.

(** The [/chat] route, as the status and the [error] or [response] field of
    its answer.  [request] is [None] when [c.req.json()] or the
    destructuring of its result throws: the body is not JSON, or it is
    [null].  Else it holds the two fields read from the body (of a
    number, a string or an array both are missing): [message] is [None]
    when the field is missing or not a string, [conversationHistory] is
    [None] when the field is missing or not an array.  [geminiApiKey] is
    the environment variable; [gemini] is the call to the upstream model
    with the prompt as its text.  Everything thrown inside the route is
    caught and answered with status 500. *)
Definition chatRoute (geminiApiKey : option string)
    (gemini : string -> Upstream)
    (request : option (option string * option (list HistoryItem))) : Response :=
  match request with
  | None => mkResponse 500 (ErrorBody "Terjadi kesalahan saat memproses pesan")
  | Some (message, conversationHistory) =>
      match message with
      | None => mkResponse 400 (ErrorBody "Message is required")
      | Some message =>
          if str_eqb message "" then mkResponse 400 (ErrorBody "Message is required")
          else if str_eqb (default ""%string geminiApiKey) ""
          then mkResponse 500 (ErrorBody "AI service not configured")
          else
            match readHistory conversationHistory with
            | None => mkResponse 500 (ErrorBody "Terjadi kesalahan saat memproses pesan")
            | Some history =>
                match gemini (contextPrompt message history) with
                | UpstreamText (Some aiResponse) =>
                    if str_eqb aiResponse ""
                    then mkResponse 500 (ErrorBody "Terjadi kesalahan saat memproses pesan")
                    else mkResponse 200 (ResponseBody aiResponse)
                | _ => mkResponse 500 (ErrorBody "Terjadi kesalahan saat memproses pesan")
                end
            end
      end
  end.

(** What the client makes of a response: [response.ok] and then
    [data.response]. *)
Definition replyOf (r : Response) : option string :=
  match body r with
  | ResponseBody text => if (200 <=? status r) && (status r <=? 299) then Some text else None
  | ErrorBody _ => None
  end.

(** One exchange: the client sends, the server answers, the client
    appends the answer.  [None] when the client sends nothing.  The body
    the client writes holds the message as a string and the history as an
    array of its messages. *)
Definition exchange (trim : string -> string)
    (geminiApiKey : option string) (gemini : string -> Upstream)
    (id now id' now' : string) (s : State) : option State :=
  match sendMessage trim id now s with
  | (s', Some request) =>
      let response :=
        chatRoute geminiApiKey gemini
          (Some (Some (message request),
                 Some (map MessageItem (conversationHistory request)))) in
      Some (receive (replyOf response) id' now' s')
  | (_, None) => None
  end.

End Chat.

(** A chat of twelve messages, and a trim that leaves the text as it is. *)
Definition twelveMessages : list Chat.Message :=
  map (fun i => Chat.mkMessage (JSDate.pad 2 (Z.of_nat i))
                  (if Nat.even i then Chat.ai else Chat.user)
                  ("pesan " +:+ JSDate.pad 2 (Z.of_nat i))
                  "2024-03-07T09:00:00.000Z")
      (seq 0 12).

Definition noTrim (s : string) : string := s.

(** ** Totals of the analytics view kept in objects *)

(** The names every object inherits from [Object.prototype]: a lookup of
    one of them in an object literal finds the inherited property. *)
Definition prototypeNames : list string :=
  [ "constructor"; "__proto__"; "hasOwnProperty"; "isPrototypeOf";
    "propertyIsEnumerable"; "toLocaleString"; "toString"; "valueOf";
    "__defineGetter__"; "__defineSetter__"; "__lookupGetter__";
    "__lookupSetter__" ]%string.

(** [acc[key] = (acc[key] || 0) + amount] on an object that started as
    [{}] and holds numbers; [None] for an inherited name, where the value
    read is no number. *)
Definition addTo (key : string) (amount : Q) (acc : gmap string Q)
    : option (gmap string Q) :=
  if bool_decide (key ∈ prototypeNames) then None
  else Some (<[key := (orNumber (acc !! key) 0 + amount)%Q]> acc).

(** [journalEntries.reduce((acc, entry) => {
       if (entry.clinicalRotation) { acc[entry.clinicalRotation] = ... }
       return acc; }, {})] *)
Definition studyByRotation (journalEntries : list JournalEntry.t)
    : option (gmap string Q) :=
  foldl (fun acc entry =>
           acc ← acc;
           if str_eqb (JournalEntry.clinicalRotation entry) "" then Some acc
           else addTo (JournalEntry.clinicalRotation entry)
                      (JournalEntry.studyHours entry) acc)
        (Some ∅) journalEntries.

(** [moodEntries.reduce((acc, entry) => {
       entry.psychoticSymptoms.forEach(symptom => {
         acc[symptom] = (acc[symptom] || 0) + 1; });
       return acc; }, {})] *)
Definition symptomCounts (moodEntries : list MoodEntry.t) : option (gmap string Q) :=
  foldl (fun acc entry =>
           foldl (fun acc symptom => acc ← acc; addTo symptom 1 acc)
                 acc (MoodEntry.psychoticSymptoms entry))
        (Some ∅) moodEntries.

(** Journal entries of two rotations and one without a rotation. *)
Definition rotationEntries : list JournalEntry.t :=
  [ JournalEntry.mk "r1" "2024-03-01" [] 7 5 2 "" "Bedah" "" "" "" "" "" "";
    JournalEntry.mk "r2" "2024-03-02" [] 7 5 3 "" "Anak" "" "" "" "" "" "";
    JournalEntry.mk "r3" "2024-03-03" [] 7 5 (3 # 2) "" "Bedah" "" "" "" "" "" "";
    JournalEntry.mk "r4" "2024-03-04" [] 7 5 4 "" "" "" "" "" "" "" "" ].

(** The number a key stands for in a tally: 0 when it is absent. *)
Definition tallied (key : string) (acc : gmap string Q) : Q := default 0%Q (acc !! key).

(** Ten journal entries of ten dates, 2024-03-01 to 2024-03-10, in a store
    order that is not the date order. *)
Definition tenUnsorted : list JournalEntry.t :=
  map (fun '(i, d) => journalOn i ("2024-03-" +:+ d) 7 [])
      [("u01", "03"); ("u02", "09"); ("u03", "01"); ("u04", "10"); ("u05", "04");
       ("u06", "07"); ("u07", "02"); ("u08", "08"); ("u09", "05"); ("u10", "06")]%string.

(** Thirty-three mood entries of thirty-three dates, 2024-01-01 to
    2024-02-02, one a day at 08:00 UTC, in a store order that is not the
    date order (day 1, 8, 15, ..., each seven days after the one before,
    wrapping around). *)
Definition thirtyThreeDays : list MoodEntry.t :=
  map (fun i =>
         let n := Z.of_nat ((i * 7) mod 33 + 1) in
         moodAt ("t" +:+ JSDate.pad 2 n)
                ((if n <=? 31 then "2024-01-" +:+ JSDate.pad 2 n
                  else "2024-02-" +:+ JSDate.pad 2 (n - 31)) +:+ "T08:00:00.000Z")
                5 5 [])
      (seq 0 33).

(** The text [toISOString] writes for a moment of the years 0000 to 9999:
    [YYYY-MM-DDTHH:mm:ss.sssZ]. *)
Definition isoTimestamp (y m d h mi s ms : Z) : string :=
  (Calendar.isoDate y m d +:+ "T" +:+ JSDate.pad 2 h +:+ ":" +:+ JSDate.pad 2 mi +:+ ":" +:+
   JSDate.pad 2 s +:+ "." +:+ JSDate.pad 3 ms +:+ "Z")%string.

(** * Properties *)

Lemma Qltb_lt (x y : Q) : Qltb x y = true <-> (x < y)%Q.
Proof.
  unfold Qltb. rewrite negb_true_iff, <- not_true_iff_false, Qle_bool_iff.
  split; [apply Qnot_le_lt|apply Qlt_not_le].
Qed.

(** ** Facts about [findIndex] and [upsert] *)

Section Store.
Context {A : Type} `{HasId A}.

Lemma same_id_true entry e : same_id entry e = true <-> entry_id e = entry_id entry.
Proof. unfold same_id, str_eqb. apply bool_decide_eq_true. Qed.

Lemma same_id_false entry e : same_id entry e = false <-> entry_id e <> entry_id entry.
Proof. unfold same_id, str_eqb. apply bool_decide_eq_false. Qed.

Lemma findIndex_from_absent (p : A -> bool) l i :
  Forall (fun x => p x = false) l -> findIndex_from p l i = -1.
Proof.
  intros Hall. revert i.
  induction Hall as [|x l Hx _ IH]; intros i; simpl; [reflexivity|].
  rewrite Hx. apply IH.
Qed.

Lemma findIndex_from_first (p : A -> bool) l1 x l2 i :
  Forall (fun y => p y = false) l1 -> p x = true ->
  findIndex_from p (l1 ++ x :: l2) i = i + Z.of_nat (length l1).
Proof.
  intros Hall Hx. revert i.
  induction Hall as [|y l Hy _ IH]; intros i; simpl.
  - rewrite Hx. lia.
  - rewrite Hy, IH. lia.
Qed.

Lemma findIndex_from_range (p : A -> bool) l i :
  findIndex_from p l i = -1 \/
  i <= findIndex_from p l i < i + Z.of_nat (length l).
Proof.
  revert i. induction l as [|x l IH]; intros i; simpl; [now left|].
  destruct (p x).
  - right. lia.
  - destruct (IH (i + 1)) as [->|Hr]; [now left|right; lia].
Qed.

(** The list splits at the first entry that satisfies the predicate. *)
Lemma first_match_split (p : A -> bool) l :
  Forall (fun x => p x = false) l \/
  exists l1 x l2, l = l1 ++ x :: l2 /\ Forall (fun y => p y = false) l1 /\ p x = true.
Proof.
  induction l as [|a l IH]; [left; constructor|].
  destruct (p a) eqn:Ha.
  - right. exists [], a, l. repeat split; [constructor|assumption].
  - destruct IH as [Hall|(l1 & x & l2 & -> & Hl1 & Hx)].
    + left. now constructor.
    + right. exists (a :: l1), x, l2. repeat split; [now constructor|assumption].
Qed.

Lemma upsert_unfold entry l :
  upsert entry l =
  if 0 <=? findIndex (same_id entry) l
  then <[Z.to_nat (findIndex (same_id entry) l) := entry]> l
  else l ++ [entry].
Proof. reflexivity. Qed.

Lemma upsert_replace entry l1 x l2 :
  Forall (fun y => entry_id y <> entry_id entry) l1 ->
  entry_id x = entry_id entry ->
  upsert entry (l1 ++ x :: l2) = l1 ++ entry :: l2.
Proof.
  intros Hl1 Hx. rewrite upsert_unfold. unfold findIndex.
  rewrite (findIndex_from_first (same_id entry) l1 x l2 0).
  - replace (0 <=? 0 + Z.of_nat (length l1)) with true
      by (symmetry; apply Z.leb_le; lia).
    replace (Z.to_nat (0 + Z.of_nat (length l1))) with (length l1 + 0)%nat by lia.
    now rewrite insert_app_r.
  - eapply Forall_impl; [exact Hl1|]. intros y Hy. now apply same_id_false.
  - now apply same_id_true.
Qed.

Lemma upsert_fresh entry l :
  Forall (fun y => entry_id y <> entry_id entry) l ->
  upsert entry l = l ++ [entry].
Proof.
  intros Hl. rewrite upsert_unfold. unfold findIndex.
  rewrite (findIndex_from_absent (same_id entry)); [reflexivity|].
  eapply Forall_impl; [exact Hl|]. intros y Hy. now apply same_id_false.
Qed.

(** Every upsert is one of the two cases above. *)
Lemma upsert_cases entry l :
  (Forall (fun y => entry_id y <> entry_id entry) l /\ upsert entry l = l ++ [entry]) \/
  (exists l1 x l2, l = l1 ++ x :: l2 /\
     Forall (fun y => entry_id y <> entry_id entry) l1 /\
     entry_id x = entry_id entry /\ upsert entry l = l1 ++ entry :: l2).
Proof.
  destruct (first_match_split (same_id entry) l) as [Hall|(l1 & x & l2 & -> & Hl1 & Hx)].
  - assert (Hne : Forall (fun y => entry_id y <> entry_id entry) l).
    { eapply Forall_impl; [exact Hall|]. intros y Hy. now apply same_id_false. }
    left. split; [exact Hne|now apply upsert_fresh].
  - assert (Hne : Forall (fun y => entry_id y <> entry_id entry) l1).
    { eapply Forall_impl; [exact Hl1|]. intros y Hy. now apply same_id_false. }
    apply same_id_true in Hx.
    right. exists l1, x, l2. repeat split; try assumption.
    now apply upsert_replace.
Qed.

(** With unique ids, an entry of the same id sits at one index only, and
    that is the index the upsert writes. *)
Lemma upsert_at_index entry l i x :
  NoDup (map entry_id l) ->
  l !! i = Some x -> entry_id x = entry_id entry ->
  upsert entry l = <[i := entry]> l.
Proof.
  intros Hnd Hi Hx.
  destruct (upsert_cases entry l) as [[Hall _]|(l1 & y & l2 & -> & Hl1 & Hy & ->)].
  - rewrite Forall_forall in Hall. exfalso.
    apply (Hall x); [|exact Hx]. eapply list_elem_of_lookup_2, Hi.
  - assert (i = length l1) as ->.
    { rewrite map_app in Hnd. simpl in Hnd.
      destruct (Nat.lt_trichotomy i (length l1)) as [Hlt|[Heq|Hgt]]; [|exact Heq|].
      - rewrite lookup_app_l in Hi by exact Hlt.
        rewrite Forall_forall in Hl1. exfalso.
        apply (Hl1 x); [|exact Hx]. eapply list_elem_of_lookup_2, Hi.
      - rewrite lookup_app_r in Hi by lia.
        destruct (i - length l1)%nat as [|k] eqn:Hk; [lia|]. simpl in Hi.
        apply NoDup_app in Hnd as (_ & _ & Hnd).
        apply NoDup_cons in Hnd as [Hnd _]. exfalso. apply Hnd.
        rewrite Hy, <- Hx. apply list_elem_of_In, in_map.
        apply list_elem_of_In. eapply list_elem_of_lookup_2, Hi. }
    pose proof (insert_app_r l1 (y :: l2) 0 entry) as E.
    rewrite Nat.add_0_r in E. now rewrite E.
Qed.

(** Unique ids are an invariant of the store. *)
Lemma upsert_NoDup entry l :
  NoDup (map entry_id l) -> NoDup (map entry_id (upsert entry l)).
Proof.
  intros Hnd.
  destruct (upsert_cases entry l) as [[Hall ->]|(l1 & y & l2 & -> & Hl1 & Hy & ->)].
  - rewrite map_app. simpl. apply NoDup_app. repeat split.
    + exact Hnd.
    + intros z Hz Hz'. apply list_elem_of_In in Hz, Hz'.
      destruct Hz' as [<-|[]]. apply in_map_iff in Hz as (w & Hw & Hin).
      rewrite Forall_forall in Hall. apply (Hall w); [|exact Hw].
      now apply list_elem_of_In.
    + apply NoDup_singleton.
  - rewrite map_app in *. simpl in *. now rewrite <- Hy.
Qed.

End Store.

(** ** The date model on sample strings *)

Example parse_date_only : JSDate.parse "2024-03-01" = Some 1709251200000.
Proof. reflexivity. Qed.

Example parse_timestamp :
  JSDate.parse "2024-03-01T10:20:30.456Z" = Some 1709288430456.
Proof. reflexivity. Qed.

Example parse_invalid_month : JSDate.parse "2024-13-01" = None.
Proof. reflexivity. Qed.

Example isoDateOf_timestamp :
  JSDate.isoDateOf "2024-02-29T23:59:59.999Z" = Some "2024-02-29"%string.
Proof. reflexivity. Qed.

Example toISODate_epoch : JSDate.toISODate 0 = "1970-01-01"%string.
Proof. reflexivity. Qed.

Example toISODate_before_epoch : JSDate.toISODate (-1) = "1969-12-31"%string.
Proof. reflexivity. Qed.

(** ** The date model: a formatted date reads back as its day *)

Module JSDateFacts.
Import JSDate.
#[local] Open Scope Z_scope.

Lemma chars_app (a b : string) :
  list_ascii_of_string (a +:+ b) = list_ascii_of_string a ++ list_ascii_of_string b.
Proof. induction a as [|c a IH]; simpl; [reflexivity|]. now rewrite IH. Qed.

Lemma digit_val_char (n : Z) : digit_val (digit_char n) = Some (n mod 10).
Proof.
  unfold digit_char.
  assert (H : 0 <= n mod 10 < 10) by (apply Z.mod_pos_bound; lia).
  assert (Hc : n mod 10 = 0 \/ n mod 10 = 1 \/ n mod 10 = 2 \/ n mod 10 = 3 \/
               n mod 10 = 4 \/ n mod 10 = 5 \/ n mod 10 = 6 \/ n mod 10 = 7 \/
               n mod 10 = 8 \/ n mod 10 = 9) by lia.
  repeat (destruct Hc as [->|Hc]; [reflexivity|]). now rewrite Hc.
Qed.

Lemma take_num_snoc (k : nat) (acc : Z) (cs : list ascii) :
  take_num (S k) acc cs =
  match take_num k acc cs with
  | Some (a, c :: rest) =>
      match digit_val c with Some d => Some (10 * a + d, rest) | None => None end
  | _ => None
  end.
Proof.
  revert acc cs. induction k as [|k IH]; intros acc cs.
  - simpl. destruct cs as [|c cs]; [reflexivity|]. now destruct (digit_val c).
  - change (take_num (S (S k)) acc cs) with
      (match cs with
       | [] => None
       | c :: cs' => match digit_val c with
                     | Some d => take_num (S k) (10 * acc + d) cs'
                     | None => None end end).
    destruct cs as [|c cs]; [reflexivity|].
    destruct (digit_val c) as [d|] eqn:Hd.
    + rewrite IH. simpl. now rewrite Hd.
    + simpl. now rewrite Hd.
Qed.

Lemma take_num_pad (k : nat) (n acc : Z) (rest : list ascii) :
  take_num k acc (list_ascii_of_string (pad k n) ++ rest) =
  Some (acc * 10 ^ Z.of_nat k + n mod 10 ^ Z.of_nat k, rest).
Proof.
  revert n rest. induction k as [|k IH]; intros n rest.
  - simpl. rewrite Z.mod_1_r. f_equal. f_equal. lia.
  - rewrite take_num_snoc. simpl pad. rewrite chars_app, <- app_assoc.
    change (list_ascii_of_string (String (digit_char n) "") ++ rest)
      with (digit_char n :: rest).
    rewrite IH, digit_val_char. f_equal. f_equal.
    rewrite Nat2Z.inj_succ, Z.pow_succ_r by lia.
    rewrite (Z.rem_mul_r n 10 (10 ^ Z.of_nat k)) by lia. lia.
Qed.

Lemma take_num_range (k : nat) (acc n : Z) (cs rest : list ascii) :
  take_num k acc cs = Some (n, rest) ->
  acc * 10 ^ Z.of_nat k <= n < (acc + 1) * 10 ^ Z.of_nat k.
Proof.
  revert acc cs. induction k as [|k IH]; intros acc cs; simpl take_num.
  - intros [= -> ->]. simpl. lia.
  - destruct cs as [|c cs]; [discriminate|].
    destruct (digit_val c) as [d|] eqn:Hd; [|discriminate].
    intros H. apply IH in H.
    assert (0 <= d <= 9).
    { unfold digit_val in Hd.
      destruct ((48 <=? Z.of_N (N_of_ascii c)) && (Z.of_N (N_of_ascii c) <=? 57)) eqn:Hb;
        [|discriminate].
      injection Hd as <-. apply andb_prop in Hb as [H1%Z.leb_le H2%Z.leb_le]. lia. }
    rewrite Nat2Z.inj_succ, Z.pow_succ_r by lia.
    assert (0 < 10 ^ Z.of_nat k) by (apply Z.pow_pos_nonneg; lia).
    nia.
Qed.

Lemma InLeapYear_true y :
  InLeapYear y = true <-> (y mod 4 = 0 /\ y mod 100 <> 0) \/ y mod 400 = 0.
Proof.
  unfold InLeapYear.
  rewrite orb_true_iff, andb_true_iff, negb_true_iff, !Z.eqb_eq, Z.eqb_neq. tauto.
Qed.

Lemma InLeapYear_false y :
  InLeapYear y = false <-> (y mod 4 <> 0 \/ y mod 100 = 0) /\ y mod 400 <> 0.
Proof.
  unfold InLeapYear.
  rewrite orb_false_iff, andb_false_iff, negb_false_iff, !Z.eqb_eq, !Z.eqb_neq. tauto.
Qed.

Lemma DaysBeforeMonth_values (y : Z) :
  let leap := if InLeapYear y then 1 else 0 in
  DaysBeforeMonth y 1 = 0 /\ DaysBeforeMonth y 2 = 31 /\
  DaysBeforeMonth y 3 = 59 + leap /\ DaysBeforeMonth y 4 = 90 + leap /\
  DaysBeforeMonth y 5 = 120 + leap /\ DaysBeforeMonth y 6 = 151 + leap /\
  DaysBeforeMonth y 7 = 181 + leap /\ DaysBeforeMonth y 8 = 212 + leap /\
  DaysBeforeMonth y 9 = 243 + leap /\ DaysBeforeMonth y 10 = 273 + leap /\
  DaysBeforeMonth y 11 = 304 + leap /\ DaysBeforeMonth y 12 = 334 + leap.
Proof.
  unfold DaysBeforeMonth. cbv -[InLeapYear].
  destruct (InLeapYear y); repeat split.
Qed.

Lemma DaysInMonth_values (y : Z) :
  DaysInMonth y 1 = 31 /\ DaysInMonth y 2 = 28 + (if InLeapYear y then 1 else 0) /\
  DaysInMonth y 3 = 31 /\ DaysInMonth y 4 = 30 /\ DaysInMonth y 5 = 31 /\
  DaysInMonth y 6 = 30 /\ DaysInMonth y 7 = 31 /\ DaysInMonth y 8 = 31 /\
  DaysInMonth y 9 = 30 /\ DaysInMonth y 10 = 31 /\ DaysInMonth y 11 = 30 /\
  DaysInMonth y 12 = 31.
Proof. cbv -[InLeapYear]. destruct (InLeapYear y); repeat split. Qed.

Lemma valid_date_true y m d :
  1 <= m <= 12 -> 1 <= d <= DaysInMonth y m -> valid_date y m d = true.
Proof.
  intros Hm Hd. unfold valid_date.
  repeat (apply andb_true_intro; split); apply Z.leb_le; lia.
Qed.

Lemma valid_date_bounds y m d :
  valid_date y m d = true -> 1 <= m <= 12 /\ 1 <= d <= DaysInMonth y m.
Proof.
  unfold valid_date. intros H.
  apply andb_prop in H as [H Hd2%Z.leb_le]. apply andb_prop in H as [H Hd1%Z.leb_le].
  apply andb_prop in H as [Hm1%Z.leb_le Hm2%Z.leb_le]. lia.
Qed.

Lemma day_offset_range y m d :
  valid_date y m d = true ->
  0 <= DaysBeforeMonth y m + (d - 1) <= 364 + (if InLeapYear y then 1 else 0).
Proof.
  intros [Hm Hd]%valid_date_bounds.
  pose proof (DaysBeforeMonth_values y) as Hb. pose proof (DaysInMonth_values y) as Hi.
  cbv zeta in Hb.
  assert (Hc : m = 1 \/ m = 2 \/ m = 3 \/ m = 4 \/ m = 5 \/ m = 6 \/ m = 7 \/
               m = 8 \/ m = 9 \/ m = 10 \/ m = 11 \/ m = 12) by lia.
  destruct (InLeapYear y);
    repeat (destruct Hc as [->|Hc]; [lia|]); subst m; lia.
Qed.

(** The years 0000 to 9999 are the days -719528 to 2932896. *)
Lemma MakeDay_year_range y m d :
  valid_date y m d = true ->
  (0 <= y <= 9999 <-> -719528 <= MakeDay y m d < 2932897).
Proof.
  intros Hv. pose proof (day_offset_range y m d Hv) as Ho. unfold MakeDay.
  destruct (InLeapYear y) eqn:Hl;
    [apply InLeapYear_true in Hl|apply InLeapYear_false in Hl];
    unfold DayFromYear; Z.div_mod_to_equations; lia.
Qed.

(** One month of the proof below: the month number, the year carry and the
    day offset for a given value of [mp]. *)
Ltac month_case Hres Hb Hi cy cm off :=
  apply (Hres cy cm off); [reflexivity|reflexivity|reflexivity|lia|];
  specialize (Hb cy); specialize (Hi cy);
  match goal with
  | |- context [DayFromYear ?y] =>
      let Hl := fresh "Hl" in
      destruct (InLeapYear y) eqn:Hl;
      [apply InLeapYear_true in Hl|apply InLeapYear_false in Hl]
  end;
  unfold DayFromYear; Z.div_mod_to_equations; lia.

(** [civil_of_day] inverts [MakeDay]. *)
Lemma civil_of_day_correct (day : Z) :
  exists y m dd, civil_of_day day = (y, m, dd) /\
    valid_date y m dd = true /\ MakeDay y m dd = day.
Proof.
  unfold civil_of_day.
  set (z := day + 719468).
  set (era := z / 146097).
  set (doe := z - era * 146097).
  set (yoe := (doe - doe / 1460 + doe / 36524 - doe / 146096) / 365).
  set (doy := doe - (365 * yoe + yoe / 4 - yoe / 100)).
  set (mp := (5 * doy + 2) / 153).
  assert (Hdoe : 0 <= doe < 146097) by (subst doe era; Z.div_mod_to_equations; lia).
  assert (Hy : 0 <= yoe <= 399 /\ 0 <= doy <= 365 /\
               (doy = 365 -> (yoe + 1) mod 4 = 0 /\ ((yoe + 1) mod 100 <> 0 \/ yoe = 399))).
  { subst doy yoe. clearbody doe. Z.div_mod_to_equations. lia. }
  destruct Hy as (Hyoe & Hdoy & Hleap).
  assert (Hmp : mp = 0 \/ mp = 1 \/ mp = 2 \/ mp = 3 \/ mp = 4 \/ mp = 5 \/ mp = 6 \/
                mp = 7 \/ mp = 8 \/ mp = 9 \/ mp = 10 \/ mp = 11).
  { subst mp. clearbody doy. Z.div_mod_to_equations. lia. }
  assert (Hmpd : 153 * mp <= 5 * doy + 2 < 153 * mp + 153)
    by (subst mp; clearbody doy; Z.div_mod_to_equations; lia).
  assert (Hera : z = era * 146097 + doe) by (subst doe; lia).
  assert (Hyd : doe = 365 * yoe + yoe / 4 - yoe / 100 + doy) by (subst doy; lia).
  clearbody mp doy yoe doe era.
  assert (Hres : forall cy cm off,
            (if mp <? 10 then mp + 3 else mp - 9) = cm ->
            (if cm <=? 2 then 1 else 0) = cy ->
            (153 * mp + 2) / 5 = off ->
            1 <= cm <= 12 ->
            DaysBeforeMonth (yoe + era * 400 + cy) cm + (doy - off)
              = day - DayFromYear (yoe + era * 400 + cy) /\
            1 <= doy - off + 1 <= DaysInMonth (yoe + era * 400 + cy) cm ->
            exists y m dd,
              (yoe + era * 400
                 + (if (if mp <? 10 then mp + 3 else mp - 9) <=? 2 then 1 else 0),
               (if mp <? 10 then mp + 3 else mp - 9),
               doy - (153 * mp + 2) / 5 + 1) = (y, m, dd) /\
              valid_date y m dd = true /\ MakeDay y m dd = day).
  { intros cy cm off <- <- <- Hcm [Hmk Hd].
    eexists _, _, _. split; [reflexivity|]. split; [now apply valid_date_true|].
    unfold MakeDay. lia. }
  pose proof (fun cy => DaysBeforeMonth_values (yoe + era * 400 + cy)) as Hb.
  pose proof (fun cy => DaysInMonth_values (yoe + era * 400 + cy)) as Hi.
  cbv zeta in Hb.
  destruct Hmp as [->|[->|[->|[->|[->|[->|[->|[->|[->|[->|[->| ->]]]]]]]]]]].
  - month_case Hres Hb Hi 0 3 0.
  - month_case Hres Hb Hi 0 4 31.
  - month_case Hres Hb Hi 0 5 61.
  - month_case Hres Hb Hi 0 6 92.
  - month_case Hres Hb Hi 0 7 122.
  - month_case Hres Hb Hi 0 8 153.
  - month_case Hres Hb Hi 0 9 184.
  - month_case Hres Hb Hi 0 10 214.
  - month_case Hres Hb Hi 0 11 245.
  - month_case Hres Hb Hi 0 12 275.
  - month_case Hres Hb Hi 1 1 306.
  - month_case Hres Hb Hi 1 2 337.
Qed.

(** The civil date of a day of the years 0000 to 9999. *)
Lemma civil_of_day_spec (d : Z) :
  -719528 <= d < 2932897 ->
  exists y m dd, civil_of_day d = (y, m, dd) /\
    0 <= y <= 9999 /\ valid_date y m dd = true /\ MakeDay y m dd = d.
Proof.
  intros Hd. destruct (civil_of_day_correct d) as (y & m & dd & Hc & Hv & Hm).
  exists y, m, dd. repeat split; try assumption;
    apply (MakeDay_year_range y m dd Hv); lia.
Qed.

Lemma MakeDay_range y m d :
  0 <= y <= 9999 -> valid_date y m d = true -> -719528 <= MakeDay y m d < 2932897.
Proof. intros Hy Hv. now apply (MakeDay_year_range y m d Hv). Qed.

Lemma expect_cons (c : ascii) (cs : list ascii) : expect c ([c] ++ cs) = Some cs.
Proof. simpl. unfold expect. now rewrite bool_decide_eq_true_2. Qed.

Lemma parse_date_string (y m d : Z) :
  0 <= y <= 9999 -> valid_date y m d = true ->
  parse (year_string y +:+ "-" +:+ pad 2 m +:+ "-" +:+ pad 2 d) =
  Some (MakeDay y m d * msPerDay).
Proof.
  intros Hy Hv.
  assert (Hmd : 0 <= m < 100 /\ 0 <= d < 100).
  { destruct (valid_date_bounds y m d Hv) as [Hm Hd].
    assert (DaysInMonth y m <= 31).
    { unfold DaysInMonth.
      repeat match goal with |- context [if ?b then _ else _] => destruct b end; lia. }
    lia. }
  unfold year_string.
  replace ((0 <=? y) && (y <=? 9999)) with true
    by (symmetry; apply andb_true_intro; split; apply Z.leb_le; lia).
  unfold parse, parse_chars. rewrite !chars_app.
  change (list_ascii_of_string "-") with ["-"%char].
  repeat (first [rewrite take_num_pad | rewrite expect_cons
                | rewrite <- (app_nil_r (list_ascii_of_string (pad 2 d))) at 1;
                  rewrite take_num_pad];
          cbn [mbind option_bind]).
  change (10 ^ Z.of_nat 4) with 10000. change (10 ^ Z.of_nat 2) with 100.
  rewrite !Z.mod_small by lia. rewrite !Z.add_0_l.
  rewrite Hv. reflexivity.
Qed.

Lemma toISODate_day (t : Z) : toISODate t = toISODate (t / msPerDay * msPerDay).
Proof. unfold toISODate. now rewrite Z.div_mul. Qed.

Lemma parse_toISODate (t : Z) :
  -719528 * msPerDay <= t < 2932897 * msPerDay ->
  parse (toISODate t) = Some (t / msPerDay * msPerDay).
Proof.
  intros Ht.
  assert (Hd : -719528 <= t / msPerDay < 2932897).
  { unfold msPerDay in *. Z.div_mod_to_equations. lia. }
  destruct (civil_of_day_spec _ Hd) as (y & m & dd & Hc & Hy & Hv & Hm).
  unfold toISODate. rewrite Hc, <- Hm. now apply parse_date_string.
Qed.

Lemma take_num_digits (k : nat) (n : Z) (cs rest : list ascii) :
  take_num k 0 cs = Some (n, rest) -> 0 <= n < 10 ^ Z.of_nat k.
Proof. intros H%take_num_range. lia. Qed.

Lemma parse_range (s : string) (t : Z) :
  parse s = Some t -> -719528 * msPerDay <= t < 2932897 * msPerDay.
Proof.
  unfold parse, parse_chars. intros H.
  repeat match type of H with
         | context [take_num ?k 0 ?cs] =>
             let E := fresh "E" in
             destruct (take_num k 0 cs) as [[? ?]|] eqn:E; [|discriminate];
             apply take_num_digits in E; cbn [mbind option_bind] in H
         | context [expect ?c ?cs] =>
             destruct (expect c cs) as [?|]; [|discriminate];
             cbn [mbind option_bind] in H
         | context [negb (valid_date ?y ?m ?d)] =>
             let E := fresh "V" in
             destruct (valid_date y m d) eqn:E; [|discriminate]; cbn [negb] in H
         | context [valid_time ?h ?mi ?s] =>
             let E := fresh "T" in
             destruct (valid_time h mi s) eqn:E; [|discriminate]
         | match ?l with [] => _ | _ => _ end = _ => destruct l; [|try discriminate]
         end;
  injection H as <-;
  match goal with
  | V : valid_date ?y ?m ?d = true, E : 0 <= ?y < 10 ^ Z.of_nat 4 |- _ =>
      pose proof (MakeDay_range y m d ltac:(change (10 ^ Z.of_nat 4) with 10000 in E; lia) V)
  end; unfold msPerDay; try lia.
  unfold valid_time in *. 
  repeat match goal with H : _ && _ = true |- _ => apply andb_prop in H as [? ?] end.
  repeat match goal with H : (_ <=? _) = true |- _ => apply Z.leb_le in H end.
  change (10 ^ Z.of_nat 2) with 100 in *. change (10 ^ Z.of_nat 3) with 1000 in *.
  unfold MakeTime. lia.
Qed.

(** The date key of a mood entry is a date the model reads, the start of
    its day. *)
Lemma dateKey_parses (e : MoodEntry.t) (k : string) :
  dateKey e = Some k ->
  exists day, k = toISODate (day * msPerDay) /\ parse k = Some (day * msPerDay).
Proof.
  unfold dateKey, isoDateOf.
  destruct (parse (MoodEntry.timestamp e)) as [t|] eqn:Ht; [|discriminate].
  intros [= <-]. exists (t / msPerDay). split; [apply toISODate_day|].
  apply parse_toISODate. eapply parse_range, Ht.
Qed.

End JSDateFacts.

(** ** Claims about the store *)

(** C1: upserting an entry whose id is already in the store replaces the
    entry of that id at its index and leaves every other position as it
    was (ids [a; b; c] stay in that order when a modified [b] is saved);
    upserting an entry with a fresh id appends it at the end. *)
Theorem upsert_replaces_in_place_or_appends
    {A : Type} `{HasId A} (entry : A) (l : list A) :
  (forall i x,
      NoDup (map entry_id l) -> l !! i = Some x -> entry_id x = entry_id entry ->
      upsert entry l = <[i := entry]> l /\
      length (upsert entry l) = length l /\
      upsert entry l !! i = Some entry /\
      (forall j, j <> i -> upsert entry l !! j = l !! j)) /\
  (forall l1 x l2,
      l = l1 ++ x :: l2 ->
      Forall (fun y => entry_id y <> entry_id entry) l1 ->
      entry_id x = entry_id entry ->
      upsert entry l = l1 ++ entry :: l2) /\
  (forall a b c,
      l = [a; b; c] -> entry_id a <> entry_id b -> entry_id b = entry_id entry ->
      upsert entry l = [a; entry; c]) /\
  (Forall (fun y => entry_id y <> entry_id entry) l ->
   upsert entry l = l ++ [entry]).
Proof.
  repeat split.
  - now apply upsert_at_index with x.
  - erewrite upsert_at_index by eassumption. apply length_insert.
  - erewrite upsert_at_index by eassumption.
    apply list_lookup_insert_eq. eapply lookup_lt_Some; eassumption.
  - intros j Hj. erewrite upsert_at_index by eassumption.
    now apply list_lookup_insert_ne.
  - intros l1 x l2 -> Hl1 Hx. now apply upsert_replace.
  - intros a b c -> Hab Hb.
    apply (upsert_replace entry [a] b [c]); [|exact Hb].
    constructor; [congruence|constructor].
  - apply upsert_fresh.
Qed.

Lemma upsert_replaces_in_place_or_appends_witness :
  upsert entryB' [entryA; entryB; entryC] = [entryA; entryB'; entryC] /\
  upsert entryB' [entryA; entryB; entryC] = <[1%nat := entryB']> [entryA; entryB; entryC] /\
  upsert entryD [entryA; entryB; entryC] = [entryA; entryB; entryC; entryD].
Proof.
  destruct (upsert_replaces_in_place_or_appends entryB' [entryA; entryB; entryC])
    as (Hidx & _ & Habc & _).
  destruct (upsert_replaces_in_place_or_appends entryD [entryA; entryB; entryC])
    as (_ & _ & _ & Hfresh).
  split; [|split].
  - apply (Habc entryA entryB entryC); [reflexivity|discriminate|reflexivity].
  - destruct (Hidx 1%nat entryB) as [E _];
      [compute_done|reflexivity|reflexivity|exact E].
  - apply Hfresh. repeat (constructor; [discriminate|]). constructor.
Defined.

(** C8: upsert is idempotent: saving the same entry a second time leaves
    the collection exactly as the first save left it, in length and in
    order. *)
Theorem upsert_idempotent {A : Type} `{HasId A} (entry : A) (l : list A) :
  upsert entry (upsert entry l) = upsert entry l.
Proof.
  destruct (upsert_cases entry l) as [[Hall ->]|(l1 & y & l2 & -> & Hl1 & Hy & ->)].
  - now apply (upsert_replace entry l entry []).
  - now apply upsert_replace.
Qed.

(** C10: saving a mood entry leaves the journal collection unchanged and
    saving a journal entry leaves the mood collection unchanged, for one
    save and for any run of saves of the same kind; the text stored for
    the other collection is left as it was too. *)
Theorem save_touches_own_collection_only `{JSON} (s : AppState) :
  (forall m, journalEntries (handleSaveMoodEntry m s) = journalEntries s) /\
  (forall j, moodEntries (handleSaveJournalEntry j s) = moodEntries s) /\
  (forall ms,
      journalEntries (foldl (fun s m => handleSaveMoodEntry m s) s ms)
      = journalEntries s) /\
  (forall js,
      moodEntries (foldl (fun s j => handleSaveJournalEntry j s) s js)
      = moodEntries s) /\
  (forall m ls,
      journalEntries (fst (saveMoodEntry m (s, ls))) = journalEntries s /\
      snd (saveMoodEntry m (s, ls)) !! "journalEntries"%string
      = ls !! "journalEntries"%string) /\
  (forall j ls,
      moodEntries (fst (saveJournalEntry j (s, ls))) = moodEntries s /\
      snd (saveJournalEntry j (s, ls)) !! "moodEntries"%string
      = ls !! "moodEntries"%string).
Proof.
  split; [reflexivity|]. split; [reflexivity|]. split; [|split; [|split]].
  - intros ms. revert s. induction ms as [|m ms IH]; intros s; [reflexivity|].
    simpl. now rewrite IH.
  - intros js. revert s. induction js as [|j js IH]; intros s; [reflexivity|].
    simpl. now rewrite IH.
  - intros m ls. split; [reflexivity|]. simpl. now rewrite lookup_insert_ne.
  - intros j ls. split; [reflexivity|]. simpl. now rewrite lookup_insert_ne.
Qed.

(** ** The dashboard: what one render returns *)

Lemma elem_of_when (a b : Alert) (c : bool) : a ∈ when c b <-> c = true /\ a = b.
Proof.
  destruct c; simpl.
  - rewrite list_elem_of_singleton. intuition.
  - rewrite elem_of_nil. intuition discriminate.
Qed.

Ltac alert_membership :=
  unfold healthAlerts;
  rewrite ?elem_of_app, ?elem_of_when;
  intuition (try discriminate; try congruence).

Lemma healthAlerts_LowMood m a s ad t p c :
  LowMood ∈ healthAlerts m a s ad t p c <-> Qltb m 4 = true.
Proof. alert_membership. Qed.

Lemma healthAlerts_HighAnxiety m a s ad t p c :
  HighAnxiety ∈ healthAlerts m a s ad t p c <-> Qltb 7 a = true.
Proof. alert_membership. Qed.

Lemma healthAlerts_SleepDeficit m a s ad t p c :
  SleepDeficit ∈ healthAlerts m a s ad t p c <-> Qltb s 6 = true.
Proof. alert_membership. Qed.

Lemma healthAlerts_LowAdherence m a s ad t p c :
  LowAdherence ∈ healthAlerts m a s ad t p c <->
  Qltb ad 80 && (0 <? t)%nat = true.
Proof. alert_membership. Qed.

Lemma healthAlerts_PsychoticSymptoms m a s ad t p c n :
  PsychoticSymptoms n ∈ healthAlerts m a s ad t p c <->
  (3 <? p)%nat = true /\ n = p.
Proof. alert_membership. Qed.

Lemma healthAlerts_NoData m a s ad t p c :
  NoData ∈ healthAlerts m a s ad t p c <->
  Qeq_bool m 0 && Qeq_bool a 0 && (c =? 0)%nat = true.
Proof. alert_membership. Qed.

(** The fields of the view of a render that did not throw. *)
Lemma Dashboard_Some now js ms v :
  Dashboard now js ms = Some v ->
  recentJournalEntries v = List.filter (inWindowJ now) js /\
  recentMoodEntries v = List.filter (inWindowM now) ms /\
  avgMood v = average MoodEntry.mood (recentMoodEntries v) /\
  avgAnxiety v = average MoodEntry.anxiety (recentMoodEntries v) /\
  avgEnergy v = average MoodEntry.energy (recentMoodEntries v) /\
  avgStress v = average MoodEntry.stress (recentMoodEntries v) /\
  avgSleep v = average JournalEntry.sleepHours (recentJournalEntries v) /\
  avgStudy v = average JournalEntry.studyHours (recentJournalEntries v) /\
  totalMeds v = sumMeds (@length Medication) (recentJournalEntries v) /\
  takenMeds v = sumMeds countTaken (recentJournalEntries v) /\
  medicationAdherence v = adherenceOf (takenMeds v) (totalMeds v) /\
  psychoticSymptomDays v = length (List.filter hasSymptoms (recentMoodEntries v)) /\
  alerts v =
    healthAlerts (avgMood v) (avgAnxiety v) (avgSleep v) (medicationAdherence v)
      (totalMeds v) (psychoticSymptomDays v) (length (recentMoodEntries v)).
Proof.
  unfold Dashboard.
  destruct (filter_throwing _ ms) as [tm|]; simpl; [|discriminate].
  intros [= <-]. simpl. repeat split.
Qed.

Lemma filter_throwing_total {A : Type} (p : A -> option bool) (l : list A) :
  Forall (fun x => is_Some (p x)) l -> is_Some (filter_throwing p l).
Proof.
  induction 1 as [|x l [b Hb] _ [r Hr]]; simpl; [eauto|].
  rewrite Hb, Hr. simpl. eauto.
Qed.

(** A render throws only on a mood entry whose timestamp is not a date. *)
Lemma Dashboard_total now js ms :
  Forall (fun m => is_Some (JSDate.parse (MoodEntry.timestamp m))) ms ->
  is_Some (Dashboard now js ms).
Proof.
  intros Hms. unfold Dashboard.
  destruct (filter_throwing_total
              (fun entry =>
                 entryDate ← dateKey entry;
                 Some (str_eqb entryDate (JSDate.toISODate now))) ms) as [tm Htm].
  - eapply Forall_impl; [exact Hms|]. intros m [t Ht].
    unfold dateKey, JSDate.isoDateOf. rewrite Ht. simpl. eauto.
  - rewrite Htm. simpl. eauto.
Qed.

Lemma sumMeds_from_le (f g : list Medication -> nat) (l : list JournalEntry.t) (a b : nat) :
  (forall meds, f meds <= g meds)%nat -> (a <= b)%nat ->
  (foldl (fun sum entry => (sum + f (JournalEntry.medications entry))%nat) a l
   <= foldl (fun sum entry => (sum + g (JournalEntry.medications entry))%nat) b l)%nat.
Proof.
  intros Hfg. revert a b. induction l as [|e l IH]; intros a b Hab; simpl; [exact Hab|].
  apply IH. specialize (Hfg (JournalEntry.medications e)). lia.
Qed.

Lemma countTaken_le (meds : list Medication) : (countTaken meds <= length meds)%nat.
Proof. unfold countTaken. apply List.filter_length_le. Qed.

Lemma taken_le_total (l : list JournalEntry.t) :
  (sumMeds countTaken l <= sumMeds (@length Medication) l)%nat.
Proof. unfold sumMeds. apply sumMeds_from_le; [apply countTaken_le|lia]. Qed.

Lemma adherenceOf_zero_total (t : nat) : adherenceOf t 0 = 0%Q.
Proof. reflexivity. Qed.

Lemma adherenceOf_bounds (t n : nat) :
  (t <= n)%nat -> (0 <= adherenceOf t n)%Q /\ (adherenceOf t n <= 100)%Q.
Proof.
  intros Htn. unfold adherenceOf.
  destruct (0 <? n)%nat eqn:Hn; [|split; discriminate].
  apply Nat.ltb_lt in Hn.
  unfold Qle, Qdiv, Qmult, Qinv, inject_Z. simpl.
  destruct (Z.of_nat n) as [|p|p] eqn:Hp; try lia. simpl.
  split; nia.
Qed.

Lemma average_nil {A : Type} (f : A -> Q) : average f [] = 0%Q.
Proof. reflexivity. Qed.

(** ** Claims about the dashboard aggregates *)

(** C6: aggregation over an empty input does not raise and gives zero: a
    dashboard render without mood entries returns with every mood mean 0,
    a render without any entry returns with the sleep and study means and
    the adherence 0, and the analytics render of two empty collections
    returns; in every render a mean over an empty window is 0, the
    adherence over zero medications is 0 (also per entry, in the medication
    chart), and the adherence lies in [0,100]. *)
Theorem empty_aggregates_are_zero :
  (forall now js,
      exists v, Dashboard now js [] = Some v /\
        avgMood v = 0%Q /\ avgAnxiety v = 0%Q /\ avgEnergy v = 0%Q /\ avgStress v = 0%Q) /\
  (forall now,
      exists v, Dashboard now [] [] = Some v /\
        avgSleep v = 0%Q /\ avgStudy v = 0%Q /\ medicationAdherence v = 0%Q) /\
  (forall (f : MoodEntry.t -> Q), average f [] = 0%Q) /\
  (forall taken, adherenceOf taken 0 = 0%Q) /\
  is_Some (Analytics [] []) /\
  (forall e, JournalEntry.medications e = [] -> md_adherence (medicationRow e) = 0%Z) /\
  (forall now js ms v,
      Dashboard now js ms = Some v ->
      (recentMoodEntries v = [] ->
       avgMood v = 0%Q /\ avgAnxiety v = 0%Q /\ avgEnergy v = 0%Q /\ avgStress v = 0%Q) /\
      (recentJournalEntries v = [] -> avgSleep v = 0%Q /\ avgStudy v = 0%Q) /\
      (totalMeds v = 0%nat -> medicationAdherence v = 0%Q) /\
      (0 <= medicationAdherence v)%Q /\ (medicationAdherence v <= 100)%Q).
Proof.
  split; [|split; [|split; [|split; [|split; [|split]]]]].
  - intros now js.
    destruct (Dashboard_total now js []) as [v Hv]; [constructor|].
    exists v. split; [exact Hv|].
    destruct (Dashboard_Some _ _ _ _ Hv) as (_ & Hrm & Hm & Ha & He & Hs & _).
    simpl in Hrm. rewrite Hrm in Hm, Ha, He, Hs. now rewrite Hm, Ha, He, Hs.
  - intros now.
    destruct (Dashboard_total now [] []) as [v Hv]; [constructor|].
    exists v. split; [exact Hv|].
    destruct (Dashboard_Some _ _ _ _ Hv)
      as (Hrj & _ & _ & _ & _ & _ & Hsl & Hst & Htot & Htak & Had & _).
    simpl in Hrj. rewrite Hrj in Hsl, Hst, Htot, Htak.
    rewrite Hsl, Hst, Had, Htot. repeat split.
  - intros f. apply average_nil.
  - intros t. apply adherenceOf_zero_total.
  - vm_compute. eauto.
  - intros e He. unfold medicationRow. rewrite He. reflexivity.
  - intros now js ms v Hv.
    destruct (Dashboard_Some _ _ _ _ Hv)
      as (_ & _ & Hm & Ha & He & Hs & Hsl & Hst & Htot & Htak & Had & _).
    split; [|split; [|split]].
    + intros Hnil. rewrite Hnil in Hm, Ha, He, Hs. now rewrite Hm, Ha, He, Hs.
    + intros Hnil. rewrite Hnil in Hsl, Hst. now rewrite Hsl, Hst.
    + intros H0. rewrite Had, H0. apply adherenceOf_zero_total.
    + rewrite Had. apply adherenceOf_bounds. rewrite Htot, Htak. apply taken_le_total.
Qed.

Lemma empty_aggregates_are_zero_witness :
  exists v, Dashboard noonMarch7 marchWeek [] = Some v /\
    avgMood v = 0%Q /\ medicationAdherence v = 0%Q /\
    (medicationAdherence v <= 100)%Q.
Proof.
  eexists. split; [vm_compute; reflexivity|].
  destruct empty_aggregates_are_zero as (_ & _ & _ & _ & _ & _ & H).
  destruct (H noonMarch7 marchWeek [] _ eq_refl) as (Hm & _ & Ha & _ & Hle).
  split; [apply Hm; reflexivity|]. split; [apply Ha; reflexivity|exact Hle].
Defined.

(** C4: the high-anxiety warning is shown exactly when the 7-day mean of
    anxiety, as computed and not as displayed, is strictly above 7: a mean
    of exactly 7 gives no warning, a mean of 7.01 (displayed as 7.0) gives
    one. *)
Theorem high_anxiety_strictly_above_seven :
  (forall now js ms v,
      Dashboard now js ms = Some v ->
      avgAnxiety v = average MoodEntry.anxiety (List.filter (inWindowM now) ms) /\
      (HighAnxiety ∈ alerts v <-> (7 < avgAnxiety v)%Q) /\
      ((avgAnxiety v == 7)%Q -> HighAnxiety ∉ alerts v)) /\
  (exists v, Dashboard noonMarch7 [] anxiety7 = Some v /\
     (avgAnxiety v == 7)%Q /\ HighAnxiety ∉ alerts v) /\
  (exists v, Dashboard noonMarch7 [] anxiety701 = Some v /\
     (avgAnxiety v == 701 # 100)%Q /\ toFixed1 (avgAnxiety v) = 70%Z /\
     HighAnxiety ∈ alerts v).
Proof.
  assert (Hgen : forall now js ms v,
      Dashboard now js ms = Some v ->
      avgAnxiety v = average MoodEntry.anxiety (List.filter (inWindowM now) ms) /\
      (HighAnxiety ∈ alerts v <-> (7 < avgAnxiety v)%Q) /\
      ((avgAnxiety v == 7)%Q -> HighAnxiety ∉ alerts v)).
  { intros now js ms v Hv.
    destruct (Dashboard_Some _ _ _ _ Hv)
      as (_ & Hrm & _ & Ha & _ & _ & _ & _ & _ & _ & _ & _ & Hal).
    assert (Hiff : HighAnxiety ∈ alerts v <-> (7 < avgAnxiety v)%Q).
    { rewrite Hal, healthAlerts_HighAnxiety. apply Qltb_lt. }
    split; [now rewrite Ha, Hrm|]. split; [exact Hiff|].
    intros H7 Hin. apply Hiff in Hin. rewrite H7 in Hin.
    now apply Qlt_irrefl in Hin. }
  split; [exact Hgen|]. split.
  - destruct (Dashboard_total noonMarch7 [] anxiety7) as [v Hv].
    { repeat constructor; vm_compute; eauto. }
    exists v. split; [exact Hv|].
    destruct (Hgen _ _ _ _ Hv) as (Ha & _ & Hno).
    assert (H7 : (avgAnxiety v == 7)%Q) by (rewrite Ha; vm_compute; reflexivity).
    split; [exact H7|now apply Hno].
  - destruct (Dashboard_total noonMarch7 [] anxiety701) as [v Hv].
    { apply Forall_forall. intros m Hm. apply list_elem_of_In, in_map_iff in Hm.
      destruct Hm as (i & <- & _). vm_compute. eauto. }
    exists v. split; [exact Hv|].
    destruct (Hgen _ _ _ _ Hv) as (Ha & Hiff & _).
    assert (H701 : avgAnxiety v = (701 # 100)%Q) by (rewrite Ha; vm_compute; reflexivity).
    rewrite H701. split; [reflexivity|]. split; [vm_compute; reflexivity|].
    apply Hiff. rewrite H701. reflexivity.
Qed.

Lemma high_anxiety_strictly_above_seven_witness :
  exists v, Dashboard noonMarch7 [] anxiety7 = Some v /\ HighAnxiety ∉ alerts v.
Proof.
  eexists. split; [vm_compute; reflexivity|].
  destruct high_anxiety_strictly_above_seven as (H & _ & _).
  destruct (H noonMarch7 [] anxiety7 _ eq_refl) as (_ & _ & Hno).
  apply Hno. vm_compute. reflexivity.
Defined.

(** ** Means of a constant field, and windows that keep everything *)

Lemma filter_all {A : Type} (p : A -> bool) (l : list A) :
  Forall (fun x => p x = true) l -> List.filter p l = l.
Proof.
  induction 1 as [|x l Hx _ IH]; simpl; [reflexivity|]. now rewrite Hx, IH.
Qed.

Lemma of_length_cons {A : Type} (x : A) (l : list A) :
  (of_length (x :: l) == of_length l + 1)%Q.
Proof.
  unfold of_length. simpl length. rewrite Nat2Z.inj_succ, <- Z.add_1_r.
  rewrite inject_Z_plus. reflexivity.
Qed.

Lemma sum_of_constant_field {A : Type} (f : A -> Q) (c : Q) (l : list A) (a : Q) :
  Forall (fun e => (f e == c)%Q) l ->
  (foldl (fun sum e => sum + f e) a l == a + c * of_length l)%Q.
Proof.
  intros Hall. revert a.
  induction Hall as [|e l He _ IH]; intros a; simpl.
  - unfold of_length. simpl. ring.
  - rewrite IH, of_length_cons, He. ring.
Qed.

Lemma average_of_constant_field {A : Type} (f : A -> Q) (c : Q) (l : list A) :
  l <> [] -> Forall (fun e => (f e == c)%Q) l -> (average f l == c)%Q.
Proof.
  intros Hne Hall. unfold average.
  destruct l as [|x l]; [contradiction|].
  change (0 <? length (x :: l))%nat with true. cbv iota.
  unfold sumBy. rewrite (sum_of_constant_field f c (x :: l) 0 Hall).
  assert (Hpos : (0 < of_length (x :: l))%Q).
  { unfold of_length. change 0%Q with (inject_Z 0). rewrite <- Zlt_Qlt.
    simpl length. lia. }
  field. intros H0. rewrite H0 in Hpos. now apply Qlt_irrefl in Hpos.
Qed.

Lemma sumMeds_no_medication (f : list Medication -> nat) (l : list JournalEntry.t) :
  f [] = 0%nat ->
  Forall (fun e => JournalEntry.medications e = []) l -> sumMeds f l = 0%nat.
Proof.
  intros Hf Hall. unfold sumMeds. generalize 0%nat as a.
  induction Hall as [|e l He _ IH]; intros a; simpl; [reflexivity|].
  rewrite He, Hf, Nat.add_0_r. apply IH.
Qed.

Lemma march_dates_in_window (w : Z) (d : string) :
  onOrAfter w "2024-03-01" = true ->
  d ∈ ["2024-03-01"; "2024-03-02"; "2024-03-03"; "2024-03-04";
       "2024-03-05"; "2024-03-06"; "2024-03-07"]%string ->
  onOrAfter w d = true.
Proof.
  unfold onOrAfter.
  change (JSDate.parse "2024-03-01") with (Some 1709251200000%Z).
  intros Hw%Z.leb_le Hd.
  repeat (apply elem_of_cons in Hd as [->|Hd];
          [match goal with
           | |- context [JSDate.parse ?s] =>
               let t := eval vm_compute in (JSDate.parse s) in
               change (JSDate.parse s) with t
           end; apply Z.leb_le; lia|]).
  now apply elem_of_nil in Hd.
Qed.

(** C5: with journal entries dated 2024-03-01 to 2024-03-07, each with five
    hours of sleep and no medication, with no mood entries, and with those
    dates inside the 7-day window, the dashboard shows the sleep-deficit
    alert (mean sleep 5) and the no-data alert (both mood means 0 and no
    mood entry in the window) and does not show the low-adherence alert
    (no medication at all).  The alerts shown are, in order, low mood (the
    mood mean defaults to 0), sleep deficit and no data. *)
Theorem march_week_scenario (now : Z) (js : list JournalEntry.t) :
  map JournalEntry.date js =
    ["2024-03-01"; "2024-03-02"; "2024-03-03"; "2024-03-04";
     "2024-03-05"; "2024-03-06"; "2024-03-07"]%string ->
  Forall (fun e => (JournalEntry.sleepHours e == 5)%Q) js ->
  Forall (fun e => JournalEntry.medications e = []) js ->
  onOrAfter (weekAgo_of now) "2024-03-01" = true ->
  exists v, Dashboard now js [] = Some v /\
    recentJournalEntries v = js /\ recentMoodEntries v = [] /\
    (avgSleep v == 5)%Q /\ avgMood v = 0%Q /\ avgAnxiety v = 0%Q /\
    totalMeds v = 0%nat /\
    SleepDeficit ∈ alerts v /\ NoData ∈ alerts v /\ (LowAdherence ∉ alerts v) /\
    alerts v = [LowMood; SleepDeficit; NoData].
Proof.
  intros Hdates Hsleep Hmeds Hwin.
  destruct (Dashboard_total now js []) as [v Hv]; [constructor|].
  exists v. split; [exact Hv|].
  destruct (Dashboard_Some _ _ _ _ Hv)
    as (Hrj & Hrm & Hm & Ha & _ & _ & Hsl & _ & Htot & _ & Had & Hp & Hal).
  simpl in Hrm. rewrite Hrm in Hm, Ha, Hp, Hal. simpl in Hm, Ha, Hp.
  assert (Hall : List.filter (inWindowJ now) js = js).
  { apply filter_all, Forall_forall. intros e He. unfold inWindowJ.
    apply march_dates_in_window; [exact Hwin|].
    rewrite <- Hdates. apply list_elem_of_In, in_map. now apply list_elem_of_In. }
  rewrite Hall in Hrj.
  assert (Hne : js <> []) by (intros ->; discriminate).
  assert (H5 : (avgSleep v == 5)%Q).
  { rewrite Hsl, Hrj. now apply average_of_constant_field. }
  assert (H0 : totalMeds v = 0%nat).
  { rewrite Htot, Hrj. now apply sumMeds_no_medication. }
  repeat split; try assumption.
  - rewrite Hal. apply healthAlerts_SleepDeficit, Qltb_lt. now rewrite H5.
  - rewrite Hal. apply healthAlerts_NoData. now rewrite Hm, Ha.
  - rewrite Hal, healthAlerts_LowAdherence, H0. simpl.
    rewrite andb_false_r. discriminate.
  - assert (Hs : Qltb (avgSleep v) 6 = true) by (apply Qltb_lt; now rewrite H5).
    rewrite Hal, Hm, Ha, Hp, Had, H0. unfold healthAlerts, adherenceOf.
    rewrite Hs. reflexivity.
Qed.

Lemma march_week_scenario_witness :
  exists v, Dashboard noonMarch7 marchWeek [] = Some v /\
    alerts v = [LowMood; SleepDeficit; NoData].
Proof.
  destruct (march_week_scenario noonMarch7 marchWeek) as (v & Hv & H).
  - reflexivity.
  - repeat constructor.
  - repeat constructor.
  - reflexivity.
  - exists v. split; [exact Hv|]. apply H.
Defined.

Lemma remove_dups_length_le (l : list string) :
  (length (remove_dups l) <= length l)%nat.
Proof.
  induction l as [|x l IH]; simpl; [lia|].
  case_match; simpl; lia.
Qed.

Lemma omap_length_le {A B : Type} (f : A -> option B) (l : list A) :
  (length (omap f l) <= length l)%nat.
Proof.
  induction l as [|x l IH]; [reflexivity|].
  change (omap f (x :: l)) with
    (match f x with Some y => y :: omap f l | None => omap f l end).
  destruct (f x); simpl; lia.
Qed.

Lemma filter_andb {A : Type} (p q : A -> bool) (l : list A) :
  List.filter (fun x => p x && q x) l = List.filter q (List.filter p l).
Proof.
  induction l as [|x l IH]; simpl; [reflexivity|].
  destruct (p x); simpl; [destruct (q x)|]; now rewrite IH.
Qed.

(** C2: the alert on psychotic symptoms is meant to be shown when more than
    three distinct days of the window have an entry with a symptom.  The
    dashboard counts the entries of the window that report a symptom
    instead, a count that is never below the number of such days: with four
    samples of one day, each with a symptom, it shows the alert (for
    "4 days") although only one day of the window has symptoms. *)
Theorem psychotic_alert_counts_entries_not_days :
  (forall now js ms v,
      Dashboard now js ms = Some v ->
      ((exists n, PsychoticSymptoms n ∈ alerts v) <->
       (3 < length (List.filter hasSymptoms (List.filter (inWindowM now) ms)))%nat) /\
      (distinctSymptomDays (weekAgo_of now) ms <= psychoticSymptomDays v)%nat) /\
  (exists v, Dashboard noonMarch7 [] sameDaySymptoms = Some v /\
     psychoticSymptomDays v = 4%nat /\
     PsychoticSymptoms 4 ∈ alerts v /\
     distinctSymptomDays (weekAgo_of noonMarch7) sameDaySymptoms = 1%nat).
Proof.
  split.
  - intros now js ms v Hv.
    destruct (Dashboard_Some _ _ _ _ Hv)
      as (_ & Hrm & _ & _ & _ & _ & _ & _ & _ & _ & _ & Hp & Hal).
    split.
    + rewrite Hal, <- Hrm, <- Hp. split.
      * intros [n Hn]. apply healthAlerts_PsychoticSymptoms in Hn as [Hn _].
        now apply Nat.ltb_lt.
      * intros Hlt. exists (psychoticSymptomDays v).
        apply healthAlerts_PsychoticSymptoms. split; [now apply Nat.ltb_lt|reflexivity].
    + rewrite Hp, Hrm. unfold distinctSymptomDays.
      etransitivity; [apply remove_dups_length_le|].
      etransitivity; [apply omap_length_le|].
      rewrite (filter_andb (inWindowM now) hasSymptoms). reflexivity.
  - destruct (Dashboard_total noonMarch7 [] sameDaySymptoms) as [v Hv].
    { repeat constructor; vm_compute; eauto. }
    exists v. split; [exact Hv|].
    destruct (Dashboard_Some _ _ _ _ Hv)
      as (_ & Hrm & _ & _ & _ & _ & _ & _ & _ & _ & _ & Hp & Hal).
    assert (H4 : psychoticSymptomDays v = 4%nat) by (rewrite Hp, Hrm; reflexivity).
    split; [exact H4|]. split; [|vm_compute; reflexivity].
    rewrite Hal. apply healthAlerts_PsychoticSymptoms. rewrite H4.
    split; reflexivity.
Qed.

Lemma psychotic_alert_counts_entries_not_days_witness :
  exists v, Dashboard noonMarch7 [] sameDaySymptoms = Some v /\
    exists n, PsychoticSymptoms n ∈ alerts v.
Proof.
  eexists. split; [vm_compute; reflexivity|].
  destruct psychotic_alert_counts_entries_not_days as [H _].
  apply (proj1 (H noonMarch7 [] sameDaySymptoms _ eq_refl)).
  vm_compute. lia.
Defined.

(** ** Grouping by date *)

Lemma str_eqb_eq (s t : string) : str_eqb s t = true <-> s = t.
Proof. apply bool_decide_eq_true. Qed.

Lemma obj_get_pushTo_eq d e acc :
  obj_get d (pushTo d e acc) = Some (groupOf d acc ++ [e]).
Proof.
  unfold groupOf. induction acc as [|[k g] acc IH]; simpl.
  - unfold str_eqb. now rewrite bool_decide_eq_true_2.
  - destruct (str_eqb k d) eqn:Hk; simpl; rewrite Hk; [reflexivity|exact IH].
Qed.

Lemma obj_get_pushTo_ne d d' e acc :
  d <> d' -> obj_get d' (pushTo d e acc) = obj_get d' acc.
Proof.
  intros Hne. induction acc as [|[k g] acc IH]; simpl.
  - unfold str_eqb. now rewrite bool_decide_eq_false_2.
  - destruct (str_eqb k d) eqn:Hk; simpl.
    + apply str_eqb_eq in Hk as ->.
      unfold str_eqb. now rewrite bool_decide_eq_false_2.
    + now rewrite IH.
Qed.

Lemma obj_get_None d acc : obj_get d acc = None <-> d ∉ map fst acc.
Proof.
  induction acc as [|[k g] acc IH]; simpl.
  - split; [intros _; apply not_elem_of_nil|reflexivity].
  - rewrite not_elem_of_cons. destruct (str_eqb k d) eqn:Hk.
    + apply str_eqb_eq in Hk as ->. split; [discriminate|intros [[] _]; reflexivity].
    + rewrite IH. apply bool_decide_eq_false in Hk. intuition congruence.
Qed.

Lemma obj_get_elem d g acc :
  NoDup (map fst acc) -> ((d, g) ∈ acc <-> obj_get d acc = Some g).
Proof.
  induction acc as [|[k h] acc IH]; simpl; intros Hnd.
  - split; [intros H; now apply elem_of_nil in H|discriminate].
  - apply NoDup_cons in Hnd as [Hk Hnd]. rewrite elem_of_cons, (IH Hnd).
    destruct (str_eqb k d) eqn:Hkd.
    + apply str_eqb_eq in Hkd as ->. split.
      * intros [[= ->]|Hg]; [reflexivity|].
        apply obj_get_None in Hk. congruence.
      * intros [= ->]. now left.
    + apply bool_decide_eq_false in Hkd. split.
      * intros [[= -> ->]|Hg]; [contradiction|exact Hg].
      * intros Hg. now right.
Qed.

Lemma keys_pushTo d e acc :
  map fst (pushTo d e acc) =
  match obj_get d acc with
  | Some _ => map fst acc
  | None => map fst acc ++ [d]
  end.
Proof.
  induction acc as [|[k g] acc IH]; simpl; [reflexivity|].
  destruct (str_eqb k d); simpl; [reflexivity|].
  rewrite IH. now destruct (obj_get d acc).
Qed.

Lemma pushTo_ok d e acc : groups_ok acc -> groups_ok (pushTo d e acc).
Proof.
  intros [Hnd Hne]. split.
  - rewrite keys_pushTo. destruct (obj_get d acc) eqn:Hd; [exact Hnd|].
    apply NoDup_app. split; [exact Hnd|]. split; [|apply NoDup_singleton].
    intros x Hx Hx'. apply list_elem_of_singleton in Hx' as ->.
    now apply obj_get_None in Hd.
  - intros d'. destruct (decide (d = d')) as [<-|Hdd].
    + rewrite obj_get_pushTo_eq. intros [= H]. now apply app_nil in H as [_ [=]].
    + rewrite obj_get_pushTo_ne by exact Hdd. apply Hne.
Qed.

Lemma groupOf_pushTo d d' e acc :
  groupOf d' (pushTo d e acc) = groupOf d' acc ++ (if decide (d = d') then [e] else []).
Proof.
  destruct (decide (d = d')) as [<-|Hne].
  - unfold groupOf at 1. now rewrite obj_get_pushTo_eq.
  - unfold groupOf. rewrite obj_get_pushTo_ne by exact Hne. now rewrite app_nil_r.
Qed.

Lemma moodByDate_from_spec (ms : list MoodEntry.t) (acc : DateGroups) :
  Forall (fun m => is_Some (dateKey m)) ms ->
  groups_ok acc ->
  exists acc', moodByDate_from acc ms = Some acc' /\ groups_ok acc' /\
    forall d, groupOf d acc' = groupOf d acc ++ List.filter (hasDate d) ms.
Proof.
  intros Hms. revert acc.
  induction Hms as [|m ms [k Hk] _ IH]; intros acc Hok.
  - exists acc. split; [reflexivity|]. split; [exact Hok|].
    intros d. simpl. now rewrite app_nil_r.
  - destruct (IH (pushTo k m acc) (pushTo_ok k m acc Hok)) as (acc' & Hrun & Hok' & Hg).
    exists acc'. split; [|split; [exact Hok'|]].
    + unfold moodByDate_from in *. simpl. rewrite Hk. simpl. exact Hrun.
    + intros d. rewrite Hg, groupOf_pushTo, <- app_assoc. f_equal.
      simpl. unfold hasDate at 2. rewrite Hk.
      destruct (decide (k = d)) as [->|Hne].
      * now rewrite bool_decide_eq_true_2.
      * rewrite bool_decide_eq_false_2; [reflexivity|congruence].
Qed.

Lemma dateKey_is_Some (m : MoodEntry.t) :
  is_Some (JSDate.parse (MoodEntry.timestamp m)) -> is_Some (dateKey m).
Proof.
  intros [t Ht]. unfold dateKey, JSDate.isoDateOf. rewrite Ht. simpl. eauto.
Qed.

(** What [moodByDate] returns for entries whose timestamps are dates. *)
Lemma moodByDate_spec (ms : list MoodEntry.t) :
  Forall (fun m => is_Some (JSDate.parse (MoodEntry.timestamp m))) ms ->
  exists groups, moodByDate ms = Some groups /\
    NoDup (map fst groups) /\
    (forall d, d ∈ map fst groups <-> exists e, e ∈ ms /\ dateKey e = Some d) /\
    (forall d g, (d, g) ∈ groups -> g = List.filter (hasDate d) ms).
Proof.
  intros Hms.
  destruct (moodByDate_from_spec ms []) as (groups & Hrun & [Hnd Hne] & Hg).
  { eapply Forall_impl; [exact Hms|]. apply dateKey_is_Some. }
  { split; [apply NoDup_nil_2|discriminate]. }
  exists groups. split; [exact Hrun|]. split; [exact Hnd|].
  assert (Hget : forall d g, obj_get d groups = Some g -> g = List.filter (hasDate d) ms).
  { intros d g Hd. specialize (Hg d). unfold groupOf in Hg. rewrite Hd in Hg.
    exact Hg. }
  split.
  - intros d. split.
    + intros Hd. destruct (obj_get d groups) as [g|] eqn:Hdg.
      * pose proof (Hget d g Hdg) as ->.
        destruct (List.filter (hasDate d) ms) as [|e l] eqn:Hf.
        { now apply Hne in Hdg. }
        assert (Hin : In e (List.filter (hasDate d) ms)) by (rewrite Hf; now left).
        apply filter_In in Hin as [Hin He]. exists e.
        split; [now apply list_elem_of_In|]. now apply bool_decide_eq_true in He.
      * now apply obj_get_None in Hdg.
    + intros (e & He & Hk). destruct (obj_get d groups) as [g|] eqn:Hdg.
      * intros. apply dec_stable. intros Hnot. apply obj_get_None in Hnot. congruence.
      * exfalso. specialize (Hg d). unfold groupOf in Hg. rewrite Hdg in Hg.
        simpl in Hg.
        assert (Hin : In e (List.filter (hasDate d) ms)).
        { apply filter_In. split; [now apply list_elem_of_In|].
          now apply bool_decide_eq_true. }
        rewrite <- Hg in Hin. destruct Hin.
  - intros d g Hdg. apply Hget. now apply obj_get_elem.
Qed.

(** C7: grouping the mood entries by date gives one key per distinct date
    of the entries, and the group of a date holds exactly the entries of
    that date in their store order; two samples of 2024-01-01 around one of
    2024-01-02 give two keys, the first with its two entries in order. *)
Theorem moodByDate_groups_by_date :
  (forall ms,
      Forall (fun m => is_Some (JSDate.parse (MoodEntry.timestamp m))) ms ->
      exists groups, moodByDate ms = Some groups /\
        NoDup (map fst groups) /\
        (forall d, d ∈ map fst groups <-> exists e, e ∈ ms /\ dateKey e = Some d) /\
        (forall d g, (d, g) ∈ groups -> g = List.filter (hasDate d) ms)) /\
  moodByDate [newYearMorning; secondOfJanuary; newYearEvening] =
    Some [("2024-01-01"%string, [newYearMorning; newYearEvening]);
          ("2024-01-02"%string, [secondOfJanuary])].
Proof. split; [exact moodByDate_spec|reflexivity]. Qed.

Lemma moodByDate_groups_by_date_witness :
  exists groups,
    moodByDate [newYearMorning; secondOfJanuary; newYearEvening] = Some groups /\
    NoDup (map fst groups).
Proof.
  destruct moodByDate_groups_by_date as [H _].
  destruct (H [newYearMorning; secondOfJanuary; newYearEvening])
    as (groups & Hrun & Hnd & _).
  - repeat constructor; vm_compute; eauto.
  - exists groups. split; [exact Hrun|exact Hnd].
Defined.

(** ** Loading *)

(** C9: when the text stored under a collection key is not valid JSON the
    load does not fail: the error is logged, that collection stays the
    empty collection, and the other collection is what its own key
    decodes to.  (A missing or empty text is skipped by the guard before
    any decoding: the collection stays empty and nothing is logged.) *)
Theorem load_survives_undecodable_text `{JSON} (ls : gmap string string) :
  (forall raw,
      ls !! "journalEntries"%string = Some raw -> raw <> ""%string ->
      parseJournalEntries raw = None ->
      journalEntries (app (loadEntries ls (mkSession initialState []))) = [] /\
      "Error loading journal entries:"%string
        ∈ console (loadEntries ls (mkSession initialState []))) /\
  (forall raw,
      ls !! "moodEntries"%string = Some raw -> raw <> ""%string ->
      parseMoodEntries raw = None ->
      moodEntries (app (loadEntries ls (mkSession initialState []))) = [] /\
      "Error loading mood entries:"%string
        ∈ console (loadEntries ls (mkSession initialState []))) /\
  journalEntries (app (loadEntries ls (mkSession initialState [])))
    = loadedFrom parseJournalEntries (ls !! "journalEntries"%string) /\
  moodEntries (app (loadEntries ls (mkSession initialState [])))
    = loadedFrom parseMoodEntries (ls !! "moodEntries"%string) /\
  console (loadEntries ls (mkSession initialState []))
    = logFor parseJournalEntries "Error loading journal entries:"
        (ls !! "journalEntries"%string)
      ++ logFor parseMoodEntries "Error loading mood entries:"
           (ls !! "moodEntries"%string).
Proof.
  unfold loadEntries, loadedFrom, logFor.
  assert (Hp : forall raw, raw <> ""%string -> present (Some raw) = Some raw).
  { intros raw Hraw. unfold present, str_eqb. now rewrite bool_decide_eq_false_2. }
  split; [|split; [|split; [|split]]].
  - intros raw Hls Hraw Hdec. rewrite Hls, (Hp raw Hraw), Hdec.
    destruct (present (ls !! "moodEntries"%string)) as [rm|];
      [destruct (parseMoodEntries rm)|]; simpl; (split; [reflexivity|set_solver]).
  - intros raw Hls Hraw Hdec. rewrite Hls, (Hp raw Hraw), Hdec.
    destruct (present (ls !! "journalEntries"%string)) as [rj|];
      [destruct (parseJournalEntries rj)|]; simpl; (split; [reflexivity|set_solver]).
  - destruct (present (ls !! "journalEntries"%string)) as [rj|];
      [destruct (parseJournalEntries rj)|];
      (destruct (present (ls !! "moodEntries"%string)) as [rm|];
       [destruct (parseMoodEntries rm)|]); reflexivity.
  - destruct (present (ls !! "journalEntries"%string)) as [rj|];
      [destruct (parseJournalEntries rj)|];
      (destruct (present (ls !! "moodEntries"%string)) as [rm|];
       [destruct (parseMoodEntries rm)|]); reflexivity.
  - destruct (present (ls !! "journalEntries"%string)) as [rj|];
      [destruct (parseJournalEntries rj)|];
      (destruct (present (ls !! "moodEntries"%string)) as [rm|];
       [destruct (parseMoodEntries rm)|]); reflexivity.
Qed.

Lemma load_survives_undecodable_text_witness :
  journalEntries
    (app (@loadEntries emptyArrayOnly brokenJournalStorage (mkSession initialState [])))
    = [] /\
  "Error loading journal entries:"%string
    ∈ console (@loadEntries emptyArrayOnly brokenJournalStorage
                 (mkSession initialState [])).
Proof.
  destruct (@load_survives_undecodable_text emptyArrayOnly brokenJournalStorage)
    as (H & _).
  apply (H "[{"%string); [reflexivity|discriminate|reflexivity].
Defined.

(** ** Sorting by date and the last rows of the sorted array *)

Section Sorting.
Context {A : Type} (cmp : A -> A -> Z) (key : A -> Z) (ok : A -> Prop).
Hypothesis cmp_key : forall x y, ok x -> ok y -> cmp x y = (key x - key y)%Z.

Lemma insert_sorted_Permutation (x : A) (l : list A) :
  insert_sorted cmp x l ≡ₚ x :: l.
Proof.
  induction l as [|y l IH]; simpl; [reflexivity|].
  destruct (cmp x y <=? 0)%Z; [reflexivity|].
  rewrite IH. apply perm_swap.
Qed.

Lemma Array_sort_Permutation (l : list A) : Array_sort cmp l ≡ₚ l.
Proof.
  induction l as [|x l IH]; simpl; [reflexivity|].
  rewrite insert_sorted_Permutation. now apply perm_skip.
Qed.

Lemma insert_sorted_StronglySorted (x : A) (l : list A) :
  ok x -> Forall ok l ->
  StronglySorted (fun a b => (key a <= key b)%Z) l ->
  StronglySorted (fun a b => (key a <= key b)%Z) (insert_sorted cmp x l).
Proof.
  intros Hx Hl Hs. induction Hs as [|y l Hs IH Hy]; simpl.
  - repeat constructor.
  - apply Forall_cons in Hl as [Hoky Hl].
    rewrite (cmp_key x y Hx Hoky).
    destruct (key x - key y <=? 0)%Z eqn:Hc.
    + apply Z.leb_le in Hc. constructor; [now constructor|].
      constructor; [lia|]. eapply Forall_impl; [exact Hy|]. simpl. intros z Hz. lia.
    + apply Z.leb_gt in Hc. constructor; [now apply IH|].
      rewrite insert_sorted_Permutation. constructor; [lia|exact Hy].
Qed.

Lemma Array_sort_StronglySorted (l : list A) :
  Forall ok l ->
  StronglySorted (fun a b => (key a <= key b)%Z) (Array_sort cmp l).
Proof.
  induction 1 as [|x l Hx Hl IH]; simpl; [constructor|].
  apply insert_sorted_StronglySorted; [exact Hx| |exact IH].
  now rewrite Array_sort_Permutation.
Qed.

Lemma StronglySorted_strict (l : list A) :
  NoDup (map key l) ->
  StronglySorted (fun a b => (key a <= key b)%Z) l ->
  StronglySorted (fun a b => (key a < key b)%Z) l.
Proof.
  intros Hnd Hs. induction Hs as [|x l Hs IH Hx]; [constructor|].
  simpl in Hnd. apply NoDup_cons in Hnd as [Hx' Hnd].
  constructor; [now apply IH|].
  rewrite Forall_forall in Hx |- *. intros y Hy.
  assert (key y <> key x).
  { intros Heq. apply Hx'. rewrite <- Heq. apply list_elem_of_In, in_map.
    now apply list_elem_of_In. }
  specialize (Hx y Hy). lia.
Qed.

End Sorting.

Lemma insert_sorted_map {A B : Type} (f : A -> B) (cmp : B -> B -> Z) (x : A) (l : list A) :
  map f (insert_sorted (fun a b => cmp (f a) (f b)) x l) =
  insert_sorted cmp (f x) (map f l).
Proof.
  induction l as [|y l IH]; simpl; [reflexivity|].
  destruct (cmp (f x) (f y) <=? 0)%Z; simpl; [reflexivity|]. now rewrite IH.
Qed.

Lemma Array_sort_map {A B : Type} (f : A -> B) (cmp : B -> B -> Z) (l : list A) :
  map f (Array_sort (fun a b => cmp (f a) (f b)) l) = Array_sort cmp (map f l).
Proof.
  induction l as [|x l IH]; simpl; [reflexivity|].
  now rewrite insert_sorted_map, IH.
Qed.

Lemma slice_last_map {A B : Type} (f : A -> B) (n : nat) (l : list A) :
  map f (slice_last n l) = slice_last n (map f l).
Proof. unfold slice_last. now rewrite length_map, List.skipn_map. Qed.

Lemma slice_last_length {A : Type} (n : nat) (l : list A) :
  (n <= length l)%nat -> length (slice_last n l) = n.
Proof. intros Hn. unfold slice_last. rewrite length_drop. lia. Qed.

Lemma remove_dups_NoDup (l : list string) : NoDup l -> remove_dups l = l.
Proof.
  induction 1 as [|x l Hx _ IH]; simpl; [reflexivity|].
  destruct (decide_rel elem_of x l); [contradiction|]. now rewrite IH.
Qed.

Lemma parse_timeOf (s : string) :
  is_Some (JSDate.parse s) -> JSDate.parse s = Some (timeOf s).
Proof. intros [t Ht]. unfold timeOf. now rewrite Ht. Qed.

Lemma compareDates_timeOf (a b : string) :
  is_Some (JSDate.parse a) -> is_Some (JSDate.parse b) ->
  compareDates a b = (timeOf a - timeOf b)%Z.
Proof.
  intros Ha%parse_timeOf Hb%parse_timeOf. unfold compareDates. now rewrite Ha, Hb.
Qed.

Lemma dateBefore_timeOf (a b : string) :
  is_Some (JSDate.parse a) -> is_Some (JSDate.parse b) ->
  (timeOf a < timeOf b)%Z -> dateBefore a b.
Proof.
  intros Ha%parse_timeOf Hb%parse_timeOf Hlt.
  exists (timeOf a), (timeOf b). now repeat split.
Qed.

Lemma distinct_times (l : list string) :
  Forall (fun s => is_Some (JSDate.parse s)) l ->
  NoDup (map JSDate.parse l) -> NoDup (map timeOf l).
Proof.
  induction 1 as [|x l Hx Hl IH]; simpl; intros Hnd; [apply NoDup_nil_2|].
  apply NoDup_cons in Hnd as [Hnx Hnd]. apply NoDup_cons. split; [|now apply IH].
  intros Hin. apply Hnx.
  apply list_elem_of_In, in_map_iff in Hin as (y & Hy & Hin).
  apply list_elem_of_In, in_map_iff. exists y. split; [|exact Hin].
  rewrite Forall_forall in Hl.
  rewrite (parse_timeOf y), (parse_timeOf x), Hy;
    [reflexivity|exact Hx|apply Hl; now apply list_elem_of_In].
Qed.

Lemma NoDup_map_inv {A B : Type} (f : A -> B) (l : list A) :
  NoDup (map f l) -> NoDup l.
Proof.
  induction l as [|x l IH]; simpl; intros Hnd; [apply NoDup_nil_2|].
  apply NoDup_cons in Hnd as [Hx Hnd]. apply NoDup_cons. split; [|now apply IH].
  intros Hin. apply Hx. apply list_elem_of_In, in_map. now apply list_elem_of_In.
Qed.

Lemma StronglySorted_dateBefore (l : list string) :
  Forall (fun s => is_Some (JSDate.parse s)) l ->
  StronglySorted (fun a b => (timeOf a < timeOf b)%Z) l ->
  StronglySorted dateBefore l.
Proof.
  intros Hok Hs. induction Hs as [|x l Hs IH Hx]; [constructor|].
  apply Forall_cons in Hok as [Hokx Hok].
  constructor; [now apply IH|].
  rewrite Forall_forall in Hx, Hok |- *. intros y Hy.
  apply dateBefore_timeOf; [exact Hokx|now apply Hok|now apply Hx].
Qed.

(** The last [n] of the dates sorted ascending are the [n] latest. *)
Lemma latest_dates (n : nat) (dates : list string) :
  Forall (fun s => is_Some (JSDate.parse s)) dates ->
  NoDup (map JSDate.parse dates) ->
  let ds := slice_last n (Array_sort compareDates dates) in
  StronglySorted dateBefore ds /\
  (forall d, d ∈ ds -> d ∈ dates) /\
  (forall d', d' ∈ dates -> d' ∉ ds -> forall d, d ∈ ds -> dateBefore d' d).
Proof.
  intros Hok Hnd ds.
  set (sorted := Array_sort compareDates dates) in *.
  assert (Hperm : sorted ≡ₚ dates) by apply Array_sort_Permutation.
  assert (Hoks : Forall (fun s => is_Some (JSDate.parse s)) sorted) by now rewrite Hperm.
  assert (Hnds : NoDup (map timeOf sorted)).
  { rewrite Hperm. now apply distinct_times. }
  assert (Hlt : StronglySorted (fun a b => (timeOf a < timeOf b)%Z) sorted).
  { apply StronglySorted_strict; [exact Hnds|].
    apply (Array_sort_StronglySorted compareDates timeOf
             (fun s => is_Some (JSDate.parse s)) compareDates_timeOf). exact Hok. }
  subst ds. unfold slice_last.
  set (k := (length sorted - n)%nat).
  rewrite <- (take_drop k sorted) in Hlt, Hperm, Hoks.
  apply Forall_app in Hoks as [Hokt Hokd].
  split; [|split].
  - apply StronglySorted_dateBefore; [exact Hokd|].
    now apply StronglySorted_app_1_r in Hlt.
  - intros d Hd. rewrite <- Hperm. apply elem_of_app. now right.
  - intros d' Hd' Hnot d Hd. rewrite <- Hperm in Hd'.
    apply elem_of_app in Hd' as [Hin|Hin]; [|exfalso; exact (Hnot Hin)].
    rewrite Forall_forall in Hokt, Hokd.
    apply dateBefore_timeOf; [now apply Hokt|now apply Hokd|].
    exact (StronglySorted_app_1_elem_of (fun a b => (timeOf a < timeOf b)%Z)
             _ _ d' d Hlt Hin Hd).
Qed.

(** ** The medication chart *)

Lemma moodByDate_total (ms : list MoodEntry.t) :
  Forall (fun m => is_Some (JSDate.parse (MoodEntry.timestamp m))) ms ->
  is_Some (moodByDate ms).
Proof.
  intros Hms. destruct (moodByDate_from_spec ms []) as (groups & Hrun & _).
  - eapply Forall_impl; [exact Hms|]. apply dateKey_is_Some.
  - split; [apply NoDup_nil_2|discriminate].
  - unfold moodByDate. rewrite Hrun. eauto.
Qed.

(** The rows of the medication chart are the last seven entries of the
    journal as sorted by date. *)
Lemma medicationDates_sorted (js : list JournalEntry.t) (ms : list MoodEntry.t) :
  Forall (fun m => is_Some (JSDate.parse (MoodEntry.timestamp m))) ms ->
  medicationDates js ms =
  Some (slice_last 7 (Array_sort compareDates (map JournalEntry.date js))).
Proof.
  intros Hms. destruct (moodByDate_total ms Hms) as [groups Hg].
  unfold medicationDates, Analytics. rewrite Hg. simpl. f_equal.
  rewrite map_map. simpl.
  rewrite <- (Array_sort_map JournalEntry.date compareDates js).
  now rewrite <- slice_last_map.
Qed.

Lemma NoDup_map_inj_on {A B : Type} (f : A -> B) (l : list A) :
  (forall x y, x ∈ l -> y ∈ l -> f x = f y -> x = y) ->
  NoDup l -> NoDup (map f l).
Proof.
  intros Hinj Hnd. induction Hnd as [|x l Hx Hnd IH]; simpl; [apply NoDup_nil_2|].
  apply NoDup_cons. split.
  - intros Hin. apply list_elem_of_In, in_map_iff in Hin as (y & Hy & Hin).
    apply list_elem_of_In in Hin.
    assert (y = x) as -> by (apply Hinj; [now right|now left|exact Hy]).
    contradiction.
  - apply IH. intros a b Ha Hb. apply Hinj; now right.
Qed.

(** Date keys are dates the model reads, and distinct keys are distinct
    days. *)
Lemma date_keys_valid (ms : list MoodEntry.t) (keys : list string) :
  (forall k, k ∈ keys -> exists e, e ∈ ms /\ dateKey e = Some k) ->
  NoDup keys ->
  Forall (fun s => is_Some (JSDate.parse s)) keys /\ NoDup (map JSDate.parse keys).
Proof.
  intros Hk Hnd. split.
  - apply Forall_forall. intros k Hin. destruct (Hk k Hin) as (e & _ & He).
    destruct (JSDateFacts.dateKey_parses e k He) as (day & _ & Hp). rewrite Hp. eauto.
  - apply NoDup_map_inj_on; [|exact Hnd].
    intros x y Hx Hy Hxy.
    destruct (Hk x Hx) as (ex & _ & Hex). destruct (Hk y Hy) as (ey & _ & Hey).
    destruct (JSDateFacts.dateKey_parses ex x Hex) as (dx & -> & Hpx).
    destruct (JSDateFacts.dateKey_parses ey y Hey) as (dy & -> & Hpy).
    rewrite Hpx, Hpy in Hxy. injection Hxy as Hxy.
    assert (dx = dy) by (unfold JSDate.msPerDay in Hxy; lia). now subst.
Qed.

(** Sorting a list of distinct valid dates does not depend on the order
    the list comes in. *)
Lemma Array_sort_dates_Permutation (l1 l2 : list string) :
  Forall (fun s => is_Some (JSDate.parse s)) l1 ->
  NoDup (map JSDate.parse l1) ->
  l1 ≡ₚ l2 ->
  Array_sort compareDates l1 = Array_sort compareDates l2.
Proof.
  intros Hok Hnd Hperm.
  assert (Hs : forall l, l ≡ₚ l1 ->
             StronglySorted (fun a b => (timeOf a < timeOf b)%Z)
               (Array_sort compareDates l)).
  { intros l Hl. apply StronglySorted_strict.
    - rewrite (Array_sort_Permutation compareDates l), Hl. now apply distinct_times.
    - apply (Array_sort_StronglySorted compareDates timeOf
               (fun s => is_Some (JSDate.parse s)) compareDates_timeOf).
      now rewrite Hl. }
  apply (StronglySorted_unique_strong (fun a b => (timeOf a < timeOf b)%Z)).
  - intros x y _ _ H1 H2. lia.
  - now apply Hs.
  - apply Hs. now symmetry.
  - now rewrite !Array_sort_Permutation.
Qed.

Lemma moodTrend_dates (groups : DateGroups) :
  map mt_date (moodTrendData groups) =
  slice_last 30 (Array_sort compareDates (map fst groups)).
Proof.
  unfold moodTrendData. rewrite map_map.
  rewrite (map_ext _ fst) by (now intros [k g]).
  rewrite slice_last_map. f_equal. apply Array_sort_map.
Qed.

Lemma slice_last_length_min {A : Type} (n : nat) (l : list A) :
  length (slice_last n l) = Nat.min n (length l).
Proof. unfold slice_last. rewrite length_drop. lia. Qed.

(** C3, as the code has it.  For a journal whose entries have valid and
    pairwise distinct dates and that holds at least seven entries, the
    medication chart of the analytics view has exactly seven rows, of the
    seven most recent dates of the journal in ascending order: every other
    date of the journal is earlier than each of them.  For mood entries,
    the trend chart has one row per date for the most recent thirty
    distinct dates with an entry (for all of them when there are fewer),
    in ascending order. *)
Theorem analytics_windows_keep_latest_dates :
  (forall js ms,
      Forall (fun e => is_Some (JSDate.parse (JournalEntry.date e))) js ->
      NoDup (map (fun e => JSDate.parse (JournalEntry.date e)) js) ->
      (7 <= length js)%nat ->
      Forall (fun m => is_Some (JSDate.parse (MoodEntry.timestamp m))) ms ->
      exists ds, medicationDates js ms = Some ds /\
        ds = trailingWindowDates 7 (map JournalEntry.date js) /\
        length ds = 7%nat /\
        StronglySorted dateBefore ds /\
        (forall d, d ∈ ds -> d ∈ map JournalEntry.date js) /\
        (forall d', d' ∈ map JournalEntry.date js -> d' ∉ ds ->
                    forall d, d ∈ ds -> dateBefore d' d)) /\
  (forall js ms,
      Forall (fun m => is_Some (JSDate.parse (MoodEntry.timestamp m))) ms ->
      exists r ds, Analytics js ms = Some r /\
        ds = map mt_date (an_moodTrendData (fst r)) /\
        ds = trailingWindowDates 30 (omap dateKey ms) /\
        length ds = Nat.min 30 (length (remove_dups (omap dateKey ms))) /\
        StronglySorted dateBefore ds /\
        (forall d, d ∈ ds -> exists e, e ∈ ms /\ dateKey e = Some d) /\
        (forall e d', e ∈ ms -> dateKey e = Some d' -> d' ∉ ds ->
                      forall d, d ∈ ds -> dateBefore d' d)).
Proof.
  split.
  - intros js ms Hok Hnd Hlen Hms.
    set (dates := map JournalEntry.date js).
    assert (Hokd : Forall (fun s => is_Some (JSDate.parse s)) dates).
    { subst dates. apply Forall_forall. intros d Hd.
      apply list_elem_of_In, in_map_iff in Hd as (e & <- & He).
      rewrite Forall_forall in Hok. apply Hok. now apply list_elem_of_In. }
    assert (Hndd : NoDup (map JSDate.parse dates)).
    { subst dates. now rewrite map_map. }
    exists (slice_last 7 (Array_sort compareDates dates)).
    split; [now apply medicationDates_sorted|].
    split; [|split].
    + unfold trailingWindowDates. rewrite remove_dups_NoDup; [reflexivity|].
      now apply NoDup_map_inv in Hndd.
    + apply slice_last_length.
      rewrite (Permutation_length (Array_sort_Permutation compareDates dates)).
      subst dates. now rewrite length_map.
    + now apply latest_dates.
  - intros js ms Hms.
    destruct (moodByDate_spec ms Hms) as (groups & Hrun & Hnd & Hkeys & _).
    set (keys := map fst groups) in *.
    destruct (date_keys_valid ms keys) as [Hok Hndp]; [apply Hkeys|exact Hnd|].
    assert (Hperm : keys ≡ₚ remove_dups (omap dateKey ms)).
    { apply NoDup_Permutation; [exact Hnd|apply NoDup_remove_dups|].
      intros k. rewrite elem_of_remove_dups, list_elem_of_omap. apply Hkeys. }
    unfold Analytics. rewrite Hrun. cbn [mbind option_bind].
    eexists _, (slice_last 30 (Array_sort compareDates keys)).
    split; [reflexivity|]. cbn [fst an_moodTrendData].
    split; [symmetry; apply moodTrend_dates|].
    split; [|split].
    + unfold trailingWindowDates. f_equal.
      now apply Array_sort_dates_Permutation.
    + rewrite slice_last_length_min.
      now rewrite (Permutation_length (Array_sort_Permutation compareDates keys)),
        (Permutation_length Hperm).
    + destruct (latest_dates 30 keys Hok Hndp) as (Hs & Hin & Hlate).
      split; [exact Hs|]. split.
      * intros d Hd. apply Hkeys, Hin, Hd.
      * intros e d' He Hd' Hnot d Hd. apply Hlate; [|exact Hnot|exact Hd].
        apply Hkeys. eauto.
Qed.

Lemma analytics_windows_keep_latest_dates_witness :
  (exists ds, medicationDates tenUnsorted [] = Some ds /\
     ds = ["2024-03-04"; "2024-03-05"; "2024-03-06"; "2024-03-07";
           "2024-03-08"; "2024-03-09"; "2024-03-10"]%string) /\
  (exists r ds, Analytics [] thirtyThreeDays = Some r /\
     ds = map mt_date (an_moodTrendData (fst r)) /\
     length ds = 30%nat /\
     hd ""%string ds = "2024-01-04"%string /\
     last ds = Some "2024-02-02"%string).
Proof.
  destruct analytics_windows_keep_latest_dates as [H7 H30]. split.
  - destruct (H7 tenUnsorted []) as (ds & Hds & Heq & _).
    + repeat constructor; vm_compute; eauto.
    + compute_done.
    + vm_compute. lia.
    + constructor.
    + exists ds. split; [exact Hds|]. rewrite Heq. vm_compute. reflexivity.
  - destruct (H30 [] thirtyThreeDays) as (r & ds & Hr & Hds & Heq & Hlen & _).
    + repeat constructor; vm_compute; eauto.
    + exists r, ds. split; [exact Hr|]. split; [exact Hds|].
      split; [rewrite Hlen; vm_compute; reflexivity|].
      rewrite Heq. vm_compute. split; reflexivity.
Defined.

(** C3, counterexample: a journal of eleven entries over ten distinct dates,
    the latest date saved twice.  The medication chart shows the last seven
    entries, so the latest date fills two rows and the seventh most recent
    date is missing. *)
Lemma medication_window_repeats_a_date :
  length (remove_dups (map JournalEntry.date elevenEntries)) = 10%nat /\
  medicationDates elevenEntries [] =
    Some ["2024-03-05"; "2024-03-06"; "2024-03-07"; "2024-03-08";
          "2024-03-09"; "2024-03-10"; "2024-03-10"]%string /\
  trailingWindowDates 7 (map JournalEntry.date elevenEntries) =
    ["2024-03-04"; "2024-03-05"; "2024-03-06"; "2024-03-07";
     "2024-03-08"; "2024-03-09"; "2024-03-10"]%string /\
  medicationDates elevenEntries [] <>
    Some (trailingWindowDates 7 (map JournalEntry.date elevenEntries)).
Proof.
  split; [vm_compute; reflexivity|].
  split; [vm_compute; reflexivity|].
  split; [vm_compute; reflexivity|].
  vm_compute. discriminate.
Qed.
(** * Further properties of the store and the forms *)

(** ** The store *)

Lemma findIndex_from_ext {A : Type} (p q : A -> bool) (l k : list A) (i : Z) :
  map p l = map q k -> findIndex_from p l i = findIndex_from q k i.
Proof.
  revert k i. induction l as [|x l IH]; intros [|y k] i Hm; try discriminate.
  - reflexivity.
  - simpl in Hm. injection Hm as Hx Hm. simpl. rewrite Hx.
    destruct (q y); [reflexivity|]. now apply IH.
Qed.

Lemma findIndex_from_snoc_false {A : Type} (p : A -> bool) (l : list A) (x : A) (i : Z) :
  p x = false -> findIndex_from p (l ++ [x]) i = findIndex_from p l i.
Proof.
  intros Hx. revert i. induction l as [|y l IH]; intros i; simpl.
  - now rewrite Hx.
  - destruct (p y); [reflexivity|apply IH].
Qed.

Lemma upsert_ids {A : Type} `{HasId A} (entry : A) (l : list A) :
  (exists y, y ∈ l /\ entry_id y = entry_id entry) ->
  map entry_id (upsert entry l) = map entry_id l.
Proof.
  intros (y & Hy & Hid).
  destruct (upsert_cases entry l) as [[Hall _]|(l1 & x & l2 & -> & Hl1 & Hx & ->)].
  - rewrite Forall_forall in Hall. now destruct (Hall y Hy).
  - rewrite !map_app. simpl. now rewrite Hx.
Qed.

(** X1: the ids of a collection stay pairwise distinct under a save, so a
    collection built by saves alone never holds one id twice. *)
Theorem saves_keep_ids_unique {A : Type} `{HasId A} :
  (forall (entry : A) (l : list A),
      NoDup (map entry_id l) -> NoDup (map entry_id (upsert entry l))) /\
  (forall (entries : list A),
      NoDup (map entry_id (foldl (fun l e => upsert e l) [] entries))).
Proof.
  split; [intros entry l; apply upsert_NoDup|].
  intros entries.
  assert (Hgen : forall l : list A, NoDup (map entry_id l) ->
            NoDup (map entry_id (foldl (fun l e => upsert e l) l entries))).
  { induction entries as [|e entries IH]; intros l Hl; simpl; [exact Hl|].
    apply IH. now apply upsert_NoDup. }
  apply Hgen. apply NoDup_nil_2.
Qed.

Lemma saves_keep_ids_unique_witness :
  NoDup (map entry_id (upsert entryB' [entryA; entryB; entryC])).
Proof.
  apply (proj1 saves_keep_ids_unique). compute_done.
Defined.

(** X2: after a save the saved entry is the one found under its id, the
    entries of every other id are found at the index they had, and the
    collection has grown by one entry exactly when the id was new. *)
Theorem saved_entry_is_found {A : Type} `{HasId A} (entry : A) (l : list A) :
  (0 <= findIndex (same_id entry) (upsert entry l) /\
   upsert entry l !! Z.to_nat (findIndex (same_id entry) (upsert entry l)) = Some entry) /\
  (forall x, entry_id x <> entry_id entry ->
             findIndex (same_id x) (upsert entry l) = findIndex (same_id x) l) /\
  length (upsert entry l) =
    (if existsb (same_id entry) l then length l else S (length l)).
Proof.
  destruct (upsert_cases entry l) as [[Hall ->]|(l1 & y & l2 & -> & Hl1 & Hy & ->)].
  - assert (Hf : Forall (fun z => same_id entry z = false) l).
    { eapply Forall_impl; [exact Hall|]. intros z Hz. now apply same_id_false. }
    split; [|split].
    + unfold findIndex. rewrite (findIndex_from_first (same_id entry) l entry [] 0 Hf);
        [|now apply same_id_true].
      split; [lia|]. replace (Z.to_nat (0 + Z.of_nat (length l))) with (length l + 0)%nat by lia.
      now rewrite lookup_app_r, Nat.add_comm, Nat.add_sub by lia.
    + intros x Hx. unfold findIndex. apply findIndex_from_snoc_false.
      apply same_id_false. congruence.
    + rewrite length_app. simpl.
      replace (existsb (same_id entry) l) with false; [lia|].
      symmetry. apply not_true_iff_false. intros (z & Hz & Hs)%existsb_exists.
      rewrite Forall_forall in Hf. apply list_elem_of_In in Hz.
      rewrite (Hf z Hz) in Hs. discriminate.
  - assert (Hf : Forall (fun z => same_id entry z = false) l1).
    { eapply Forall_impl; [exact Hl1|]. intros z Hz. now apply same_id_false. }
    split; [|split].
    + unfold findIndex. rewrite (findIndex_from_first (same_id entry) l1 entry l2 0 Hf);
        [|now apply same_id_true].
      split; [lia|]. replace (Z.to_nat (0 + Z.of_nat (length l1))) with (length l1 + 0)%nat by lia.
      now rewrite lookup_app_r, Nat.add_comm, Nat.add_sub by lia.
    + intros x Hx. unfold findIndex. apply findIndex_from_ext.
      rewrite !map_app. simpl. f_equal. f_equal.
      unfold same_id, str_eqb. rewrite Hy.
      reflexivity.
    + rewrite !length_app. simpl.
      replace (existsb (same_id entry) (l1 ++ y :: l2)) with true; [reflexivity|].
      symmetry. apply existsb_exists. exists y. split; [|now apply same_id_true].
      apply in_or_app. right. now left.
Qed.

Lemma saved_entry_is_found_witness :
  findIndex (same_id entryA) (upsert entryB' [entryA; entryB; entryC])
  = findIndex (same_id entryA) [entryA; entryB; entryC].
Proof.
  apply (proj1 (proj2 (saved_entry_is_found entryB' [entryA; entryB; entryC]))).
  discriminate.
Defined.

(** ** Editing a journal entry *)

Lemma find_str_elem (d : string) (l : list JournalEntry.t) (ex : JournalEntry.t) :
  List.find (fun entry => str_eqb (JournalEntry.date entry) d) l = Some ex ->
  ex ∈ l /\ JournalEntry.date ex = d.
Proof.
  intros [Hin Hd]%find_some. split; [now apply list_elem_of_In|].
  now apply str_eqb_eq.
Qed.

Lemma orString_nonempty (x : option string) (d : string) :
  d <> "" -> orString x d <> "".
Proof.
  intros Hd. unfold orString. destruct x as [s|]; [|exact Hd].
  destruct (str_eqb s "") eqn:E; [exact Hd|].
  intros ->. apply not_true_iff_false in E. apply E. now apply str_eqb_eq.
Qed.

Lemma orString_keeps (s d : string) : s <> "" -> orString (Some s) d = s.
Proof.
  intros Hs. unfold orString. destruct (str_eqb s "") eqn:E; [|reflexivity].
  apply str_eqb_eq in E. contradiction.
Qed.

Lemma orNumber_nonzero (x : option Q) (d : Q) :
  ~ (d == 0)%Q -> ~ (orNumber x d == 0)%Q.
Proof.
  intros Hd. unfold orNumber. destruct x as [v|]; [|exact Hd].
  destruct (Qeq_bool v 0) eqn:E; [exact Hd|]. now apply Qeq_bool_neq.
Qed.

Lemma orNumber_keeps (v d : Q) : ~ (v == 0)%Q -> orNumber (Some v) d = v.
Proof.
  intros Hv. unfold orNumber. destruct (Qeq_bool v 0) eqn:E; [|reflexivity].
  apply Qeq_bool_iff in E. contradiction.
Qed.

(** X3: saving the form of the entry selected in the calendar puts the result
    in the place of that entry: the ids of the journal and their order are
    the ones before the save, whatever was typed into the form, and the
    dashboard is shown. *)
Theorem editing_selected_entry_keeps_ids
    (s : AppState) (ex : JournalEntry.t) (entry : PartialEntry.t) (uuid today : string) :
  getSelectedJournalEntry s = Some ex ->
  JournalEntry.id ex <> "" ->
  map JournalEntry.id
      (journalEntries (handleSaveJournalEntry (handleSave (Some ex) entry uuid today) s))
  = map JournalEntry.id (journalEntries s) /\
  activeTab (handleSaveJournalEntry (handleSave (Some ex) entry uuid today) s) = "dashboard" /\
  moodEntries (handleSaveJournalEntry (handleSave (Some ex) entry uuid today) s) = moodEntries s.
Proof.
  intros Hsel Hid. unfold getSelectedJournalEntry in Hsel.
  destruct (selectedDate s) as [d|]; [|discriminate].
  destruct (str_eqb d ""); [discriminate|].
  apply find_str_elem in Hsel as [Hin _].
  split; [|split; reflexivity].
  unfold handleSaveJournalEntry. cbn [journalEntries].
  apply (upsert_ids (A := JournalEntry.t)). exists ex. split; [exact Hin|].
  cbn. symmetry. now apply orString_keeps.
Qed.

Lemma editing_selected_entry_keeps_ids_witness :
  map JournalEntry.id
      (journalEntries
         (handleSaveJournalEntry
            (handleSave (Some entryB) (newForm "2024-03-09") "fresh" "2024-03-09")
            (mkApp "journal" [entryA; entryB; entryC] [] (Some (JournalEntry.date entryB)))))
  = map JournalEntry.id [entryA; entryB; entryC].
Proof.
  apply (editing_selected_entry_keeps_ids
           (mkApp "journal" [entryA; entryB; entryC] [] (Some (JournalEntry.date entryB)))
           entryB (newForm "2024-03-09") "fresh" "2024-03-09").
  - reflexivity.
  - discriminate.
Defined.

(** X4: opening an entry in the form and saving it unchanged gives the entry
    back, provided its id and date are not empty and its sleep hours and sleep
    quality are not zero (an empty or zero field is replaced by the default
    of the form). *)
Theorem form_round_trip (ex : JournalEntry.t) (uuid today : string) :
  JournalEntry.id ex <> "" ->
  JournalEntry.date ex <> "" ->
  ~ (JournalEntry.sleepHours ex == 0)%Q ->
  ~ (JournalEntry.sleepQuality ex == 0)%Q ->
  sameJournalEntry (handleSave (Some ex) (initialForm (Some ex) today) uuid today) ex.
Proof.
  intros Hid Hdate Hsh Hsq. destruct ex as [i d m sh sq st ss cr jt g go w c le].
  cbn in Hid, Hdate, Hsh, Hsq.
  assert (Hs : forall s : string, orString (Some s) "" = s).
  { intros s. unfold orString. destruct (str_eqb s "") eqn:E; [|reflexivity].
    apply str_eqb_eq in E. now subst. }
  unfold sameJournalEntry, handleSave, initialForm, formOf. cbn -[orString orNumber].
  rewrite !Hs, !orString_keeps, !orNumber_keeps by assumption.
  repeat split; try reflexivity.
  unfold orNumber. destruct (Qeq_bool st 0) eqn:E; [|reflexivity].
  apply Qeq_bool_iff in E. now symmetry.
Qed.

Lemma form_round_trip_witness :
  sameJournalEntry
    (handleSave (Some entryWithMeds) (initialForm (Some entryWithMeds) "2024-03-09")
                "fresh" "2024-03-09")
    entryWithMeds.
Proof.
  apply (form_round_trip entryWithMeds "fresh" "2024-03-09");
    try discriminate; intros E; vm_compute in E; discriminate.
Defined.

(** X5: a saved journal entry never has zero sleep hours or zero sleep
    quality: a form that holds zero (or nothing) there is saved with 7 hours
    and quality 5; and its id and date are not empty when the fresh id and
    today's date are not. *)
Theorem saved_entry_defaults
    (existingEntry : option JournalEntry.t) (entry : PartialEntry.t) (uuid today : string) :
  ~ (JournalEntry.sleepHours (handleSave existingEntry entry uuid today) == 0)%Q /\
  ~ (JournalEntry.sleepQuality (handleSave existingEntry entry uuid today) == 0)%Q /\
  (forall v, PartialEntry.sleepHours entry = Some v -> (v == 0)%Q ->
        JournalEntry.sleepHours (handleSave existingEntry entry uuid today) = 7%Q) /\
  (forall v, PartialEntry.sleepQuality entry = Some v -> (v == 0)%Q ->
        JournalEntry.sleepQuality (handleSave existingEntry entry uuid today) = 5%Q) /\
  (uuid <> "" -> JournalEntry.id (handleSave existingEntry entry uuid today) <> "") /\
  (today <> "" -> JournalEntry.date (handleSave existingEntry entry uuid today) <> "").
Proof.
  unfold handleSave. cbn.
  split; [apply orNumber_nonzero; discriminate|].
  split; [apply orNumber_nonzero; discriminate|].
  split; [|split; [|split]].
  - intros v -> Hv. unfold orNumber. apply Qeq_bool_iff in Hv. now rewrite Hv.
  - intros v -> Hv. unfold orNumber. apply Qeq_bool_iff in Hv. now rewrite Hv.
  - apply orString_nonempty.
  - apply orString_nonempty.
Qed.

Lemma saved_entry_defaults_witness :
  JournalEntry.sleepHours
    (handleSave None (formOf (journalOn "Z" "2024-03-01" 0 [])) "fresh" "2024-03-09") = 7%Q.
Proof.
  apply (proj1 (proj2 (proj2
           (saved_entry_defaults None (formOf (journalOn "Z" "2024-03-01" 0 []))
                                 "fresh" "2024-03-09"))) 0%Q).
  - reflexivity.
  - reflexivity.
Defined.

(** ** Medication rows of the journal form *)

Lemma countTaken_app (l k : list Medication) :
  countTaken (l ++ k) = (countTaken l + countTaken k)%nat.
Proof.
  unfold countTaken. now rewrite List.filter_app, length_app.
Qed.



(** X7: ticking or unticking a medication row on screen keeps the number of
    rows and every other row, leaves name and time of the row as they were,
    and moves the number of taken medications by exactly that row. *)
Theorem medication_tick_counts
    (index : nat) (value : bool) (entry entry' : PartialEntry.t) (med : Medication) :
  default [] (PartialEntry.medications entry) !! index = Some med ->
  handleMedicationChange index (FieldTaken value) entry = Some entry' ->
  exists rows,
    PartialEntry.medications entry' = Some rows /\
    length rows = length (default [] (PartialEntry.medications entry)) /\
    rows !! index = Some (mkMedication (name med) value (time med)) /\
    (forall j, j <> index ->
               rows !! j = default [] (PartialEntry.medications entry) !! j) /\
    (countTaken rows + (if taken med then 1 else 0)
     = countTaken (default [] (PartialEntry.medications entry))
       + (if value then 1 else 0))%nat.
Proof.
  unfold handleMedicationChange. cbn.
  generalize (default [] (PartialEntry.medications entry)) as meds. intros meds Hm Hc.
  rewrite Hm in Hc. cbn in Hc. injection Hc as <-. cbn.
  eexists. split; [reflexivity|].
  split; [apply length_insert|].
  split; [apply list_lookup_insert_eq; now apply lookup_lt_Some in Hm|].
  split; [intros j Hj; now apply list_lookup_insert_ne|].
  apply list_elem_of_split_length in Hm as (l1 & l2 & -> & ->).
  pose proof (insert_app_r l1 (med :: l2) 0 (mkMedication (name med) value (time med))) as E.
  rewrite Nat.add_0_r in E. rewrite E. cbn [insert list_insert].
  rewrite !countTaken_app.
  change (med :: l2) with ([med] ++ l2).
  change (mkMedication (name med) value (time med) :: l2)
    with ([mkMedication (name med) value (time med)] ++ l2).
  rewrite !countTaken_app. unfold countTaken at 2 5. cbn.
  destruct value, (taken med); cbn; lia.
Qed.

Lemma medication_tick_counts_witness :
  exists rows,
    PartialEntry.medications
      (withMedications
         [mkMedication "Obat Pagi" true "08:00"; mkMedication "Obat Malam" true "20:00"]
         (formOf entryWithMeds)) = Some rows /\
    length rows = 2%nat.
Proof.
  destruct (medication_tick_counts 1 true (formOf entryWithMeds)
              (withMedications
                 [mkMedication "Obat Pagi" true "08:00"; mkMedication "Obat Malam" true "20:00"]
                 (formOf entryWithMeds))
              (mkMedication "Obat Malam" false "20:00") eq_refl eq_refl)
    as (rows & H1 & H2 & _).
  exists rows. split; [exact H1|exact H2].
Defined.

(** ** Symptom checkboxes of the mood tracker *)

Lemma existsb_str (s : string) (l : list string) :
  existsb (fun x => str_eqb x s) l = true <-> s ∈ l.
Proof.
  rewrite existsb_exists. split.
  - intros (x & Hx & ->%str_eqb_eq). now apply list_elem_of_In.
  - intros Hin. exists s. split; [now apply list_elem_of_In|now apply str_eqb_eq].
Qed.

Lemma elem_of_filter_ne (s x : string) (l : list string) :
  x ∈ List.filter (fun y => negb (str_eqb y s)) l <-> x ∈ l /\ x <> s.
Proof.
  rewrite !list_elem_of_In, filter_In, negb_true_iff, <- not_true_iff_false, str_eqb_eq.
  reflexivity.
Qed.

Lemma NoDup_filter_bool {A : Type} (p : A -> bool) (l : list A) :
  NoDup l -> NoDup (List.filter p l).
Proof.
  induction 1 as [|x l Hx Hl IH]; simpl; [constructor|].
  destruct (p x); [|exact IH]. constructor; [|exact IH].
  intros Hin. apply Hx. apply list_elem_of_In in Hin. apply filter_In in Hin as [Hin _].
  now apply list_elem_of_In.
Qed.

Lemma filter_ne_absent (s : string) (l : list string) :
  s ∉ l -> List.filter (fun y => negb (str_eqb y s)) l = l.
Proof.
  induction l as [|x l IH]; intros Hs; simpl; [reflexivity|].
  apply not_elem_of_cons in Hs as [Hne Hs].
  destruct (str_eqb x s) eqn:E.
  - apply str_eqb_eq in E. now subst.
  - simpl. now rewrite IH.
Qed.

Lemma toggleSymptom_elem (s : string) (l : list string) :
  (s ∈ toggleSymptom s l <-> s ∉ l) /\
  (forall x, x <> s -> x ∈ toggleSymptom s l <-> x ∈ l).
Proof.
  unfold toggleSymptom. destruct (existsb _ l) eqn:E.
  - apply existsb_str in E. split.
    + rewrite elem_of_filter_ne. split; [now intros [_ H]|]. intros H. now destruct H.
    + intros x Hx. rewrite elem_of_filter_ne. tauto.
  - apply not_true_iff_false in E. rewrite existsb_str in E. split.
    + rewrite elem_of_app, list_elem_of_singleton. tauto.
    + intros x Hx. rewrite elem_of_app, list_elem_of_singleton. tauto.
Qed.

Lemma toggleSymptom_NoDup (s : string) (l : list string) :
  NoDup l -> NoDup (toggleSymptom s l).
Proof.
  intros Hl. unfold toggleSymptom. destruct (existsb _ l) eqn:E.
  - now apply NoDup_filter_bool.
  - apply not_true_iff_false in E. rewrite existsb_str in E.
    apply NoDup_app. split; [exact Hl|]. split; [|apply NoDup_singleton].
    intros x Hx ->%list_elem_of_singleton. exact (E Hx).
Qed.

(** X8: a click on a symptom checkbox flips that symptom and no other: the
    symptom is listed afterwards exactly when it was not listed before,
    every other symptom is listed exactly when it was, and a list without
    repetition stays without repetition. *)
Theorem symptom_toggle_flips_one (symptom : string) (formData : MoodEntry.t) :
  (symptom ∈ MoodEntry.psychoticSymptoms (handleSymptomToggle symptom formData)
   <-> symptom ∉ MoodEntry.psychoticSymptoms formData) /\
  (forall other, other <> symptom ->
     (other ∈ MoodEntry.psychoticSymptoms (handleSymptomToggle symptom formData)
      <-> other ∈ MoodEntry.psychoticSymptoms formData)) /\
  (NoDup (MoodEntry.psychoticSymptoms formData) ->
   NoDup (MoodEntry.psychoticSymptoms (handleSymptomToggle symptom formData))).
Proof.
  cbn. split; [apply toggleSymptom_elem|].
  split; [apply toggleSymptom_elem|apply toggleSymptom_NoDup].
Qed.

Lemma symptom_toggle_flips_one_witness :
  NoDup (MoodEntry.psychoticSymptoms
           (handleSymptomToggle "Paranoia"
              (moodAt "m" "2024-03-07T09:00:00.000Z" 5 5 ["Paranoia"; "Delusi/waham"]))).
Proof.
  apply (proj2 (proj2 (symptom_toggle_flips_one "Paranoia"
           (moodAt "m" "2024-03-07T09:00:00.000Z" 5 5 ["Paranoia"; "Delusi/waham"])))).
  compute_done.
Defined.

(** X9: two clicks on the same checkbox restore the list of symptoms when the
    symptom was not listed; when it was listed (once), the list comes back
    with that symptom moved to the end, so the same symptoms in another
    order. *)
Theorem symptom_double_toggle (symptom : string) (symptoms : list string) :
  (symptom ∉ symptoms ->
   toggleSymptom symptom (toggleSymptom symptom symptoms) = symptoms) /\
  (symptom ∈ symptoms ->
   toggleSymptom symptom (toggleSymptom symptom symptoms)
   = List.filter (fun s => negb (str_eqb s symptom)) symptoms ++ [symptom]) /\
  (NoDup symptoms ->
   toggleSymptom symptom (toggleSymptom symptom symptoms) ≡ₚ symptoms).
Proof.
  assert (Habs : symptom ∉ symptoms ->
            toggleSymptom symptom (toggleSymptom symptom symptoms) = symptoms).
  { intros Hs. unfold toggleSymptom at 2.
    replace (existsb (fun s => str_eqb s symptom) symptoms) with false.
    2:{ symmetry. apply not_true_iff_false. now rewrite existsb_str. }
    unfold toggleSymptom.
    replace (existsb (fun s => str_eqb s symptom) (symptoms ++ [symptom])) with true.
    2:{ symmetry. apply existsb_str. apply elem_of_app. right. now apply list_elem_of_singleton. }
    rewrite List.filter_app. simpl.
    replace (str_eqb symptom symptom) with true by (symmetry; now apply str_eqb_eq).
    simpl. rewrite app_nil_r. now apply filter_ne_absent. }
  assert (Hpres : symptom ∈ symptoms ->
            toggleSymptom symptom (toggleSymptom symptom symptoms)
            = List.filter (fun s => negb (str_eqb s symptom)) symptoms ++ [symptom]).
  { intros Hs. unfold toggleSymptom at 2.
    replace (existsb (fun s => str_eqb s symptom) symptoms) with true
      by (symmetry; now apply existsb_str).
    unfold toggleSymptom.
    replace (existsb _ (List.filter _ symptoms)) with false; [reflexivity|].
    symmetry. apply not_true_iff_false. rewrite existsb_str, elem_of_filter_ne. tauto. }
  split; [exact Habs|]. split; [exact Hpres|].
  intros Hnd. destruct (decide (symptom ∈ symptoms)) as [Hin|Hout].
  - rewrite (Hpres Hin). apply NoDup_Permutation.
    + apply NoDup_app. split; [now apply NoDup_filter_bool|].
      split; [|apply NoDup_singleton].
      intros x Hx ->%list_elem_of_singleton. apply elem_of_filter_ne in Hx. tauto.
    + exact Hnd.
    + intros x. rewrite elem_of_app, elem_of_filter_ne, list_elem_of_singleton.
      destruct (decide (x = symptom)) as [->|Hne]; tauto.
  - now rewrite (Habs Hout).
Qed.

Lemma symptom_double_toggle_witness :
  toggleSymptom "Paranoia" (toggleSymptom "Paranoia" ["Delusi/waham"; "Halusinasi visual"])
  = ["Delusi/waham"; "Halusinasi visual"]%string.
Proof.
  apply (proj1 (symptom_double_toggle "Paranoia" ["Delusi/waham"; "Halusinasi visual"])).
  compute_done.
Defined.

(** X10: starting from the empty form of the mood tracker, any sequence of
    clicks on the symptom checkboxes leaves a list without repetition, drawn
    from the seven options, hence of at most seven symptoms. *)
Theorem symptoms_stay_within_options (uuid nowISO : string) (clicks : list string) :
  Forall (fun s => s ∈ psychoticSymptomOptions) clicks ->
  NoDup (MoodEntry.psychoticSymptoms
           (foldl (fun form s => handleSymptomToggle s form) (newMoodForm uuid nowISO) clicks)) /\
  Forall (fun s => s ∈ psychoticSymptomOptions)
         (MoodEntry.psychoticSymptoms
            (foldl (fun form s => handleSymptomToggle s form) (newMoodForm uuid nowISO) clicks)) /\
  (length (MoodEntry.psychoticSymptoms
             (foldl (fun form s => handleSymptomToggle s form) (newMoodForm uuid nowISO) clicks))
   <= 7)%nat.
Proof.
  intros Hclicks.
  assert (Hgen : forall form : MoodEntry.t,
            NoDup (MoodEntry.psychoticSymptoms form) ->
            Forall (fun s => s ∈ psychoticSymptomOptions) (MoodEntry.psychoticSymptoms form) ->
            NoDup (MoodEntry.psychoticSymptoms
                     (foldl (fun form s => handleSymptomToggle s form) form clicks)) /\
            Forall (fun s => s ∈ psychoticSymptomOptions)
                   (MoodEntry.psychoticSymptoms
                      (foldl (fun form s => handleSymptomToggle s form) form clicks))).
  { induction Hclicks as [|c clicks Hc Hcs IH]; intros form Hnd Hall; simpl; [now split|].
    apply IH; cbn.
    - now apply toggleSymptom_NoDup.
    - apply Forall_forall. intros x Hx. destruct (decide (x = c)) as [->|Hne]; [exact Hc|].
      rewrite Forall_forall in Hall. apply Hall.
      exact (proj1 (proj2 (toggleSymptom_elem c (MoodEntry.psychoticSymptoms form)) x Hne) Hx). }
  destruct (Hgen (newMoodForm uuid nowISO)) as [Hnd Hall]; [constructor|constructor|].
  split; [exact Hnd|]. split; [exact Hall|].
  change 7%nat with (length psychoticSymptomOptions).
  apply submseteq_length, NoDup_submseteq; [exact Hnd|].
  intros x Hx. rewrite Forall_forall in Hall. now apply Hall.
Qed.

Lemma symptoms_stay_within_options_witness :
  (length (MoodEntry.psychoticSymptoms
             (foldl (fun form s => handleSymptomToggle s form)
                    (newMoodForm "u" "2024-03-07T09:00:00.000Z")
                    ["Paranoia"; "Delusi/waham"; "Paranoia"]))
   <= 7)%nat.
Proof.
  apply (symptoms_stay_within_options "u" "2024-03-07T09:00:00.000Z"
           ["Paranoia"; "Delusi/waham"; "Paranoia"]).
  compute_done.
Defined.

(** * Further properties of the dashboard *)

Lemma healthAlerts_AllClear m a s ad t p c :
  AllClear ∈ healthAlerts m a s ad t p c <->
  Qle_bool 7 m && Qle_bool a 3 && Qle_bool 7 s && Qle_bool 90 ad = true.
Proof. alert_membership. Qed.

Lemma of_length_pos {A : Type} (l : list A) : l <> [] -> (0 < of_length l)%Q.
Proof.
  intros Hl. unfold of_length. change 0%Q with (inject_Z 0). rewrite <- Zlt_Qlt.
  destruct l; [contradiction|]. simpl length. lia.
Qed.

Lemma sum_ge {A : Type} (f : A -> Q) (lo : Q) (l : list A) (a : Q) :
  Forall (fun e => (lo <= f e)%Q) l ->
  (a + lo * of_length l <= foldl (fun sum e => sum + f e) a l)%Q.
Proof.
  intros Hall. revert a.
  induction Hall as [|e l Hlo _ IH]; intros a; simpl.
  - unfold of_length. simpl. ring_simplify. apply Qle_refl.
  - rewrite of_length_cons. eapply Qle_trans; [|exact (IH (a + f e)%Q)].
    assert (E : (a + lo * (of_length l + 1) == (a + lo) + lo * of_length l)%Q) by ring.
    rewrite E. apply Qplus_le_compat; [|apply Qle_refl].
    apply Qplus_le_compat; [apply Qle_refl|exact Hlo].
Qed.

Lemma sum_le {A : Type} (f : A -> Q) (hi : Q) (l : list A) (a : Q) :
  Forall (fun e => (f e <= hi)%Q) l ->
  (foldl (fun sum e => sum + f e) a l <= a + hi * of_length l)%Q.
Proof.
  intros Hall. revert a.
  induction Hall as [|e l Hhi _ IH]; intros a; simpl.
  - unfold of_length. simpl. ring_simplify. apply Qle_refl.
  - rewrite of_length_cons. eapply Qle_trans; [exact (IH (a + f e)%Q)|].
    assert (E : (a + hi * (of_length l + 1) == (a + hi) + hi * of_length l)%Q) by ring.
    rewrite E. apply Qplus_le_compat; [|apply Qle_refl].
    apply Qplus_le_compat; [apply Qle_refl|exact Hhi].
Qed.

Lemma average_ge {A : Type} (f : A -> Q) (lo : Q) (l : list A) :
  l <> [] -> Forall (fun e => (lo <= f e)%Q) l -> (lo <= average f l)%Q.
Proof.
  intros Hne Hall. pose proof (of_length_pos l Hne) as Hpos.
  unfold average. destruct l as [|x l]; [contradiction|].
  change (0 <? length (x :: l))%nat with true. cbv iota.
  pose proof (sum_ge f lo (x :: l) 0 Hall) as H1. fold (sumBy f (x :: l)) in H1.
  apply Qle_shift_div_l; [exact Hpos|].
  eapply Qle_trans; [|exact H1]. ring_simplify. apply Qle_refl.
Qed.

Lemma average_le {A : Type} (f : A -> Q) (hi : Q) (l : list A) :
  l <> [] -> Forall (fun e => (f e <= hi)%Q) l -> (average f l <= hi)%Q.
Proof.
  intros Hne Hall. pose proof (of_length_pos l Hne) as Hpos.
  unfold average. destruct l as [|x l]; [contradiction|].
  change (0 <? length (x :: l))%nat with true. cbv iota.
  pose proof (sum_le f hi (x :: l) 0 Hall) as H2. fold (sumBy f (x :: l)) in H2.
  apply Qle_shift_div_r; [exact Hpos|].
  eapply Qle_trans; [exact H2|]. ring_simplify. apply Qle_refl.
Qed.

Lemma average_nonzero {A : Type} (f : A -> Q) (l : list A) :
  ~ (average f l == 0)%Q -> l <> [].
Proof. intros H ->. apply H. reflexivity. Qed.


(** The adherence compared with a percentage, as a comparison of counts. *)
Lemma adherenceOf_lt (t n : nat) (k : Z) :
  (0 < n)%nat ->
  ((adherenceOf t n < inject_Z k)%Q <-> 100 * Z.of_nat t < k * Z.of_nat n).
Proof.
  intros Hn. unfold adherenceOf.
  replace (0 <? n)%nat with true by (symmetry; now apply Nat.ltb_lt).
  unfold Qlt, Qdiv, Qmult, Qinv, inject_Z. simpl.
  destruct (Z.of_nat n) as [|p|p] eqn:Hp; try lia. simpl. lia.
Qed.

Lemma adherenceOf_ge (t n : nat) (k : Z) :
  (0 < n)%nat ->
  ((inject_Z k <= adherenceOf t n)%Q <-> k * Z.of_nat n <= 100 * Z.of_nat t).
Proof.
  intros Hn. rewrite <- Z.nlt_ge, <- (adherenceOf_lt t n k Hn). split.
  - intros H1 H2. exact (Qlt_not_le _ _ H2 H1).
  - apply Qnot_lt_le.
Qed.

(** X11: the all-clear message is shown only for a week that holds a mood
    entry, a journal entry and a medication row, with at least nine tenths
    of the rows ticked; none of the low-mood, high-anxiety, sleep-deficit,
    low-adherence and no-data alerts is shown beside it. *)
Theorem all_clear_needs_data_and_excludes_warnings
    (now : Z) (js : list JournalEntry.t) (ms : list MoodEntry.t) (v : DashboardView) :
  Dashboard now js ms = Some v ->
  AllClear ∈ alerts v ->
  recentMoodEntries v <> [] /\
  recentJournalEntries v <> [] /\
  (0 < totalMeds v)%nat /\
  (9 * totalMeds v <= 10 * takenMeds v)%nat /\
  (LowMood ∉ alerts v) /\ (HighAnxiety ∉ alerts v) /\ (SleepDeficit ∉ alerts v) /\
  (LowAdherence ∉ alerts v) /\ (NoData ∉ alerts v).
Proof.
  intros Hv Hclear.
  destruct (Dashboard_Some now js ms v Hv)
    as (_ & _ & Hm & _ & _ & _ & Hs & _ & _ & _ & Had & _ & Hal).
  rewrite Hal in Hclear |- *. apply healthAlerts_AllClear in Hclear.
  apply andb_prop in Hclear as [Hclear H90%Qle_bool_iff].
  apply andb_prop in Hclear as [Hclear H7s%Qle_bool_iff].
  apply andb_prop in Hclear as [H7m%Qle_bool_iff H3a%Qle_bool_iff].
  assert (Htot : (0 < totalMeds v)%nat).
  { destruct (totalMeds v) eqn:E; [|lia]. rewrite Had, adherenceOf_zero_total in H90.
    exfalso. revert H90. apply Qlt_not_le. reflexivity. }
  split; [|split; [|split; [|split]]].
  - apply (average_nonzero MoodEntry.mood). rewrite <- Hm. intros H0.
    rewrite H0 in H7m. revert H7m. apply Qlt_not_le. reflexivity.
  - apply (average_nonzero JournalEntry.sleepHours). rewrite <- Hs. intros H0.
    rewrite H0 in H7s. revert H7s. apply Qlt_not_le. reflexivity.
  - exact Htot.
  - rewrite Had in H90. apply (adherenceOf_ge _ _ 90 Htot) in H90. lia.
  - rewrite healthAlerts_LowMood, healthAlerts_HighAnxiety, healthAlerts_SleepDeficit,
      healthAlerts_LowAdherence, healthAlerts_NoData.
    repeat split.
    + rewrite Qltb_lt. apply Qle_not_lt. eapply Qle_trans; [|exact H7m]. discriminate.
    + rewrite Qltb_lt. apply Qle_not_lt. eapply Qle_trans; [exact H3a|]. discriminate.
    + rewrite Qltb_lt. apply Qle_not_lt. eapply Qle_trans; [|exact H7s]. discriminate.
    + intros [H _]%andb_prop. apply Qltb_lt in H. revert H. apply Qle_not_lt.
      eapply Qle_trans; [|exact H90]. discriminate.
    + intros [[H _]%andb_prop _]%andb_prop. apply Qeq_bool_iff in H.
      rewrite H in H7m. revert H7m. apply Qlt_not_le. reflexivity.
Qed.

Lemma all_clear_needs_data_and_excludes_warnings_witness :
  exists v, Dashboard noonMarch7 calmJournal calmMood = Some v /\ LowMood ∉ alerts v.
Proof.
  eexists. split; [vm_compute; reflexivity|].
  refine (proj1 (proj2 (proj2 (proj2 (proj2
            (all_clear_needs_data_and_excludes_warnings
               noonMarch7 calmJournal calmMood _ eq_refl _)))))).
  vm_compute. do 2 constructor.
Defined.

Lemma sumMeds_all_taken (l : list JournalEntry.t) :
  Forall (fun j => Forall (fun med => taken med = true) (JournalEntry.medications j)) l ->
  sumMeds countTaken l = sumMeds (@length Medication) l.
Proof.
  intros Hall. unfold sumMeds. generalize 0%nat as a.
  induction Hall as [|j l Hj _ IH]; intros a; simpl; [reflexivity|].
  unfold countTaken at 2. rewrite (filter_all taken _ Hj). apply IH.
Qed.

(** X12: the all-clear message does not look at psychotic symptoms.  For a
    week with at least one mood entry, whose mood entries all have mood at
    least 7 and anxiety at most 3 and whose journal entries all have at
    least 7 hours of sleep and every medication row ticked (with at least
    one row), the all-clear message is shown, whatever symptoms the mood
    entries report; when more than three of them report a symptom, the
    alert on psychotic symptoms is shown beside it. *)
Theorem all_clear_beside_symptom_alert
    (now : Z) (js : list JournalEntry.t) (ms : list MoodEntry.t) (v : DashboardView) :
  Dashboard now js ms = Some v ->
  recentMoodEntries v <> [] ->
  Forall (fun m => (7 <= MoodEntry.mood m)%Q /\ (MoodEntry.anxiety m <= 3)%Q)
         (recentMoodEntries v) ->
  Forall (fun j => (7 <= JournalEntry.sleepHours j)%Q /\
                   Forall (fun med => taken med = true) (JournalEntry.medications j))
         (recentJournalEntries v) ->
  (0 < totalMeds v)%nat ->
  AllClear ∈ alerts v /\
  ((3 < length (List.filter hasSymptoms (recentMoodEntries v)))%nat ->
   PsychoticSymptoms (length (List.filter hasSymptoms (recentMoodEntries v))) ∈ alerts v).
Proof.
  intros Hv Hmne Hms Hjs Htot.
  destruct (Dashboard_Some now js ms v Hv)
    as (_ & _ & Hm & Ha & _ & _ & Hs & _ & Ht & Htk & Had & Hp & Hal).
  assert (Hjne : recentJournalEntries v <> []).
  { intros E. rewrite Ht, E in Htot. cbn in Htot. lia. }
  rewrite Hal. split.
  - apply healthAlerts_AllClear.
    repeat (apply andb_true_intro; split); apply Qle_bool_iff.
    + rewrite Hm. apply average_ge; [exact Hmne|].
      eapply Forall_impl; [exact Hms|]. now intros m [H _].
    + rewrite Ha. apply average_le; [exact Hmne|].
      eapply Forall_impl; [exact Hms|]. now intros m [_ H].
    + rewrite Hs. apply average_ge; [exact Hjne|].
      eapply Forall_impl; [exact Hjs|]. now intros j [H _].
    + rewrite Had. apply (adherenceOf_ge _ _ 90 Htot).
      rewrite Htk, Ht, sumMeds_all_taken; [lia|].
      eapply Forall_impl; [exact Hjs|]. now intros j [_ H].
  - intros Hsym. apply healthAlerts_PsychoticSymptoms. rewrite Hp. split; [|reflexivity].
    now apply Nat.ltb_lt.
Qed.

Lemma all_clear_beside_symptom_alert_witness :
  exists v, Dashboard noonMarch7 calmJournal calmMood = Some v /\
    AllClear ∈ alerts v /\ PsychoticSymptoms 4 ∈ alerts v.
Proof.
  eexists. split; [vm_compute; reflexivity|].
  destruct (all_clear_beside_symptom_alert noonMarch7 calmJournal calmMood _ eq_refl)
    as [Hclear Hsym].
  - vm_compute. discriminate.
  - repeat constructor; discriminate.
  - repeat constructor; discriminate.
  - vm_compute. lia.
  - split; [exact Hclear|]. apply Hsym. vm_compute. lia.
Defined.

(** X13: the no-data message is shown exactly when no mood entry lies in the
    week; its two conditions on the means add nothing to the condition on
    the count.  The low-mood alert is then shown as well, the high-anxiety
    alert and the alert on psychotic symptoms are not. *)
Theorem no_data_iff_no_mood_entry_in_window
    (now : Z) (js : list JournalEntry.t) (ms : list MoodEntry.t) (v : DashboardView) :
  Dashboard now js ms = Some v ->
  (NoData ∈ alerts v <-> recentMoodEntries v = []) /\
  (NoData ∈ alerts v ->
   LowMood ∈ alerts v /\ (HighAnxiety ∉ alerts v) /\
   forall n, PsychoticSymptoms n ∉ alerts v).
Proof.
  intros Hv.
  destruct (Dashboard_Some now js ms v Hv)
    as (_ & _ & Hm & Ha & _ & _ & _ & _ & _ & _ & _ & Hp & Hal).
  assert (Hiff : NoData ∈ alerts v <-> recentMoodEntries v = []).
  { rewrite Hal, healthAlerts_NoData. split.
    - intros [_ Hc%Nat.eqb_eq]%andb_prop. now apply length_zero_iff_nil.
    - intros E. rewrite Hm, Ha, E. reflexivity. }
  split; [exact Hiff|]. intros E%Hiff. rewrite Hal.
  rewrite healthAlerts_LowMood, healthAlerts_HighAnxiety.
  rewrite Hm, Ha, Hp, E. cbn.
  split; [reflexivity|]. split; [discriminate|].
  intros n [H _]%healthAlerts_PsychoticSymptoms. discriminate.
Qed.

Lemma no_data_iff_no_mood_entry_in_window_witness :
  exists v, Dashboard noonMarch7 marchWeek [] = Some v /\ NoData ∈ alerts v.
Proof.
  eexists. split; [vm_compute; reflexivity|].
  apply (proj1 (no_data_iff_no_mood_entry_in_window noonMarch7 marchWeek [] _ eq_refl)).
  reflexivity.
Defined.

(** X14: the low-adherence alert is shown exactly when the week has a
    medication row and fewer than four fifths of the rows are ticked; with
    exactly four of five ticked it is not shown. *)
Theorem low_adherence_below_four_fifths
    (now : Z) (js : list JournalEntry.t) (ms : list MoodEntry.t) (v : DashboardView) :
  Dashboard now js ms = Some v ->
  (LowAdherence ∈ alerts v <->
   (0 < totalMeds v)%nat /\ (5 * takenMeds v < 4 * totalMeds v)%nat) /\
  (takenMeds v <= totalMeds v)%nat.
Proof.
  intros Hv.
  destruct (Dashboard_Some now js ms v Hv)
    as (_ & _ & _ & _ & _ & _ & _ & _ & Ht & Htk & Had & _ & Hal).
  split; [|rewrite Ht, Htk; apply taken_le_total].
  rewrite Hal, healthAlerts_LowAdherence, andb_true_iff, Nat.ltb_lt, Qltb_lt, Had.
  split.
  - intros [Hlt Hpos]. split; [exact Hpos|].
    apply (adherenceOf_lt _ _ 80 Hpos) in Hlt. lia.
  - intros [Hpos Hlt]. split; [|exact Hpos].
    apply (adherenceOf_lt _ _ 80 Hpos). lia.
Qed.

Lemma low_adherence_below_four_fifths_witness :
  exists v, Dashboard noonMarch7 calmJournal calmMood = Some v /\
    (takenMeds v <= totalMeds v)%nat.
Proof.
  eexists. split; [vm_compute; reflexivity|].
  apply (proj2 (low_adherence_below_four_fifths noonMarch7 calmJournal calmMood _ eq_refl)).
Defined.



(** ** The week window as time passes *)

Lemma filter_narrower {A : Type} (p q : A -> bool) (l : list A) :
  (forall x, q x = true -> p x = true) ->
  List.filter q l = List.filter q (List.filter p l).
Proof.
  intros Hqp. induction l as [|x l IH]; simpl; [reflexivity|].
  destruct (q x) eqn:Hq.
  - rewrite (Hqp x Hq). simpl. now rewrite Hq, IH.
  - destruct (p x); simpl; [rewrite Hq|]; exact IH.
Qed.

Lemma filter_comm {A : Type} (p q : A -> bool) (l : list A) :
  List.filter p (List.filter q l) = List.filter q (List.filter p l).
Proof.
  induction l as [|x l IH]; simpl; [reflexivity|].
  destruct (p x) eqn:Hp, (q x) eqn:Hq; simpl; rewrite ?Hp, ?Hq, IH; reflexivity.
Qed.

Lemma sumMeds_from_filter_le (f : list Medication -> nat) (p : JournalEntry.t -> bool)
    (l : list JournalEntry.t) (a b : nat) :
  (a <= b)%nat ->
  (foldl (fun sum entry => (sum + f (JournalEntry.medications entry))%nat) a (List.filter p l)
   <= foldl (fun sum entry => (sum + f (JournalEntry.medications entry))%nat) b l)%nat.
Proof.
  revert a b. induction l as [|e l IH]; intros a b Hab; simpl; [exact Hab|].
  destruct (p e); simpl; apply IH; lia.
Qed.

Lemma onOrAfter_earlier (w w' : Z) (s : string) :
  w <= w' -> onOrAfter w' s = true -> onOrAfter w s = true.
Proof.
  unfold onOrAfter. intros Hw. destruct (JSDate.parse s) as [t|]; [|discriminate].
  intros H%Z.leb_le. apply Z.leb_le. lia.
Qed.

(** X16: a window that starts later holds fewer entries.  Whatever two
    starts of the window the clock gives, the second not before the first,
    the entries on or after the second are the entries on or after the
    first, filtered again, and the counts taken over them (entries with a
    symptom, medication rows, ticked rows) are not larger.  With a fixed
    offset from UTC the start of the week never moves back, so as time
    passes entries leave the week of the dashboard and none comes back;
    across a daylight-saving change the start can move back, and only the
    first part applies. *)
Theorem week_only_loses_entries :
  (forall (weekAgo weekAgo' : Z) (js : list JournalEntry.t) (ms : list MoodEntry.t),
      weekAgo <= weekAgo' ->
      List.filter (fun e => onOrAfter weekAgo' (MoodEntry.timestamp e)) ms
      = List.filter (fun e => onOrAfter weekAgo' (MoodEntry.timestamp e))
          (List.filter (fun e => onOrAfter weekAgo (MoodEntry.timestamp e)) ms) /\
      List.filter (fun e => onOrAfter weekAgo' (JournalEntry.date e)) js
      = List.filter (fun e => onOrAfter weekAgo' (JournalEntry.date e))
          (List.filter (fun e => onOrAfter weekAgo (JournalEntry.date e)) js) /\
      (length (List.filter hasSymptoms
                 (List.filter (fun e => onOrAfter weekAgo' (MoodEntry.timestamp e)) ms))
       <= length (List.filter hasSymptoms
                    (List.filter (fun e => onOrAfter weekAgo (MoodEntry.timestamp e)) ms)))%nat /\
      (sumMeds (@length Medication)
               (List.filter (fun e => onOrAfter weekAgo' (JournalEntry.date e)) js)
       <= sumMeds (@length Medication)
                  (List.filter (fun e => onOrAfter weekAgo (JournalEntry.date e)) js))%nat /\
      (sumMeds countTaken
               (List.filter (fun e => onOrAfter weekAgo' (JournalEntry.date e)) js)
       <= sumMeds countTaken
                  (List.filter (fun e => onOrAfter weekAgo (JournalEntry.date e)) js))%nat) /\
  (forall (now now' : Z) (js : list JournalEntry.t) (ms : list MoodEntry.t)
          (v v' : DashboardView),
      now <= now' ->
      Dashboard now js ms = Some v ->
      Dashboard now' js ms = Some v' ->
      weekAgo_of now <= weekAgo_of now' /\
      recentMoodEntries v' = List.filter (inWindowM now') (recentMoodEntries v) /\
      recentJournalEntries v' = List.filter (inWindowJ now') (recentJournalEntries v) /\
      (psychoticSymptomDays v' <= psychoticSymptomDays v)%nat /\
      (totalMeds v' <= totalMeds v)%nat /\
      (takenMeds v' <= takenMeds v)%nat).
Proof.
  assert (Hgen : forall (weekAgo weekAgo' : Z) (js : list JournalEntry.t)
                        (ms : list MoodEntry.t),
    weekAgo <= weekAgo' ->
    List.filter (fun e => onOrAfter weekAgo' (MoodEntry.timestamp e)) ms
    = List.filter (fun e => onOrAfter weekAgo' (MoodEntry.timestamp e))
        (List.filter (fun e => onOrAfter weekAgo (MoodEntry.timestamp e)) ms) /\
    List.filter (fun e => onOrAfter weekAgo' (JournalEntry.date e)) js
    = List.filter (fun e => onOrAfter weekAgo' (JournalEntry.date e))
        (List.filter (fun e => onOrAfter weekAgo (JournalEntry.date e)) js) /\
    (length (List.filter hasSymptoms
               (List.filter (fun e => onOrAfter weekAgo' (MoodEntry.timestamp e)) ms))
     <= length (List.filter hasSymptoms
                  (List.filter (fun e => onOrAfter weekAgo (MoodEntry.timestamp e)) ms)))%nat /\
    (sumMeds (@length Medication)
             (List.filter (fun e => onOrAfter weekAgo' (JournalEntry.date e)) js)
     <= sumMeds (@length Medication)
                (List.filter (fun e => onOrAfter weekAgo (JournalEntry.date e)) js))%nat /\
    (sumMeds countTaken
             (List.filter (fun e => onOrAfter weekAgo' (JournalEntry.date e)) js)
     <= sumMeds countTaken
                (List.filter (fun e => onOrAfter weekAgo (JournalEntry.date e)) js))%nat).
  { intros w w' js ms Hle.
    assert (HM : List.filter (fun e => onOrAfter w' (MoodEntry.timestamp e)) ms
                 = List.filter (fun e => onOrAfter w' (MoodEntry.timestamp e))
                     (List.filter (fun e => onOrAfter w (MoodEntry.timestamp e)) ms)).
    { apply filter_narrower. intros x. now apply onOrAfter_earlier. }
    assert (HJ : List.filter (fun e => onOrAfter w' (JournalEntry.date e)) js
                 = List.filter (fun e => onOrAfter w' (JournalEntry.date e))
                     (List.filter (fun e => onOrAfter w (JournalEntry.date e)) js)).
    { apply filter_narrower. intros x. now apply onOrAfter_earlier. }
    split; [exact HM|]. split; [exact HJ|]. split; [|split].
    - rewrite HM, filter_comm. apply List.filter_length_le.
    - rewrite HJ. unfold sumMeds. apply sumMeds_from_filter_le. lia.
    - rewrite HJ. unfold sumMeds. apply sumMeds_from_filter_le. lia. }
  split; [exact Hgen|].
  intros now now' js ms v v' Hle Hv Hv'.
  destruct (Dashboard_Some now js ms v Hv)
    as (Hj & Hm & _ & _ & _ & _ & _ & _ & Ht & Htk & _ & Hp & _).
  destruct (Dashboard_Some now' js ms v' Hv')
    as (Hj' & Hm' & _ & _ & _ & _ & _ & _ & Ht' & Htk' & _ & Hp' & _).
  assert (Hw : weekAgo_of now <= weekAgo_of now') by (unfold weekAgo_of; lia).
  destruct (Hgen (weekAgo_of now) (weekAgo_of now') js ms Hw) as (HM & HJ & H1 & H2 & H3).
  split; [exact Hw|].
  rewrite Hp', Hp, Ht', Ht, Htk', Htk, Hm', Hm, Hj', Hj.
  split; [exact HM|]. split; [exact HJ|]. split; [exact H1|]. split; [exact H2|exact H3].
Qed.

Lemma week_only_loses_entries_witness :
  exists v v',
    Dashboard noonMarch7 marchWeek [] = Some v /\
    Dashboard noonMarch9 marchWeek [] = Some v' /\
    recentJournalEntries v' = List.filter (inWindowJ noonMarch9) (recentJournalEntries v) /\
    length (recentJournalEntries v) = 7%nat /\
    length (recentJournalEntries v') = 5%nat.
Proof.
  eexists. eexists. split; [vm_compute; reflexivity|]. split; [vm_compute; reflexivity|].
  split; [|split; vm_compute; reflexivity].
  refine (proj1 (proj2 (proj2 (proj2 week_only_loses_entries noonMarch7 noonMarch9
                                 marchWeek [] _ _ _ eq_refl eq_refl)))).
  vm_compute. discriminate.
Defined.

(** ** Today and the week *)

Lemma filter_throwing_Some {A : Type} (p : A -> option bool) (l r : list A) :
  filter_throwing p l = Some r ->
  forall x, x ∈ r -> x ∈ l /\ p x = Some true.
Proof.
  revert r. induction l as [|y l IH]; intros r; simpl.
  - intros [= <-] x Hx. now apply elem_of_nil in Hx.
  - destruct (p y) as [b|] eqn:Hb; [|discriminate]. simpl.
    destruct (filter_throwing p l) as [r'|]; [|discriminate]. simpl.
    intros [= <-] x Hx. destruct b.
    + apply elem_of_cons in Hx as [->|Hx].
      * split; [left|exact Hb].
      * destruct (IH r' eq_refl x Hx). split; [now right|assumption].
    + destruct (IH r' eq_refl x Hx). split; [now right|assumption].
Qed.

Lemma same_day_in_week (now t : Z) :
  t / JSDate.msPerDay = now / JSDate.msPerDay -> weekAgo_of now <= t.
Proof.
  unfold weekAgo_of, JSDate.msPerDay. intros H. Z.div_mod_to_equations. lia.
Qed.

Lemma toISODate_same_day (now t : Z) :
  -719528 * JSDate.msPerDay <= now < 2932897 * JSDate.msPerDay ->
  -719528 * JSDate.msPerDay <= t < 2932897 * JSDate.msPerDay ->
  JSDate.toISODate t = JSDate.toISODate now ->
  t / JSDate.msPerDay = now / JSDate.msPerDay.
Proof.
  intros Hn Ht E.
  pose proof (JSDateFacts.parse_toISODate t Ht) as P1.
  pose proof (JSDateFacts.parse_toISODate now Hn) as P2.
  rewrite E, P2 in P1. injection P1 as P1.
  unfold JSDate.msPerDay in *. lia.
Qed.

Lemma today_filter_true (m : MoodEntry.t) (today : string) :
  (entryDate ← dateKey m; Some (str_eqb entryDate today)) = Some true ->
  exists t, JSDate.parse (MoodEntry.timestamp m) = Some t /\ JSDate.toISODate t = today.
Proof.
  unfold dateKey, JSDate.isoDateOf.
  destruct (JSDate.parse (MoodEntry.timestamp m)) as [t|]; [|discriminate].
  cbn [mbind option_bind]. intros H. apply (inj Some) in H. apply str_eqb_eq in H.
  exists t. now split.
Qed.

(** X17: for a clock within the years 0000 to 9999, what the dashboard shows
    for today is part of what it averages for the week: every mood entry
    of today and the journal entry of today lie in the 7-day window. *)
Theorem today_lies_in_the_week
    (now : Z) (js : list JournalEntry.t) (ms : list MoodEntry.t) (v : DashboardView) :
  -719528 * JSDate.msPerDay <= now < 2932897 * JSDate.msPerDay ->
  Dashboard now js ms = Some v ->
  (forall m, m ∈ todayMoodEntries v -> m ∈ recentMoodEntries v) /\
  (forall j, todayJournal v = Some j -> j ∈ recentJournalEntries v).
Proof.
  intros Hnow Hv. unfold Dashboard in Hv.
  destruct (filter_throwing _ ms) as [tm|] eqn:Htm; simpl in Hv; [|discriminate].
  injection Hv as <-. cbn [todayMoodEntries recentMoodEntries todayJournal recentJournalEntries].
  split.
  - intros m Hm. destruct (filter_throwing_Some _ _ _ Htm m Hm) as [Hin Hp].
    apply list_elem_of_In, filter_In. split; [now apply list_elem_of_In|].
    apply today_filter_true in Hp as (t & Ht & Hp).
    unfold inWindowM, onOrAfter. rewrite Ht.
    apply Z.leb_le, same_day_in_week.
    apply toISODate_same_day; [exact Hnow| |exact Hp].
    eapply JSDateFacts.parse_range, Ht.
  - intros j [Hin Hd]%find_some. apply str_eqb_eq in Hd.
    apply list_elem_of_In, filter_In. split; [exact Hin|].
    unfold inWindowJ, onOrAfter. rewrite Hd, (JSDateFacts.parse_toISODate now Hnow).
    apply Z.leb_le. unfold weekAgo_of, JSDate.msPerDay. Z.div_mod_to_equations. lia.
Qed.

Lemma today_lies_in_the_week_witness :
  exists v, Dashboard noonMarch7 marchWeek [] = Some v /\
    forall j, todayJournal v = Some j -> j ∈ recentJournalEntries v.
Proof.
  eexists. split; [vm_compute; reflexivity|].
  refine (proj2 (today_lies_in_the_week noonMarch7 marchWeek [] _ _ eq_refl)).
  vm_compute. split; [discriminate|reflexivity].
Defined.

(** * Further properties of the analytics view *)

(** ** The journal as a render leaves it *)

Section SortedInput.
Context {A : Type} (cmp : A -> A -> Z).

Lemma Array_sort_sorted (l : list A) :
  StronglySorted (fun a b => cmp a b <= 0) l -> Array_sort cmp l = l.
Proof.
  induction 1 as [|x l Hs IH Hx]; [reflexivity|].
  simpl. rewrite IH. destruct l as [|y l]; [reflexivity|].
  simpl. apply Forall_cons in Hx as [Hxy _].
  now replace (cmp x y <=? 0) with true by (symmetry; now apply Z.leb_le).
Qed.

(** The sort is stable: elements that compare equal to each other keep
    their order. *)
Lemma insert_sorted_filter (p : A -> bool) (x : A) (l : list A) :
  (forall y, p x = true -> p y = true -> cmp x y <= 0) ->
  List.filter p (insert_sorted cmp x l) = List.filter p (x :: l).
Proof.
  intros Hp. induction l as [|y l IH]; [reflexivity|].
  simpl. destruct (cmp x y <=? 0) eqn:Hc; [reflexivity|].
  apply Z.leb_gt in Hc. simpl. simpl in IH. rewrite IH.
  destruct (p x) eqn:Hx, (p y) eqn:Hy; try reflexivity.
  specialize (Hp y eq_refl Hy). lia.
Qed.

Lemma Array_sort_filter (p : A -> bool) (l : list A) :
  (forall x y, p x = true -> p y = true -> cmp x y <= 0) ->
  List.filter p (Array_sort cmp l) = List.filter p l.
Proof.
  intros Hp. induction l as [|x l IH]; [reflexivity|].
  simpl Array_sort. rewrite insert_sorted_filter; [|now apply Hp].
  simpl. now rewrite IH.
Qed.

End SortedInput.

Lemma StronglySorted_impl_on {A : Type} (R S : A -> A -> Prop) (ok : A -> Prop) (l : list A) :
  (forall x y, ok x -> ok y -> R x y -> S x y) ->
  Forall ok l -> StronglySorted R l -> StronglySorted S l.
Proof.
  intros HRS Hok Hs. induction Hs as [|x l Hs IH Hx]; [constructor|].
  apply Forall_cons in Hok as [Hokx Hok].
  constructor; [now apply IH|].
  rewrite Forall_forall in Hx, Hok |- *. intros y Hy.
  apply HRS; [exact Hokx|now apply Hok|now apply Hx].
Qed.

Lemma Analytics_journal (js : list JournalEntry.t) (ms : list MoodEntry.t)
    (v : AnalyticsView) (js' : list JournalEntry.t) :
  Analytics js ms = Some (v, js') -> js' = Array_sort byDate js.
Proof.
  unfold Analytics. destruct (moodByDate ms); simpl; [|discriminate].
  now intros [= _ <-].
Qed.

Lemma Analytics_same_journal (js1 js2 : list JournalEntry.t) (ms : list MoodEntry.t) :
  Array_sort byDate js1 = Array_sort byDate js2 ->
  Analytics js1 ms = Analytics js2 ms.
Proof.
  unfold Analytics, byDate. intros E. destruct (moodByDate ms); simpl; [|reflexivity].
  now rewrite E.
Qed.

(** X18: a render of the analytics view sorts the journal of the caller in
    place.  For a journal of valid dates the array it leaves holds the same
    entries, ascending by date, the entries of one date in the order they
    had; a second render finds the array sorted, leaves it as it is and
    shows the same view. *)
Theorem analytics_sorts_journal_in_place
    (js : list JournalEntry.t) (ms : list MoodEntry.t)
    (v : AnalyticsView) (js' : list JournalEntry.t) :
  Forall (fun j => is_Some (JSDate.parse (JournalEntry.date j))) js ->
  Analytics js ms = Some (v, js') ->
  js' ≡ₚ js /\
  StronglySorted
    (fun a b => timeOf (JournalEntry.date a) <= timeOf (JournalEntry.date b)) js' /\
  (forall d, List.filter (fun j => str_eqb (JournalEntry.date j) d) js'
             = List.filter (fun j => str_eqb (JournalEntry.date j) d) js) /\
  Analytics js' ms = Some (v, js').
Proof.
  intros Hok Hrun. pose proof (Analytics_journal js ms v js' Hrun) as ->.
  assert (Hkey : forall x y : JournalEntry.t,
             is_Some (JSDate.parse (JournalEntry.date x)) ->
             is_Some (JSDate.parse (JournalEntry.date y)) ->
             byDate x y = timeOf (JournalEntry.date x) - timeOf (JournalEntry.date y)).
  { intros x y Hx Hy. now apply compareDates_timeOf. }
  pose proof (Array_sort_Permutation byDate js) as Hperm.
  pose proof (Array_sort_StronglySorted byDate (fun j => timeOf (JournalEntry.date j))
                (fun j => is_Some (JSDate.parse (JournalEntry.date j))) Hkey js Hok) as Hs.
  split; [exact Hperm|]. split; [exact Hs|]. split.
  - intros d. apply Array_sort_filter. intros x y Hx%str_eqb_eq Hy%str_eqb_eq.
    unfold byDate, compareDates. rewrite Hx, Hy.
    destruct (JSDate.parse d); lia.
  - rewrite <- Hrun. apply Analytics_same_journal. apply Array_sort_sorted.
    eapply StronglySorted_impl_on; [| |exact Hs].
    + intros x y Hx Hy Hle. cbv beta in Hle. rewrite (Hkey x y Hx Hy). lia.
    + now rewrite Hperm.
Qed.

Lemma analytics_sorts_journal_in_place_witness :
  exists v js', Analytics elevenEntries [] = Some (v, js') /\
    Analytics js' [] = Some (v, js').
Proof.
  eexists. eexists. split; [vm_compute; reflexivity|].
  refine (proj2 (proj2 (proj2
            (analytics_sorts_journal_in_place elevenEntries [] _ _ _ eq_refl)))).
  repeat constructor; vm_compute; eauto.
Defined.

(** ** Groups of mood entries *)

Lemma concat_pushTo (d : string) (e : MoodEntry.t) (acc : DateGroups) :
  concat (map snd (pushTo d e acc)) ≡ₚ e :: concat (map snd acc).
Proof.
  induction acc as [|[k g] acc IH]; simpl; [reflexivity|].
  destruct (str_eqb k d); simpl.
  - rewrite <- app_assoc. simpl. symmetry. apply Permutation_middle.
  - rewrite IH. symmetry. apply Permutation_middle.
Qed.

Lemma nonempty_pushTo (d : string) (e : MoodEntry.t) (acc : DateGroups) :
  Forall (fun kv => snd kv <> []) acc ->
  Forall (fun kv => snd kv <> []) (pushTo d e acc).
Proof.
  induction 1 as [|[k g] acc Hg Hacc IH]; simpl.
  - repeat constructor. discriminate.
  - destruct (str_eqb k d).
    + constructor; [|assumption]. simpl. intros [_ H]%app_eq_nil. discriminate.
    + constructor; assumption.
Qed.

Lemma moodByDate_from_partition (ms : list MoodEntry.t) (acc groups : DateGroups) :
  moodByDate_from acc ms = Some groups ->
  concat (map snd groups) ≡ₚ concat (map snd acc) ++ ms /\
  (Forall (fun kv => snd kv <> []) acc -> Forall (fun kv => snd kv <> []) groups).
Proof.
  unfold moodByDate_from. revert acc.
  induction ms as [|m ms IH]; intros acc; simpl.
  - intros [= <-]. rewrite app_nil_r. split; [reflexivity|trivial].
  - destruct (dateKey m) as [d|]; simpl.
    + intros H. destruct (IH _ H) as [Hp Hn]. split.
      * rewrite Hp, concat_pushTo. apply Permutation_middle.
      * intros Hacc. apply Hn. now apply nonempty_pushTo.
    + intros H. exfalso. clear IH. induction ms as [|m' ms IH']; simpl in H; [discriminate|].
      now apply IH'.
Qed.

Lemma sum_list_with_concat (groups : DateGroups) :
  sum_list_with (fun kv => length (snd kv)) groups = length (concat (map snd groups)).
Proof.
  induction groups as [|[k g] groups IH]; simpl; [reflexivity|].
  rewrite length_app. now rewrite IH.
Qed.

Lemma slice_last_all {A : Type} (n : nat) (l : list A) :
  (length l <= n)%nat -> slice_last n l = l.
Proof.
  intros H. unfold slice_last. now replace (length l - n)%nat with 0%nat by lia.
Qed.

Lemma slice_last_sum_le {A : Type} (f : A -> nat) (n : nat) (l : list A) :
  (sum_list_with f (slice_last n l) <= sum_list_with f l)%nat.
Proof.
  unfold slice_last. generalize (length l - n)%nat as k. intros k.
  rewrite <- (take_drop k l) at 2. rewrite sum_list_with_app. lia.
Qed.

Lemma sum_list_with_Permutation {A : Type} (f : A -> nat) (l k : list A) :
  l ≡ₚ k -> sum_list_with f l = sum_list_with f k.
Proof.
  induction 1; simpl; lia.
Qed.

(** X19: the groups by date hold every mood entry once: no group is empty,
    and the groups together are the mood entries, so the sizes of the
    groups add up to the number of mood entries.  The rows of the mood
    trend chart each stand for at least one entry; their counts add up to
    at most the number of mood entries, and to exactly that number when
    there are no more than thirty dates. *)
Theorem mood_groups_partition
    (js : list JournalEntry.t) (ms : list MoodEntry.t)
    (v : AnalyticsView) (js' : list JournalEntry.t) :
  Analytics js ms = Some (v, js') ->
  concat (map snd (an_moodByDate v)) ≡ₚ ms /\
  Forall (fun kv => snd kv <> []) (an_moodByDate v) /\
  Forall (fun row => (1 <= mt_count row)%nat) (an_moodTrendData v) /\
  (sum_list_with mt_count (an_moodTrendData v) <= length ms)%nat /\
  ((length (an_moodByDate v) <= 30)%nat ->
   sum_list_with mt_count (an_moodTrendData v) = length ms).
Proof.
  unfold Analytics. destruct (moodByDate ms) as [groups|] eqn:Hg; simpl; [|discriminate].
  intros [= <- _]. cbn [an_moodByDate an_moodTrendData].
  destruct (moodByDate_from_partition ms [] groups Hg) as [Hp Hn].
  specialize (Hn (Forall_nil_2 _)). simpl in Hp.
  set (cmp := fun a b : string * list MoodEntry.t => compareDates (fst a) (fst b)).
  pose proof (Array_sort_Permutation cmp groups) as Hsort.
  assert (Hcount : forall l : DateGroups,
             sum_list_with mt_count (map moodTrendRow l)
             = sum_list_with (fun kv => length (snd kv)) l).
  { induction l as [|[k g] l IH]; simpl; [reflexivity|]. now rewrite IH. }
  assert (Htotal : sum_list_with (fun kv => length (snd kv)) (Array_sort cmp groups)
                   = length ms).
  { rewrite (sum_list_with_Permutation _ _ _ Hsort), sum_list_with_concat.
    now apply Permutation_length. }
  split; [exact Hp|]. split; [exact Hn|]. unfold moodTrendData. fold cmp. split; [|split].
  - apply Forall_forall. intros row Hrow.
    apply list_elem_of_In, in_map_iff in Hrow as ([k g] & <- & Hin). simpl.
    assert (Hin' : (k, g) ∈ groups).
    { rewrite <- Hsort. apply list_elem_of_In in Hin. unfold slice_last in Hin.
      exact (subseteq_drop _ _ _ Hin). }
    rewrite Forall_forall in Hn. specialize (Hn _ Hin'). simpl in Hn.
    destruct g; [contradiction|simpl; lia].
  - rewrite Hcount, <- Htotal. apply slice_last_sum_le.
  - intros Hlen. rewrite Hcount, slice_last_all; [exact Htotal|].
    now rewrite (Permutation_length Hsort).
Qed.

Lemma mood_groups_partition_witness :
  exists v js',
    Analytics [] [newYearMorning; secondOfJanuary; newYearEvening] = Some (v, js') /\
    sum_list_with mt_count (an_moodTrendData v) = 3%nat.
Proof.
  eexists. eexists. split; [vm_compute; reflexivity|].
  refine (proj2 (proj2 (proj2 (proj2
            (mood_groups_partition [] [newYearMorning; secondOfJanuary; newYearEvening]
               _ _ eq_refl)))) _).
  vm_compute. lia.
Defined.

(** ** The medication chart *)

Lemma Math_round_between (x : Q) (lo hi : Z) :
  (inject_Z lo <= x)%Q -> (x <= inject_Z hi)%Q -> lo <= Math_round x <= hi.
Proof.
  intros Hlo Hhi. unfold Math_round. split.
  - rewrite <- (Qfloor_Z lo). apply Qfloor_resp_le.
    eapply Qle_trans; [exact Hlo|].
    rewrite <- (Qplus_0_r x) at 1. apply Qplus_le_compat; [apply Qle_refl|discriminate].
  - assert (H : Qfloor (x + (1 # 2)) < hi + 1); [|lia].
    rewrite Zlt_Qlt. eapply Qle_lt_trans; [apply Qfloor_le|].
    eapply Qle_lt_trans; [apply Qplus_le_compat; [exact Hhi|apply Qle_refl]|].
    rewrite inject_Z_plus. apply Qplus_lt_r. reflexivity.
Qed.

(** X20: every row of the medication chart shows a whole percentage between
    0 and 100: it is 0 for an entry without medication rows and 100 for an
    entry with rows that are all ticked. *)
Theorem medication_chart_percentages
    (js : list JournalEntry.t) (ms : list MoodEntry.t)
    (v : AnalyticsView) (js' : list JournalEntry.t) :
  Analytics js ms = Some (v, js') ->
  Forall (fun row => 0 <= md_adherence row <= 100) (an_medicationData v) /\
  (forall entry, JournalEntry.medications entry = [] ->
                 md_adherence (medicationRow entry) = 0) /\
  (forall entry, JournalEntry.medications entry <> [] ->
                 Forall (fun med => taken med = true) (JournalEntry.medications entry) ->
                 md_adherence (medicationRow entry) = 100).
Proof.
  intros Hrun. split; [|split].
  - unfold Analytics in Hrun. destruct (moodByDate ms); simpl in Hrun; [|discriminate].
    injection Hrun as <- _. cbn [an_medicationData].
    apply Forall_forall. intros row Hrow.
    apply list_elem_of_In, in_map_iff in Hrow as (entry & <- & _).
    unfold medicationRow. cbn [md_adherence].
    destruct (adherenceOf_bounds (countTaken (JournalEntry.medications entry))
                (length (JournalEntry.medications entry)) (countTaken_le _)) as [H0 H100].
    now apply Math_round_between.
  - intros entry E. unfold medicationRow. cbn [md_adherence]. now rewrite E.
  - intros entry Hne Hall. unfold medicationRow. cbn [md_adherence].
    unfold countTaken. rewrite (filter_all taken _ Hall).
    assert (Hpos : (0 < length (JournalEntry.medications entry))%nat).
    { destruct (JournalEntry.medications entry); [contradiction|simpl; lia]. }
    assert (E : (adherenceOf (length (JournalEntry.medications entry))
                             (length (JournalEntry.medications entry)) == 100)%Q).
    { apply Qle_antisym.
      - now apply adherenceOf_bounds.
      - apply (adherenceOf_ge _ _ 100 Hpos). lia. }
    unfold Math_round. rewrite E. reflexivity.
Qed.

Lemma medication_chart_percentages_witness :
  md_adherence (medicationRow (journalOn "c1" "2024-03-06" 8
                                 [mkMedication "Obat Pagi" true "08:00"])) = 100.
Proof.
  refine (proj2 (proj2 (medication_chart_percentages calmJournal calmMood _ _ eq_refl)) _ _ _).
  - discriminate.
  - repeat constructor.
Defined.

(** * Calendar dates as strings *)

Module CivilFacts.
Import JSDate JSDateFacts.
#[local] Open Scope Z_scope.

Lemma DayFromYear_succ (y : Z) :
  DayFromYear (y + 1) = DayFromYear y + 365 + (if InLeapYear y then 1 else 0).
Proof.
  destruct (InLeapYear y) eqn:Hl;
    [apply InLeapYear_true in Hl|apply InLeapYear_false in Hl];
    unfold DayFromYear; Z.div_mod_to_equations; lia.
Qed.

Lemma DayFromYear_mono (y y' : Z) : y <= y' -> DayFromYear y <= DayFromYear y'.
Proof. intros H. unfold DayFromYear. Z.div_mod_to_equations. lia. Qed.

Lemma MakeDay_in_year (y m d : Z) :
  valid_date y m d = true -> DayFromYear y <= MakeDay y m d < DayFromYear (y + 1).
Proof.
  intros Hv. pose proof (day_offset_range y m d Hv) as Ho.
  rewrite DayFromYear_succ. unfold MakeDay. destruct (InLeapYear y); lia.
Qed.

Lemma MakeDay_inj (y m d y' m' d' : Z) :
  valid_date y m d = true -> valid_date y' m' d' = true ->
  MakeDay y m d = MakeDay y' m' d' -> y = y' /\ m = m' /\ d = d'.
Proof.
  intros Hv Hv' E.
  pose proof (MakeDay_in_year y m d Hv) as Hy.
  pose proof (MakeDay_in_year y' m' d' Hv') as Hy'.
  assert (y = y') as <-.
  { destruct (Z.lt_trichotomy y y') as [Hlt|[Heq|Hgt]]; [|exact Heq|].
    - pose proof (DayFromYear_mono (y + 1) y' ltac:(lia)). lia.
    - pose proof (DayFromYear_mono (y' + 1) y ltac:(lia)). lia. }
  split; [reflexivity|].
  apply valid_date_bounds in Hv as [Hm Hd], Hv' as [Hm' Hd'].
  unfold MakeDay in E.
  pose proof (DaysBeforeMonth_values y) as Hb.
  pose proof (DaysInMonth_values y) as Hi. cbv zeta in Hb.
  assert (Hc : m = 1 \/ m = 2 \/ m = 3 \/ m = 4 \/ m = 5 \/ m = 6 \/ m = 7 \/
               m = 8 \/ m = 9 \/ m = 10 \/ m = 11 \/ m = 12) by lia.
  assert (Hc' : m' = 1 \/ m' = 2 \/ m' = 3 \/ m' = 4 \/ m' = 5 \/ m' = 6 \/ m' = 7 \/
                m' = 8 \/ m' = 9 \/ m' = 10 \/ m' = 11 \/ m' = 12) by lia.
  destruct (InLeapYear y);
    repeat (destruct Hc as [->|Hc]); subst;
    repeat (destruct Hc' as [->|Hc']); subst; lia.
Qed.

(** [civil_of_day] is the inverse of [MakeDay] on calendar dates. *)
Lemma civil_of_MakeDay (y m d : Z) :
  valid_date y m d = true -> civil_of_day (MakeDay y m d) = (y, m, d).
Proof.
  intros Hv.
  destruct (civil_of_day_correct (MakeDay y m d)) as (y' & m' & d' & Hc & Hv' & E).
  destruct (MakeDay_inj y' m' d' y m d Hv' Hv E) as (-> & -> & ->). exact Hc.
Qed.

End CivilFacts.

(** * The calendar *)

Module CalendarFacts.
Import JSDate JSDateFacts CivilFacts Calendar.
#[local] Open Scope Z_scope.

Lemma localDay_midnight (tz X : Z) : localDay tz (X * msPerDay - tz) = X.
Proof.
  unfold localDay. replace (X * msPerDay - tz + tz) with (X * msPerDay) by lia.
  apply Z.div_mul. discriminate.
Qed.

Lemma plain_year (y : Z) :
  ~ (0 <= y <= 99) -> (if (0 <=? y) && (y <=? 99) then 1900 + y else y) = y.
Proof.
  intros Hy. destruct ((0 <=? y) && (y <=? 99)) eqn:E; [|reflexivity].
  apply andb_prop in E as [H1%Z.leb_le H2%Z.leb_le]. lia.
Qed.

(** A day of the month shown: the month index is in range and the year is
    taken as it is. *)
Lemma newDate_in_month (tz y m day : Z) :
  ~ (0 <= y <= 99) -> 1 <= m <= 12 ->
  newDate tz y (m - 1) day = MakeDay y m day * msPerDay - tz.
Proof.
  intros Hy Hm. unfold newDate. rewrite (plain_year y Hy).
  rewrite Z.div_small, Z.mod_small by lia. do 3 f_equal; lia.
Qed.

(** Day 0 of the next month is the last day of the month. *)
Lemma newDate_last_day (tz y m : Z) :
  ~ (0 <= y <= 99) -> 1 <= m <= 12 ->
  newDate tz y m 0 = MakeDay y m (DaysInMonth y m) * msPerDay - tz.
Proof.
  intros Hy Hm. unfold newDate. rewrite (plain_year y Hy). do 2 f_equal.
  pose proof (DaysBeforeMonth_values y) as Hb. pose proof (DaysInMonth_values y) as Hi.
  pose proof (DaysBeforeMonth_values (y + 1)) as Hb'. cbv zeta in Hb, Hb'.
  pose proof (DayFromYear_succ y) as Hs.
  assert (Hc : m = 1 \/ m = 2 \/ m = 3 \/ m = 4 \/ m = 5 \/ m = 6 \/ m = 7 \/
               m = 8 \/ m = 9 \/ m = 10 \/ m = 11 \/ m = 12) by lia.
  unfold MakeDay.
  repeat (destruct Hc as [->|Hc]); subst;
    match goal with
    | |- context [?a / 12] =>
        let q := eval vm_compute in (a / 12) in
        let r := eval vm_compute in (a mod 12 + 1) in
        change (a / 12) with q; change (a mod 12 + 1) with r
    end; rewrite ?Z.add_0_r; destruct (InLeapYear y); lia.
Qed.

Lemma DaysInMonth_pos (y m : Z) : 28 <= DaysInMonth y m <= 31.
Proof.
  unfold DaysInMonth.
  repeat match goal with |- context [if ?b then _ else _] => destruct b end; lia.
Qed.

Lemma MakeDay_shift (y m day : Z) : MakeDay y m day = MakeDay y m 1 + (day - 1).
Proof. unfold MakeDay. lia. Qed.

Lemma civil_fields (tz t : Z) :
  exists d0,
    civil_of_day (localDay tz t) = (getFullYear tz t, getMonth tz t + 1, d0) /\
    1 <= getMonth tz t + 1 <= 12.
Proof.
  unfold getFullYear, getMonth.
  destruct (civil_of_day_correct (localDay tz t)) as (y & m & d0 & Hc & Hv & _).
  rewrite Hc. exists d0. split; [f_equal; f_equal; lia|].
  apply valid_date_bounds in Hv. lia.
Qed.

Lemma cell_fields (tz y m day : Z) :
  valid_date y m day = true ->
  getFullYear tz (MakeDay y m day * msPerDay - tz) = y /\
  getMonth tz (MakeDay y m day * msPerDay - tz) = m - 1 /\
  getDate tz (MakeDay y m day * msPerDay - tz) = day /\
  getDay tz (MakeDay y m day * msPerDay - tz) = (MakeDay y m 1 + 4 + (day - 1)) mod 7.
Proof.
  intros Hv. unfold getFullYear, getMonth, getDate, getDay.
  rewrite localDay_midnight, (civil_of_MakeDay y m day Hv).
  repeat split. rewrite (MakeDay_shift y m day). f_equal. lia.
Qed.

Lemma grid_equation (tz t : Z) :
  ~ (0 <= getFullYear tz t <= 99) ->
  getDaysInMonth tz t =
  replicate (Z.to_nat ((MakeDay (getFullYear tz t) (getMonth tz t + 1) 1 + 4) mod 7)) None ++
  map (fun day => Some (MakeDay (getFullYear tz t) (getMonth tz t + 1) day * msPerDay - tz))
      (seqZ 1 (DaysInMonth (getFullYear tz t) (getMonth tz t + 1))).
Proof.
  intros Hy. destruct (civil_fields tz t) as (d0 & _ & Hm).
  set (y := getFullYear tz t) in *. set (m := getMonth tz t + 1) in *.
  pose proof (DaysInMonth_pos y m) as Hdim.
  unfold getDaysInMonth, getFirstDayOfMonth, getLastDayOfMonth. fold y.
  replace (getMonth tz t) with (m - 1) by (subst m; lia).
  replace (m - 1 + 1) with m by lia.
  rewrite (newDate_last_day tz y m Hy Hm), (newDate_in_month tz y m 1 Hy Hm).
  assert (Hv1 : valid_date y m 1 = true) by (apply valid_date_true; lia).
  assert (Hvl : valid_date y m (DaysInMonth y m) = true) by (apply valid_date_true; lia).
  destruct (cell_fields tz y m 1 Hv1) as (_ & _ & _ & ->).
  destruct (cell_fields tz y m _ Hvl) as (_ & _ & -> & _).
  rewrite Z.add_0_r. f_equal. apply map_ext. intros day.
  now rewrite (newDate_in_month tz y m day Hy Hm).
Qed.

End CalendarFacts.

(** X21: the grid of the calendar, for a month of a year outside 0 to 99.
    It starts with fewer than seven empty cells, as many as the weekday
    number of the first of the month, followed by one cell for each day of
    the month; the cell at index [i] after the padding is the day
    [i - padding + 1] of the month shown, and it falls in the column of its
    weekday: its weekday number is [i mod 7]. *)
Theorem calendar_grid_layout (tz currentDate : Z) :
  ~ (0 <= Calendar.getFullYear tz currentDate <= 99) ->
  exists padding : nat,
    (padding < 7)%nat /\
    length (Calendar.getDaysInMonth tz currentDate)
    = (padding + Z.to_nat (JSDate.DaysInMonth (Calendar.getFullYear tz currentDate)
                                              (Calendar.getMonth tz currentDate + 1)))%nat /\
    (forall i, (i < padding)%nat ->
               Calendar.getDaysInMonth tz currentDate !! i = Some None) /\
    (forall i, (padding <= i < length (Calendar.getDaysInMonth tz currentDate))%nat ->
       exists date,
         Calendar.getDaysInMonth tz currentDate !! i = Some (Some date) /\
         Calendar.getFullYear tz date = Calendar.getFullYear tz currentDate /\
         Calendar.getMonth tz date = Calendar.getMonth tz currentDate /\
         Calendar.getDate tz date = Z.of_nat (i - padding) + 1 /\
         Calendar.getDay tz date = Z.of_nat i mod 7).
Proof.
  intros Hy. rewrite (CalendarFacts.grid_equation tz currentDate Hy).
  destruct (CalendarFacts.civil_fields tz currentDate) as (d0 & _ & Hm).
  set (y := Calendar.getFullYear tz currentDate) in *.
  set (m := Calendar.getMonth tz currentDate + 1) in *.
  pose proof (CalendarFacts.DaysInMonth_pos y m) as Hdim.
  set (first := (JSDate.MakeDay y m 1 + 4) mod 7).
  assert (Hfirst : 0 <= first < 7) by (subst first; apply Z.mod_pos_bound; lia).
  exists (Z.to_nat first).
  assert (Hlen : length
            (replicate (Z.to_nat first) (@None Z) ++
             map (fun day => Some (JSDate.MakeDay y m day * JSDate.msPerDay - tz))
                 (seqZ 1 (JSDate.DaysInMonth y m)))
          = (Z.to_nat first + Z.to_nat (JSDate.DaysInMonth y m))%nat).
  { now rewrite length_app, length_replicate, length_map, length_seqZ. }
  split; [lia|]. split; [exact Hlen|]. split.
  - intros i Hi. rewrite lookup_app_l by (rewrite length_replicate; lia).
    now apply lookup_replicate_2.
  - rewrite Hlen. intros i Hi.
    rewrite lookup_app_r by (rewrite length_replicate; lia).
    rewrite length_replicate.
    set (k := (i - Z.to_nat first)%nat).
    exists (JSDate.MakeDay y m (1 + Z.of_nat k) * JSDate.msPerDay - tz).
    split.
    + change (map ?f ?l) with (f <$> l). rewrite list_lookup_fmap.
      rewrite lookup_seqZ_lt by lia. reflexivity.
    + assert (Hv : JSDate.valid_date y m (1 + Z.of_nat k) = true)
        by (apply JSDateFacts.valid_date_true; lia).
      destruct (CalendarFacts.cell_fields tz y m _ Hv) as (-> & -> & -> & ->).
      split; [reflexivity|]. split; [subst m; lia|]. split; [lia|].
      fold first. replace (Z.of_nat i) with (first + Z.of_nat k) by lia.
      subst first. Z.div_mod_to_equations. lia.
Qed.

Lemma calendar_grid_layout_witness :
  exists padding : nat,
    (padding < 7)%nat /\
    length (Calendar.getDaysInMonth wib midMarch) = (padding + 31)%nat.
Proof.
  destruct (calendar_grid_layout wib midMarch) as (padding & H7 & Hlen & _).
  - vm_compute. intros [_ H]. apply H. reflexivity.
  - exists padding. split; [exact H7|exact Hlen].
Defined.

Lemma toISODate_civil (t y m d : Z) :
  JSDate.civil_of_day (t / JSDate.msPerDay) = (y, m, d) ->
  JSDate.toISODate t = Calendar.isoDate y m d.
Proof. unfold JSDate.toISODate, Calendar.isoDate. now intros ->. Qed.

Lemma toISODate_of_day (y m d r : Z) :
  JSDate.valid_date y m d = true -> 0 <= r < JSDate.msPerDay ->
  JSDate.toISODate (JSDate.MakeDay y m d * JSDate.msPerDay + r) = Calendar.isoDate y m d.
Proof.
  intros Hv Hr. apply toISODate_civil.
  replace ((JSDate.MakeDay y m d * JSDate.msPerDay + r) / JSDate.msPerDay)
    with (JSDate.MakeDay y m d).
  - now apply CivilFacts.civil_of_MakeDay.
  - unfold JSDate.msPerDay in *. Z.div_mod_to_equations. lia.
Qed.

(** X22: the date string of a calendar cell is read in UTC while the cell is
    local midnight.  At UTC and west of it (up to a day) the cell of day
    [day] carries the date string of that day.  East of UTC (up to a day)
    it carries the date string of the day before: for a day from the 2nd on,
    the cell numbered [day] looks up the journal entry of [day - 1], and a
    click on it opens the journal on [day - 1]. *)
Theorem calendar_cell_date_string
    (tz y m day : Z) (s : AppState) (js : list JournalEntry.t) :
  ~ (0 <= y <= 99) ->
  JSDate.valid_date y m day = true ->
  Calendar.getDate tz (Calendar.newDate tz y (m - 1) day) = day /\
  (- JSDate.msPerDay < tz <= 0 ->
   JSDate.toISODate (Calendar.newDate tz y (m - 1) day) = Calendar.isoDate y m day) /\
  (0 < tz <= JSDate.msPerDay -> 2 <= day ->
   JSDate.toISODate (Calendar.newDate tz y (m - 1) day) = Calendar.isoDate y m (day - 1) /\
   selectedDate (Calendar.clickCell (Calendar.newDate tz y (m - 1) day) s)
   = Some (Calendar.isoDate y m (day - 1)) /\
   Calendar.getJournalEntryForDate (Some (Calendar.newDate tz y (m - 1) day)) js
   = List.find (fun entry => str_eqb (JournalEntry.date entry)
                                     (Calendar.isoDate y m (day - 1))) js).
Proof.
  intros Hy Hv. pose proof (JSDateFacts.valid_date_bounds y m day Hv) as [Hm Hd].
  rewrite (CalendarFacts.newDate_in_month tz y m day Hy Hm).
  split; [apply (CalendarFacts.cell_fields tz y m day Hv)|]. split.
  - intros Htz.
    replace (JSDate.MakeDay y m day * JSDate.msPerDay - tz)
      with (JSDate.MakeDay y m day * JSDate.msPerDay + - tz) by lia.
    apply toISODate_of_day; [exact Hv|lia].
  - intros Htz Hday.
    assert (E : JSDate.toISODate (JSDate.MakeDay y m day * JSDate.msPerDay - tz)
                = Calendar.isoDate y m (day - 1)).
    { replace (JSDate.MakeDay y m day * JSDate.msPerDay - tz)
        with (JSDate.MakeDay y m (day - 1) * JSDate.msPerDay + (JSDate.msPerDay - tz))
        by (unfold JSDate.MakeDay; lia).
      apply toISODate_of_day; [|lia].
      apply JSDateFacts.valid_date_true; lia. }
    unfold Calendar.clickCell, Calendar.getJournalEntryForDate, handleDateSelect.
    cbn [selectedDate]. rewrite E. repeat split.
Qed.

Lemma calendar_cell_date_string_witness :
  JSDate.toISODate (Calendar.newDate wib 2024 (3 - 1) 7) = Calendar.isoDate 2024 3 (7 - 1).
Proof.
  refine (proj1 (proj2 (proj2 (calendar_cell_date_string wib 2024 3 7 initialState []
                                 _ _)) _ _)).
  - lia.
  - reflexivity.
  - vm_compute. split; [reflexivity|discriminate].
  - lia.
Defined.

(** X23: stepping through the months.  For a year after 100, the next month
    is shown as its first day, December being followed by January of the
    next year; going to the next month and back, or back and forth, shows
    the first day of the month one started from. *)
Theorem calendar_month_navigation (tz currentDate : Z) :
  100 < Calendar.getFullYear tz currentDate ->
  Calendar.getDate tz (Calendar.goToNextMonth tz currentDate) = 1 /\
  (Calendar.getMonth tz currentDate < 11 ->
   Calendar.getMonth tz (Calendar.goToNextMonth tz currentDate)
   = Calendar.getMonth tz currentDate + 1 /\
   Calendar.getFullYear tz (Calendar.goToNextMonth tz currentDate)
   = Calendar.getFullYear tz currentDate) /\
  (Calendar.getMonth tz currentDate = 11 ->
   Calendar.getMonth tz (Calendar.goToNextMonth tz currentDate) = 0 /\
   Calendar.getFullYear tz (Calendar.goToNextMonth tz currentDate)
   = Calendar.getFullYear tz currentDate + 1) /\
  Calendar.goToPreviousMonth tz (Calendar.goToNextMonth tz currentDate)
  = Calendar.getFirstDayOfMonth tz currentDate /\
  Calendar.goToNextMonth tz (Calendar.goToPreviousMonth tz currentDate)
  = Calendar.getFirstDayOfMonth tz currentDate.
Proof.
  intros Hy. destruct (CalendarFacts.civil_fields tz currentDate) as (d0 & _ & Hm).
  set (y := Calendar.getFullYear tz currentDate) in *.
  set (m := Calendar.getMonth tz currentDate) in *.
  assert (Hnext : Calendar.goToNextMonth tz currentDate
                  = JSDate.MakeDay (if m =? 11 then y + 1 else y)
                                   (if m =? 11 then 1 else m + 2) 1 * JSDate.msPerDay - tz).
  { unfold Calendar.goToNextMonth, Calendar.newDate. fold y m.
    rewrite CalendarFacts.plain_year by lia.
    destruct (m =? 11) eqn:E; [apply Z.eqb_eq in E|apply Z.eqb_neq in E].
    - rewrite E. reflexivity.
    - rewrite Z.div_small, Z.mod_small by lia. do 3 f_equal; lia. }
  assert (Hprev : Calendar.goToPreviousMonth tz currentDate
                  = JSDate.MakeDay (if m =? 0 then y - 1 else y)
                                   (if m =? 0 then 12 else m) 1 * JSDate.msPerDay - tz).
  { unfold Calendar.goToPreviousMonth, Calendar.newDate. fold y m.
    rewrite CalendarFacts.plain_year by lia.
    destruct (m =? 0) eqn:E; [apply Z.eqb_eq in E|apply Z.eqb_neq in E].
    - rewrite E. reflexivity.
    - rewrite Z.div_small, Z.mod_small by lia. do 3 f_equal; lia. }
  assert (Hfirst : Calendar.getFirstDayOfMonth tz currentDate
                   = JSDate.MakeDay y (m + 1) 1 * JSDate.msPerDay - tz).
  { unfold Calendar.getFirstDayOfMonth. fold y m.
    rewrite <- (CalendarFacts.newDate_in_month tz y (m + 1) 1) by lia.
    f_equal. lia. }
  assert (Hvn : JSDate.valid_date (if m =? 11 then y + 1 else y)
                                  (if m =? 11 then 1 else m + 2) 1 = true).
  { apply JSDateFacts.valid_date_true.
    - destruct (m =? 11) eqn:E; [lia|apply Z.eqb_neq in E; lia].
    - pose proof (CalendarFacts.DaysInMonth_pos
                    (if m =? 11 then y + 1 else y) (if m =? 11 then 1 else m + 2)). lia. }
  assert (Hvp : JSDate.valid_date (if m =? 0 then y - 1 else y)
                                  (if m =? 0 then 12 else m) 1 = true).
  { apply JSDateFacts.valid_date_true.
    - destruct (m =? 0) eqn:E; [lia|apply Z.eqb_neq in E; lia].
    - pose proof (CalendarFacts.DaysInMonth_pos
                    (if m =? 0 then y - 1 else y) (if m =? 0 then 12 else m)). lia. }
  destruct (CalendarFacts.cell_fields tz _ _ _ Hvn) as (Hny & Hnm & Hnd & _).
  destruct (CalendarFacts.cell_fields tz _ _ _ Hvp) as (Hpy & Hpm & _ & _).
  split; [now rewrite Hnext|]. split; [|split; [|split]].
  - intros Hlt. rewrite Hnext, Hnm, Hny.
    replace (m =? 11) with false by (symmetry; apply Z.eqb_neq; lia). split; lia.
  - intros E. rewrite Hnext, Hnm, Hny, E. split; reflexivity.
  - rewrite Hfirst. unfold Calendar.goToPreviousMonth.
    rewrite Hnext, Hny, Hnm. unfold Calendar.newDate.
    destruct (m =? 11) eqn:E; [apply Z.eqb_eq in E|apply Z.eqb_neq in E].
    + rewrite CalendarFacts.plain_year by lia. rewrite E.
      change ((1 - 1 - 1) / 12) with (-1). change ((1 - 1 - 1) mod 12 + 1) with 12.
      do 3 f_equal; lia.
    + rewrite CalendarFacts.plain_year by lia.
      rewrite Z.div_small, Z.mod_small by lia. do 3 f_equal; lia.
  - rewrite Hfirst. unfold Calendar.goToNextMonth.
    rewrite Hprev, Hpy, Hpm. unfold Calendar.newDate.
    destruct (m =? 0) eqn:E; [apply Z.eqb_eq in E|apply Z.eqb_neq in E].
    + rewrite CalendarFacts.plain_year by lia. rewrite E.
      change ((12 - 1 + 1) / 12) with 1. change ((12 - 1 + 1) mod 12 + 1) with 1.
      do 3 f_equal; lia.
    + rewrite CalendarFacts.plain_year by lia.
      rewrite Z.div_small, Z.mod_small by lia. do 3 f_equal; lia.
Qed.

Lemma calendar_month_navigation_witness :
  Calendar.goToPreviousMonth wib (Calendar.goToNextMonth wib midMarch)
  = Calendar.getFirstDayOfMonth wib midMarch.
Proof.
  refine (proj1 (proj2 (proj2 (proj2 (calendar_month_navigation wib midMarch _))))).
  vm_compute. reflexivity.
Defined.

(** ** The calendar and the groups of the analytics view *)

Lemma filter_throwing_filter {A : Type} (p : A -> option bool) (q : A -> bool) (l : list A) :
  Forall (fun x => p x = Some (q x)) l ->
  filter_throwing p l = Some (List.filter q l).
Proof.
  induction 1 as [|x l Hx _ IH]; simpl; [reflexivity|].
  rewrite Hx, IH. simpl. now destruct (q x).
Qed.

(** X24: a calendar cell and the analytics view file mood entries under the
    same key.  When every timestamp is a date, the mood entries a cell shows
    are the entries whose date key is the date string of the cell, in store
    order; they are the group the analytics view keeps under that string,
    and the mean mood of the cell is the mean of that group. *)
Theorem calendar_cell_shows_the_group
    (date : Z) (ms : list MoodEntry.t) (groups : DateGroups) :
  Forall (fun m => is_Some (JSDate.parse (MoodEntry.timestamp m))) ms ->
  moodByDate ms = Some groups ->
  Calendar.getMoodEntriesForDate (Some date) ms
  = Some (List.filter (hasDate (JSDate.toISODate date)) ms) /\
  (forall g, (JSDate.toISODate date, g) ∈ groups ->
     Calendar.getMoodEntriesForDate (Some date) ms = Some g /\
     Calendar.getAverageMoodForDate (Some date) ms
     = Some (Some (groupMean MoodEntry.mood g))) /\
  (JSDate.toISODate date ∉ map fst groups ->
     Calendar.getMoodEntriesForDate (Some date) ms = Some [] /\
     Calendar.getAverageMoodForDate (Some date) ms = Some None).
Proof.
  intros Hms Hg.
  destruct (moodByDate_spec ms Hms) as (groups' & Hg' & Hnd & Hkeys & Hgroup).
  rewrite Hg in Hg'. injection Hg' as <-.
  set (key := JSDate.toISODate date).
  assert (Hcell : Calendar.getMoodEntriesForDate (Some date) ms
                  = Some (List.filter (hasDate key) ms)).
  { unfold Calendar.getMoodEntriesForDate. fold key. apply filter_throwing_filter.
    eapply Forall_impl; [exact Hms|]. intros m Hm. cbv beta.
    destruct (dateKey_is_Some m Hm) as [k Hk]. rewrite Hk. cbn [mbind option_bind].
    f_equal. unfold hasDate, str_eqb. rewrite Hk.
    destruct (decide (k = key)) as [->|Hne].
    - now rewrite !bool_decide_eq_true_2.
    - rewrite !bool_decide_eq_false_2; [reflexivity|congruence|exact Hne]. }
  split; [exact Hcell|]. split.
  - intros g Hin. pose proof (Hgroup key g Hin) as ->.
    split; [exact Hcell|]. unfold Calendar.getAverageMoodForDate. rewrite Hcell.
    cbn [mbind option_bind].
    assert (Hne : List.filter (hasDate key) ms <> []).
    { destruct (proj1 (Hkeys key)) as (e & He & Hk).
      - apply list_elem_of_In, in_map_iff. exists (key, List.filter (hasDate key) ms).
        split; [reflexivity|now apply list_elem_of_In].
      - intros E. assert (Hin' : In e (List.filter (hasDate key) ms)).
        { apply filter_In. split; [now apply list_elem_of_In|].
          now apply bool_decide_eq_true. }
        now rewrite E in Hin'. }
    destruct (List.filter (hasDate key) ms); [contradiction|reflexivity].
  - intros Hnot.
    assert (E : List.filter (hasDate key) ms = []).
    { destruct (List.filter (hasDate key) ms) as [|e l] eqn:Hf; [reflexivity|].
      exfalso. apply Hnot, Hkeys. exists e.
      assert (Hin : In e (List.filter (hasDate key) ms)) by (rewrite Hf; now left).
      apply filter_In in Hin as [Hin He]. split; [now apply list_elem_of_In|].
      now apply bool_decide_eq_true in He. }
    unfold Calendar.getAverageMoodForDate. rewrite Hcell, E. split; reflexivity.
Qed.

Lemma calendar_cell_shows_the_group_witness :
  Calendar.getMoodEntriesForDate (Some 1704153600000)
    [newYearMorning; secondOfJanuary; newYearEvening]
  = Some [secondOfJanuary].
Proof.
  refine (proj1 (proj1 (proj2
            (calendar_cell_shows_the_group 1704153600000
               [newYearMorning; secondOfJanuary; newYearEvening] _ _ eq_refl))
            [secondOfJanuary] _)).
  - repeat constructor; vm_compute; eauto.
  - vm_compute. apply list_elem_of_further, list_elem_of_here.
Defined.

(** * Date keys and the text of a timestamp *)

Module StringFacts.
Import JSDate JSDateFacts.
#[local] Open Scope Z_scope.

Lemma length_chars (s : string) : length (list_ascii_of_string s) = String.length s.
Proof. induction s as [|c s IH]; simpl; [reflexivity|]. now rewrite IH. Qed.

Lemma length_append (a b : string) :
  String.length (a +:+ b) = (String.length a + String.length b)%nat.
Proof. induction a as [|c a IH]; simpl; [reflexivity|]. now rewrite IH. Qed.

Lemma length_pad (k : nat) (n : Z) : String.length (pad k n) = k.
Proof.
  revert n. induction k as [|k IH]; intros n; [reflexivity|].
  simpl pad. rewrite length_append, IH. simpl. lia.
Qed.

Lemma substring_append (a b : string) : substring 0 (String.length a) (a +:+ b) = a.
Proof.
  induction a as [|c a IH]; simpl.
  - now destruct b.
  - now rewrite IH.
Qed.

Lemma MakeTime_range (h mi s ms : Z) :
  0 <= h <= 23 -> 0 <= mi <= 59 -> 0 <= s <= 59 -> 0 <= ms <= 999 ->
  0 <= MakeTime h mi s ms < msPerDay.
Proof. unfold MakeTime, msPerDay. lia. Qed.

(** The model reads what [toISOString] writes. *)
Lemma parse_timestamp_string (y m d h mi s ms : Z) :
  0 <= y <= 9999 -> valid_date y m d = true ->
  0 <= h <= 23 -> 0 <= mi <= 59 -> 0 <= s <= 59 -> 0 <= ms <= 999 ->
  parse (isoTimestamp y m d h mi s ms)
  = Some (MakeDay y m d * msPerDay + MakeTime h mi s ms).
Proof.
  intros Hy Hv Hh Hmi Hs Hms.
  assert (Hmd : 0 <= m < 100 /\ 0 <= d < 100).
  { destruct (valid_date_bounds y m d Hv) as [Hm Hd].
    assert (DaysInMonth y m <= 31).
    { unfold DaysInMonth.
      repeat match goal with |- context [if ?b then _ else _] => destruct b end; lia. }
    lia. }
  unfold isoTimestamp, Calendar.isoDate, year_string.
  replace ((0 <=? y) && (y <=? 9999)) with true
    by (symmetry; apply andb_true_intro; split; apply Z.leb_le; lia).
  unfold parse, parse_chars. rewrite !chars_app, <- !app_assoc.
  change (list_ascii_of_string "-") with ["-"%char].
  change (list_ascii_of_string "T") with ["T"%char].
  change (list_ascii_of_string ":") with [":"%char].
  change (list_ascii_of_string ".") with ["."%char].
  change (list_ascii_of_string "Z") with ["Z"%char].
  rewrite take_num_pad. cbn [mbind option_bind].
  rewrite expect_cons. cbn [mbind option_bind].
  rewrite take_num_pad. cbn [mbind option_bind].
  rewrite expect_cons. cbn [mbind option_bind].
  rewrite take_num_pad. cbn [mbind option_bind].
  change (10 ^ Z.of_nat 4) with 10000. change (10 ^ Z.of_nat 2) with 100.
  rewrite !Z.mod_small by lia. rewrite !Z.add_0_l.
  rewrite Hv. cbn [negb].
  change (["T"%char] ++ ?r) with ("T"%char :: r). cbv iota.
  change ("T"%char :: ?r) with (["T"%char] ++ r).
  rewrite expect_cons. cbn [mbind option_bind].
  rewrite take_num_pad. cbn [mbind option_bind].
  rewrite expect_cons. cbn [mbind option_bind].
  rewrite take_num_pad. cbn [mbind option_bind].
  rewrite expect_cons. cbn [mbind option_bind].
  rewrite take_num_pad. cbn [mbind option_bind].
  rewrite expect_cons. cbn [mbind option_bind].
  rewrite take_num_pad. cbn [mbind option_bind].
  change (10 ^ Z.of_nat 2) with 100. change (10 ^ Z.of_nat 3) with 1000.
  rewrite !Z.mod_small by lia. rewrite !Z.add_0_l.
  change (expect "Z" ["Z"%char]) with (Some (@nil ascii)). cbn [mbind option_bind].
  replace (valid_time h mi s) with true; [reflexivity|].
  symmetry. unfold valid_time.
  repeat (apply andb_true_intro; split); apply Z.leb_le; lia.
Qed.

End StringFacts.

(** X25: the date an entry is filed under is the date written in it.  For
    every day of the calendar in the years 0000 to 9999 and every time of
    the day (hour 0 to 23, minute and second 0 to 59, millisecond 0 to
    999), the date string [YYYY-MM-DD] that the journal form stores and
    the timestamp [YYYY-MM-DDTHH:mm:ss.sssZ] that [toISOString] writes are
    both taken through [Date] and [toISOString] to that same date string,
    which is the first ten characters of the timestamp. *)
Theorem date_key_is_the_written_date (y m d h mi s ms : Z) :
  0 <= y <= 9999 -> JSDate.valid_date y m d = true ->
  0 <= h <= 23 -> 0 <= mi <= 59 -> 0 <= s <= 59 -> 0 <= ms <= 999 ->
  JSDate.isoDateOf (Calendar.isoDate y m d) = Some (Calendar.isoDate y m d) /\
  JSDate.isoDateOf (isoTimestamp y m d h mi s ms) = Some (Calendar.isoDate y m d) /\
  String.length (Calendar.isoDate y m d) = 10%nat /\
  substring 0 10 (isoTimestamp y m d h mi s ms) = Calendar.isoDate y m d.
Proof.
  intros Hy Hv Hh Hmi Hs Hms.
  assert (Hlen : String.length (Calendar.isoDate y m d) = 10%nat).
  { unfold Calendar.isoDate, JSDate.year_string.
    replace ((0 <=? y) && (y <=? 9999)) with true
      by (symmetry; apply andb_true_intro; split; apply Z.leb_le; lia).
    rewrite !StringFacts.length_append, !StringFacts.length_pad. reflexivity. }
  split; [|split; [|split; [exact Hlen|]]].
  - unfold JSDate.isoDateOf.
    change (JSDate.parse (Calendar.isoDate y m d))
      with (JSDate.parse (JSDate.year_string y +:+ "-" +:+ JSDate.pad 2 m +:+ "-" +:+
                          JSDate.pad 2 d)).
    rewrite (JSDateFacts.parse_date_string y m d Hy Hv). cbn [mbind option_bind].
    f_equal. rewrite <- (Z.add_0_r (JSDate.MakeDay y m d * JSDate.msPerDay)).
    apply toISODate_of_day; [exact Hv|]. unfold JSDate.msPerDay. lia.
  - unfold JSDate.isoDateOf.
    rewrite (StringFacts.parse_timestamp_string y m d h mi s ms Hy Hv Hh Hmi Hs Hms).
    cbn [mbind option_bind]. f_equal.
    apply toISODate_of_day; [exact Hv|]. now apply StringFacts.MakeTime_range.
  - rewrite <- Hlen. unfold isoTimestamp. apply StringFacts.substring_append.
Qed.

Lemma date_key_is_the_written_date_witness :
  JSDate.isoDateOf "2024-01-02T09:30:00.000Z" = Some "2024-01-02"%string.
Proof.
  refine (proj1 (proj2 (date_key_is_the_written_date 2024 1 2 9 30 0 0 _ _ _ _ _ _)));
    first [reflexivity | lia].
Defined.

(** * The chat *)

Lemma slice_last_slice_last {A : Type} (n m : nat) (l : list A) :
  (n <= m)%nat -> slice_last n (slice_last m l) = slice_last n l.
Proof.
  intros Hnm. unfold slice_last. rewrite length_drop, drop_drop. f_equal. lia.
Qed.

Lemma slice_last_suffix {A : Type} (n : nat) (l : list A) :
  exists older, l = older ++ slice_last n l.
Proof.
  unfold slice_last. exists (take (length l - n) l). now rewrite take_drop.
Qed.

(** X26: the chat never shows an empty conversation: whatever array of
    messages is loaded from storage, whatever is typed, sent, received or
    cleared, in any order, at least one message is there. *)
Theorem chat_is_never_empty (trim : string -> string) (now : string)
    (events : list Chat.Event) :
  Chat.messages (foldl (Chat.step trim) (Chat.initial now) events) <> [].
Proof.
  assert (Hgen : forall s, Chat.messages s <> [] ->
            Chat.messages (foldl (Chat.step trim) s events) <> []).
  { induction events as [|e events IH]; intros s Hs; [exact Hs|].
    simpl. apply IH. destruct e as [parsed|text|id now'|reply id now'|now']; simpl.
    - destruct parsed as [[|m l]|]; [exact Hs|discriminate|exact Hs].
    - exact Hs.
    - unfold Chat.sendMessage.
      destruct (str_eqb (trim (Chat.input s)) "" || Chat.isLoading s); simpl; [exact Hs|].
      intros [H _]%app_eq_nil. contradiction.
    - intros [_ H]%app_eq_nil. discriminate.
    - discriminate. }
  apply Hgen. discriminate.
Qed.


Lemma readItems_messages (l : list Chat.Message) :
  Chat.readItems (map Chat.MessageItem l) = Some l.
Proof. induction l as [|m l IH]; simpl; [reflexivity|]. now rewrite IH. Qed.


Lemma readHistory_messages (l : list Chat.Message) :
  Chat.readHistory (Some (map Chat.MessageItem l)) = Some (Some (slice_last 6 l)).
Proof.
  unfold Chat.readHistory. now rewrite <- slice_last_map, readItems_messages.
Qed.

(** What the client reads from the route. *)
Lemma chat_route_facts_upstream
    (geminiApiKey : option string) (gemini : string -> Chat.Upstream)
    (message : string) (history : option (list Chat.HistoryItem)) (text : string) :
  Chat.replyOf (Chat.chatRoute geminiApiKey gemini (Some (Some message, history))) = Some text ->
  exists read, Chat.readHistory history = Some read /\
    gemini (Chat.contextPrompt message read) = Chat.UpstreamText (Some text).
Proof.
  unfold Chat.chatRoute.
  destruct (str_eqb message ""); [discriminate|].
  destruct (str_eqb (default ""%string geminiApiKey) ""); [discriminate|].
  destruct (Chat.readHistory history) as [read|]; [|discriminate].
  destruct (gemini (Chat.contextPrompt message read)) as [|[t|]] eqn:Eg; try discriminate.
  destruct (str_eqb t ""); [discriminate|]. intros [= <-]. now exists read.
Qed.

Lemma chat_route_facts_nonempty
    (geminiApiKey : option string) (gemini : string -> Chat.Upstream)
    (request : option (option string * option (list Chat.HistoryItem))) (text : string) :
  Chat.replyOf (Chat.chatRoute geminiApiKey gemini request) = Some text -> text <> ""%string.
Proof.
  unfold Chat.chatRoute.
  destruct request as [[[message|] history]|]; try discriminate.
  destruct (str_eqb message ""); [discriminate|].
  destruct (str_eqb (default ""%string geminiApiKey) ""); [discriminate|].
  destruct (Chat.readHistory history) as [read|]; [|discriminate].
  destruct (gemini (Chat.contextPrompt message read)) as [|[t|]]; try discriminate.
  destruct (str_eqb t "") eqn:Et; [discriminate|]. intros [= <-] ->.
  apply not_true_iff_false in Et. apply Et. now apply str_eqb_eq.
Qed.




(** X28: one exchange, from a state with a message to send and no request
    in flight.  The conversation grows by the question and one answer, in
    that order, and the input is cleared.  The answer is never empty: it is
    the text of the upstream model or the apology.  The prompt is written
    from the last six messages of the conversation as it was before the
    question: the ten that the client sends are cut to six by the server,
    and the question itself is not among them. *)
Theorem exchange_appends_question_and_answer
    (trim : string -> string) (geminiApiKey : option string)
    (gemini : string -> Chat.Upstream) (id now id' now' : string) (s : Chat.State) :
  trim (Chat.input s) <> ""%string ->
  Chat.isLoading s = false ->
  exists answer,
    Chat.exchange trim geminiApiKey gemini id now id' now' s
    = Some {| Chat.messages :=
                Chat.messages s ++
                [Chat.mkMessage id Chat.user (trim (Chat.input s)) now;
                 Chat.mkMessage id' Chat.ai answer now'];
              Chat.input := "";
              Chat.isLoading := false |} /\
    answer <> ""%string /\
    (answer = Chat.apology \/
     gemini (Chat.contextPrompt (trim (Chat.input s)) (Some (Chat.messages s)))
     = Chat.UpstreamText (Some answer)) /\
    Chat.contextPrompt (trim (Chat.input s)) (Some (slice_last 10 (Chat.messages s)))
    = Chat.contextPrompt (trim (Chat.input s)) (Some (Chat.messages s)) /\
    Chat.historyPrompt (Some (Chat.messages s))
    = (Chat.nl +:+ "Percakapan sebelumnya:" +:+ Chat.nl +:+
       String.concat "" (map Chat.historyLine (slice_last 6 (Chat.messages s))))%string.
Proof.
  intros Htext Hload.
  assert (Hprompt :
    Chat.contextPrompt (trim (Chat.input s)) (Some (slice_last 10 (Chat.messages s)))
    = Chat.contextPrompt (trim (Chat.input s)) (Some (Chat.messages s))).
  { unfold Chat.contextPrompt, Chat.historyPrompt.
    now rewrite slice_last_slice_last by lia. }
  unfold Chat.exchange, Chat.sendMessage. rewrite Hload.
  replace (str_eqb (trim (Chat.input s)) "") with false.
  2:{ symmetry. apply not_true_iff_false. now rewrite str_eqb_eq. }
  cbn [orb Chat.message Chat.conversationHistory].
  set (response := Chat.chatRoute geminiApiKey gemini _).
  exists (default Chat.apology (Chat.replyOf response)).
  split; [|split; [|split; [|split; [exact Hprompt|reflexivity]]]].
  - unfold Chat.receive. cbn [Chat.messages Chat.input].
    now rewrite <- app_assoc.
  - destruct (Chat.replyOf response) as [text|] eqn:Hr; [|discriminate].
    exact (chat_route_facts_nonempty geminiApiKey gemini _ text Hr).
  - destruct (Chat.replyOf response) as [text|] eqn:Hr; [right|now left].
    cbn [default].
    destruct (chat_route_facts_upstream geminiApiKey gemini (trim (Chat.input s))
                (Some (map Chat.MessageItem (slice_last 10 (Chat.messages s)))) text Hr)
      as (read & Hread & Hg).
    rewrite readHistory_messages in Hread. injection Hread as <-.
    assert (E : Chat.contextPrompt (trim (Chat.input s))
                  (Some (slice_last 6 (slice_last 10 (Chat.messages s))))
                = Chat.contextPrompt (trim (Chat.input s)) (Some (Chat.messages s))).
    { unfold Chat.contextPrompt, Chat.historyPrompt.
      now rewrite !slice_last_slice_last by lia. }
    rewrite E in Hg. exact Hg.
Qed.

Lemma exchange_appends_question_and_answer_witness :
  exists answer,
    Chat.exchange noTrim (Some "key"%string)
      (fun _ => Chat.UpstreamText (Some "jawaban"%string)) "13" "t1" "14" "t2"
      (Chat.mkState twelveMessages "hai" false)
    = Some {| Chat.messages :=
                twelveMessages ++
                [Chat.mkMessage "13" Chat.user "hai" "t1";
                 Chat.mkMessage "14" Chat.ai answer "t2"];
              Chat.input := "";
              Chat.isLoading := false |}.
Proof.
  destruct (exchange_appends_question_and_answer noTrim (Some "key"%string)
              (fun _ => Chat.UpstreamText (Some "jawaban"%string)) "13" "t1" "14" "t2"
              (Chat.mkState twelveMessages "hai" false)) as (answer & H & _).
  - discriminate.
  - reflexivity.
  - exists answer. exact H.
Defined.

(** * Totals by rotation and by symptom *)

Lemma foldl_sum_shift {A : Type} (f : A -> Q) (l : list A) (a : Q) :
  (foldl (fun sum e => sum + f e) a l == a + sumBy f l)%Q.
Proof.
  unfold sumBy. revert a. induction l as [|x l IH]; intros a; simpl; [ring|].
  rewrite (IH (a + f x)%Q), (IH (0 + f x)%Q). ring.
Qed.

Lemma sumBy_cons {A : Type} (f : A -> Q) (x : A) (l : list A) :
  (sumBy f (x :: l) == f x + sumBy f l)%Q.
Proof. unfold sumBy at 1. simpl. rewrite foldl_sum_shift. ring. Qed.

Lemma orNumber_zero (x : option Q) : (orNumber x 0 == default 0 x)%Q.
Proof.
  unfold orNumber. destruct x as [v|]; simpl; [|reflexivity].
  destruct (Qeq_bool v 0) eqn:E; [|reflexivity].
  apply Qeq_bool_iff in E. now symmetry.
Qed.

Lemma addTo_Some (key : string) (amount : Q) (acc : gmap string Q) :
  key ∉ prototypeNames ->
  addTo key amount acc = Some (<[key := (orNumber (acc !! key) 0 + amount)%Q]> acc).
Proof. intros Hk. unfold addTo. now rewrite bool_decide_eq_false_2. Qed.

(** Adding up a list of keyed amounts. *)
Lemma tally_items (items : list (string * Q)) (acc : gmap string Q) :
  Forall (fun kx => fst kx ∉ prototypeNames) items ->
  exists acc',
    foldl (fun a kx => a ← a; addTo (fst kx) (snd kx) a) (Some acc) items = Some acc' /\
    (forall k, (tallied k acc' ==
                tallied k acc + sumBy snd (List.filter (fun kx => str_eqb (fst kx) k) items))%Q) /\
    (forall k, is_Some (acc' !! k) <-> is_Some (acc !! k) \/ k ∈ map fst items).
Proof.
  intros Hok. revert acc.
  induction Hok as [|[key x] items Hkey _ IH]; intros acc.
  - exists acc. split; [reflexivity|]. split.
    + intros k. unfold sumBy. simpl. ring.
    + intros k. simpl. rewrite elem_of_nil. tauto.
  - simpl in Hkey. simpl foldl. cbn [mbind option_bind fst snd].
    rewrite (addTo_Some key x acc Hkey).
    destruct (IH (<[key := (orNumber (acc !! key) 0 + x)%Q]> acc)) as (acc' & Hrun & Hval & Hdom).
    exists acc'. split; [exact Hrun|]. split.
    + intros k. rewrite (Hval k). simpl List.filter. unfold tallied at 1.
      destruct (decide (key = k)) as [->|Hne].
      * rewrite lookup_insert_eq. cbn [default fst].
        replace (str_eqb k k) with true by (symmetry; now apply str_eqb_eq).
        rewrite sumBy_cons, orNumber_zero. cbn [snd]. unfold tallied, id. ring.
      * rewrite lookup_insert_ne by exact Hne. cbn [fst].
        replace (str_eqb key k) with false
          by (symmetry; apply not_true_iff_false; now rewrite str_eqb_eq).
        reflexivity.
    + intros k. rewrite (Hdom k). simpl map. rewrite elem_of_cons.
      destruct (decide (key = k)) as [->|Hne].
      * rewrite lookup_insert_eq. split; [intros _; right; now left|eauto].
      * rewrite lookup_insert_ne by exact Hne. split; [tauto|].
        intros [H|[H|H]]; [tauto|congruence|tauto].
Qed.

(** The keyed amounts of the two totals. *)
Lemma studyByRotation_items (js : list JournalEntry.t) (acc : option (gmap string Q)) :
  foldl (fun acc entry =>
           acc ← acc;
           if str_eqb (JournalEntry.clinicalRotation entry) "" then Some acc
           else addTo (JournalEntry.clinicalRotation entry)
                      (JournalEntry.studyHours entry) acc) acc js
  = foldl (fun a kx => a ← a; addTo (fst kx) (snd kx) a) acc
      (map (fun e => (JournalEntry.clinicalRotation e, JournalEntry.studyHours e))
           (List.filter (fun e => negb (str_eqb (JournalEntry.clinicalRotation e) "")) js)).
Proof.
  revert acc. induction js as [|e js IH]; intros acc; [reflexivity|].
  simpl. rewrite IH. destruct (str_eqb (JournalEntry.clinicalRotation e) "") eqn:E; simpl.
  - f_equal. now destruct acc.
  - reflexivity.
Qed.

Lemma symptomCounts_items (ms : list MoodEntry.t) (acc : option (gmap string Q)) :
  foldl (fun acc entry =>
           foldl (fun acc symptom => acc ← acc; addTo symptom 1 acc)
                 acc (MoodEntry.psychoticSymptoms entry)) acc ms
  = foldl (fun a kx => a ← a; addTo (fst kx) (snd kx) a) acc
      (map (fun s => (s, 1%Q)) (concat (map MoodEntry.psychoticSymptoms ms))).
Proof.
  revert acc. induction ms as [|m ms IH]; intros acc; [reflexivity|].
  simpl. rewrite IH, map_app, foldl_app. f_equal.
  generalize (MoodEntry.psychoticSymptoms m) as l. intros l. revert acc.
  induction l as [|s l IHl]; intros acc; [reflexivity|]. simpl. apply IHl.
Qed.

Lemma tallied_empty (k : string) : tallied k ∅ = 0%Q.
Proof. unfold tallied. now rewrite lookup_empty. Qed.

(** X29: the study hours by rotation, for rotation names that are not names
    every object inherits.  The totals have one key for each rotation that
    a journal entry names, none for the empty rotation, and the total of a
    rotation is the sum of the study hours of its entries. *)
Theorem study_hours_by_rotation (js : list JournalEntry.t) :
  Forall (fun e => JournalEntry.clinicalRotation e ∉ prototypeNames) js ->
  exists totals,
    studyByRotation js = Some totals /\
    totals !! ""%string = None /\
    (forall r, is_Some (totals !! r) <->
               r <> ""%string /\ exists e, e ∈ js /\ JournalEntry.clinicalRotation e = r) /\
    (forall r, r <> ""%string ->
       (tallied r totals ==
        sumBy JournalEntry.studyHours
              (List.filter (fun e => str_eqb (JournalEntry.clinicalRotation e) r) js))%Q).
Proof.
  intros Hok. unfold studyByRotation. rewrite studyByRotation_items.
  set (named := List.filter (fun e => negb (str_eqb (JournalEntry.clinicalRotation e) "")) js).
  destruct (tally_items
              (map (fun e => (JournalEntry.clinicalRotation e, JournalEntry.studyHours e)) named)
              ∅) as (totals & Hrun & Hval & Hdom).
  { apply Forall_forall. intros [k x] Hin.
    apply list_elem_of_In, in_map_iff in Hin as (e & [= <- <-] & He).
    apply filter_In in He as [He _]. rewrite Forall_forall in Hok.
    apply Hok. now apply list_elem_of_In. }
  assert (Hkeys : forall r, is_Some (totals !! r) <->
            r <> ""%string /\ exists e, e ∈ js /\ JournalEntry.clinicalRotation e = r).
  { intros r. rewrite (Hdom r), lookup_empty, map_map. simpl. split.
    - intros [[x Hx]|Hin]; [discriminate|].
      apply list_elem_of_In, in_map_iff in Hin as (e & <- & He).
      apply filter_In in He as [He Hne]. split.
      + intros E. rewrite E in Hne. discriminate.
      + exists e. split; [now apply list_elem_of_In|reflexivity].
    - intros (Hne & e & He & <-). right. apply list_elem_of_In, in_map_iff.
      exists e. split; [reflexivity|]. apply filter_In. split; [now apply list_elem_of_In|].
      apply negb_true_iff, not_true_iff_false. now rewrite str_eqb_eq. }
  exists totals. split; [exact Hrun|]. split; [|split; [exact Hkeys|]].
  - destruct (totals !! ""%string) eqn:E; [|reflexivity].
    destruct (proj1 (Hkeys ""%string)) as [H _]; [eauto|]. now contradiction H.
  - intros r Hr. rewrite (Hval r), tallied_empty, Qplus_0_l.
    assert (E : forall l : list JournalEntry.t,
               sumBy snd (List.filter (fun kx : string * Q => str_eqb (fst kx) r)
                 (map (fun e => (JournalEntry.clinicalRotation e, JournalEntry.studyHours e))
                      (List.filter
                         (fun e => negb (str_eqb (JournalEntry.clinicalRotation e) "")) l)))
               = sumBy JournalEntry.studyHours
                   (List.filter (fun e => str_eqb (JournalEntry.clinicalRotation e) r) l)).
    { unfold sumBy. generalize 0%Q as a. intros a l. revert a.
      induction l as [|e l IH]; intros a; [reflexivity|]. simpl.
      destruct (str_eqb (JournalEntry.clinicalRotation e) "") eqn:E0; simpl.
      - apply str_eqb_eq in E0.
        replace (str_eqb (JournalEntry.clinicalRotation e) r) with false; [apply IH|].
        symmetry. apply not_true_iff_false. rewrite str_eqb_eq. congruence.
      - destruct (str_eqb (JournalEntry.clinicalRotation e) r); simpl; apply IH. }
    subst named. now rewrite E.
Qed.

Lemma study_hours_by_rotation_witness :
  exists totals,
    studyByRotation rotationEntries = Some totals /\
    (tallied "Bedah" totals == 7 # 2)%Q.
Proof.
  destruct (study_hours_by_rotation rotationEntries) as (totals & Hrun & _ & _ & Hval).
  - repeat constructor; compute_done.
  - exists totals. split; [exact Hrun|].
    rewrite (Hval "Bedah"%string) by discriminate. reflexivity.
Defined.

Lemma options_not_inherited :
  Forall (fun s => s ∉ prototypeNames) psychoticSymptomOptions.
Proof. compute_done. Qed.

(** X30: the counts by symptom, for symptoms of the list of options.  The
    counts have one key for each symptom that a mood entry reports, every
    key is one of the seven options, and the count of a symptom is the
    number of times the mood entries report it. *)
Theorem symptom_counts_by_option (ms : list MoodEntry.t) :
  Forall (fun m => Forall (fun s => s ∈ psychoticSymptomOptions)
                          (MoodEntry.psychoticSymptoms m)) ms ->
  exists counts,
    symptomCounts ms = Some counts /\
    (forall s, is_Some (counts !! s) <->
               exists m, m ∈ ms /\ s ∈ MoodEntry.psychoticSymptoms m) /\
    (forall s, is_Some (counts !! s) -> s ∈ psychoticSymptomOptions) /\
    (forall s,
       (tallied s counts ==
        of_length (List.filter (fun x => str_eqb x s)
                     (concat (map MoodEntry.psychoticSymptoms ms))))%Q).
Proof.
  intros Hok. unfold symptomCounts. rewrite symptomCounts_items.
  set (reports := concat (map MoodEntry.psychoticSymptoms ms)).
  assert (Hrep : forall s, s ∈ reports <->
                   exists m, m ∈ ms /\ s ∈ MoodEntry.psychoticSymptoms m).
  { intros s. subst reports. rewrite list_elem_of_In, in_concat. split.
    - intros (l & Hl & Hs). apply in_map_iff in Hl as (m & <- & Hm).
      exists m. split; now apply list_elem_of_In.
    - intros (m & Hm & Hs). exists (MoodEntry.psychoticSymptoms m).
      split; [apply in_map|]; now apply list_elem_of_In. }
  assert (Hopt : forall s, s ∈ reports -> s ∈ psychoticSymptomOptions).
  { intros s (m & Hm & Hs)%Hrep. rewrite Forall_forall in Hok.
    specialize (Hok m Hm). rewrite Forall_forall in Hok. now apply Hok. }
  destruct (tally_items (map (fun s => (s, 1%Q)) reports) ∅) as (counts & Hrun & Hval & Hdom).
  { apply Forall_forall. intros [k x] Hin.
    apply list_elem_of_In, in_map_iff in Hin as (s & [= <- <-] & Hs).
    apply list_elem_of_In, Hopt in Hs. simpl.
    pose proof options_not_inherited as Hall. rewrite Forall_forall in Hall.
    now apply Hall. }
  assert (Hkeys : forall s, is_Some (counts !! s) <-> s ∈ reports).
  { intros s. rewrite (Hdom s), lookup_empty, map_map. simpl. rewrite map_id. split.
    - intros [[x Hx]|Hin]; [discriminate|exact Hin].
    - now right. }
  exists counts. split; [exact Hrun|]. split; [|split].
  - intros s. now rewrite Hkeys, Hrep.
  - intros s Hs%Hkeys. now apply Hopt.
  - intros s. rewrite (Hval s), tallied_empty, Qplus_0_l.
    generalize reports as l. intros l. induction l as [|x l IH]; [reflexivity|].
    simpl. destruct (str_eqb x s); simpl; [|exact IH].
    rewrite sumBy_cons, IH, of_length_cons. simpl. ring.
Qed.

Lemma symptom_counts_by_option_witness :
  exists counts,
    symptomCounts sameDaySymptoms = Some counts /\ (tallied "Paranoia" counts == 3)%Q.
Proof.
  destruct (symptom_counts_by_option sameDaySymptoms) as (counts & Hrun & _ & _ & Hval).
  - repeat constructor; compute_done.
  - exists counts. split; [exact Hrun|]. rewrite (Hval "Paranoia"%string). reflexivity.
Defined.
